(** * The n8n-mcp telemetry database: a model of its setup script

    The program is a PostgreSQL script: three tables with their column types
    and constraints, row-level-security policies, five PL/pgSQL functions and
    an audit trigger attached to the two telemetry tables.  The model below
    follows the script section by section.  Tables are lists of rows in
    insertion order, statements are functions from a database to a result
    (an error aborts the statement and leaves the database as it was), and
    the two values a statement reads from its environment -- [NOW()] and the
    identifier [uuid_generate_v4()] draws -- are arguments.

    The script means what PostgreSQL makes of it.  The rules of the engine
    that decide the behaviour of this script are written out where they are
    used: NULL in conditions and CHECK constraints, [array_length] of an
    empty array, storing into a [VARCHAR(n)] column, row level security
    with no policy for a command, the privilege SELECT asked of an UPDATE
    or a DELETE whose WHERE clause reads columns, row triggers, and the
    assignment of a boolean to an INTEGER column.

    Arguments of the SQL functions are non-NULL values; numbers are
    unbounded integers (the script stays far from the INTEGER range);
    timestamps are read in UTC and dates are dates AD. *)

From Stdlib Require Import String Ascii List ZArith Bool Arith Lia.
From Stdlib Require Import Permutation Sorted.
Import ListNotations.
Local Open Scope string_scope.
Local Open Scope Z_scope.
Local Open Scope list_scope.

(** ** Errors and results *)

(** The error conditions the script can meet, by PostgreSQL's condition
    names. *)
Inductive error : Type :=
| raise_exception (message : string)
    (* P0001: RAISE EXCEPTION in a PL/pgSQL body *)
| insufficient_privilege (relation : string)
    (* 42501: permission denied for table ... *)
| row_security_violation (relation : string)
    (* 42501: new row violates row-level security policy for table ... *)
| string_data_right_truncation (width : nat)
    (* 22001: value too long for type character varying(n) *)
| check_violation (constraint : string)
    (* 23514 *)
| unique_violation (constraint : string)
    (* 23505 *)
| datatype_mismatch (column : string)
    (* 42804: column ... is of type integer but expression is of type boolean *)
| invalid_object_definition (relation : string).
    (* 42P17: "..." is not partitioned; partition "..." would overlap
       partition ... *)

Inductive result (A : Type) : Type :=
| Ok (a : A)
| Err (e : error).

Arguments Ok {A} a.
Arguments Err {A} e.

Definition bind {A B : Type} (r : result A) (k : A -> result B) : result B :=
  match r with
  | Ok a => k a
  | Err e => Err e
  end.

Notation "x <- r ;; k" := (bind r (fun x => k))
  (at level 61, r at next level, right associativity).
Notation "' p <- r ;; k" := (bind r (fun p => k))
  (at level 61, p pattern, r at next level, right associativity).

(** A statement that needs a condition to go on. *)
Definition guard (ok : bool) (e : error) : result unit :=
  if ok then Ok tt else Err e.

(** ** SQL values *)

(** Three-valued logic: [None] is NULL.  An [IF] takes its branch only on
    true; a CHECK constraint rejects a row only on false. *)
Definition sql_bool : Type := option bool.

Definition is_true (b : sql_bool) : bool :=
  match b with
  | Some true => true
  | _ => false
  end.

Definition check_passes (b : sql_bool) : bool :=
  match b with
  | Some false => false
  | _ => true
  end.

(** [a = b], [a > b] on nullable integers. *)
Definition sql_eq (a b : option Z) : sql_bool :=
  match a, b with
  | Some x, Some y => Some (x =? y)
  | _, _ => None
  end.

Definition sql_gt (a b : option Z) : sql_bool :=
  match a, b with
  | Some x, Some y => Some (x >? y)
  | _, _ => None
  end.

(** [length(s)] of a text value. *)
Definition length (s : string) : Z := Z.of_nat (String.length s).

(** [array_length(a, 1)] of a one-dimensional array: the number of elements,
    and NULL -- not 0 -- for the empty array, which has no dimension. *)
Definition array_length {A : Type} (a : list A) : option Z :=
  match a with
  | [] => None
  | _ :: _ => Some (Z.of_nat (List.length a))
  end.

Definition is_not_null {A : Type} (v : option A) : bool :=
  match v with
  | Some _ => true
  | None => false
  end.

Definition coalesce {A : Type} (v : option A) (default : A) : A :=
  match v with
  | Some a => a
  | None => default
  end.

Fixpoint all_spaces (s : string) : bool :=
  match s with
  | EmptyString => true
  | String c rest => Ascii.eqb c " "%char && all_spaces rest
  end.

(** Storing a text value into a [VARCHAR(n)] column.  A value of at most [n]
    characters is stored as it is.  A longer one is an error, unless the
    characters past the [n]-th are all spaces: then the value is cut to [n]
    characters (the SQL standard's rule, which PostgreSQL follows).  The
    [VARCHAR(n)] of a function parameter carries no such bound: CREATE
    FUNCTION drops the length, so a parameter holds the caller's text whole. *)
Definition varchar_assign (n : nat) (s : string) : result string :=
  if (String.length s <=? n)%nat then Ok s
  else if all_spaces (substring n (String.length s - n) s)
       then Ok (substring 0 n s)
       else Err (string_data_right_truncation n).

(** A value offered to an INTEGER column. *)
Inductive sql_value : Type :=
| integer (z : Z)
| boolean (b : bool).

(** ** Dates and timestamps *)

(** A calendar date, and a timestamp as the date and the microseconds since
    midnight it shows in the session's time zone (UTC). *)
Record date : Type := mkdate { year : Z; month : Z; day : Z }.

Record timestamptz : Type := mktimestamp { ts_date : date; ts_time : Z }.

Definition is_leap_year (y : Z) : bool :=
  (y mod 4 =? 0) && (negb (y mod 100 =? 0) || (y mod 400 =? 0)).

Definition days_in_month (y m : Z) : Z :=
  if m =? 2 then (if is_leap_year y then 29 else 28)
  else if (m =? 4) || (m =? 6) || (m =? 9) || (m =? 11) then 30
  else 31.

(** [d + INTERVAL 'k months']: the month moves, the day of the month stays
    and is cut to the last day of the month reached. *)
Definition add_months (d : date) (k : Z) : date :=
  let t := year d * 12 + (month d - 1) + k in
  let y := t / 12 in
  let m := t mod 12 + 1 in
  mkdate y m (Z.min (day d) (days_in_month y m)).


(** The order of dates and of timestamps, through a number that grows with
    them. *)
Definition date_ord (d : date) : Z :=
  (year d * 12 + (month d - 1)) * 31 + (day d - 1).

Definition ts_ord (t : timestamptz) : Z :=
  date_ord (ts_date t) * 86400000000 + ts_time t.

Definition date_eqb (a b : date) : bool :=
  (year a =? year b) && (month a =? month b) && (day a =? day b).

Definition date_ltb (a b : date) : bool := date_ord a <? date_ord b.
Definition date_leb (a b : date) : bool := date_ord a <=? date_ord b.
Definition ts_ltb (a b : timestamptz) : bool := ts_ord a <? ts_ord b.
Definition ts_leb (a b : timestamptz) : bool := ts_ord a <=? ts_ord b.

(** [t BETWEEN lo AND hi]. *)
Definition between (t lo hi : timestamptz) : bool := ts_leb lo t && ts_leb t hi.

(** [t - INTERVAL '2 years']. *)
Definition minus_2_years (t : timestamptz) : timestamptz :=
  mktimestamp (add_months (ts_date t) (-24)) (ts_time t).

(** [DATE(t)] and [CURRENT_DATE]. *)
Definition DATE (t : timestamptz) : date := ts_date t.
Definition CURRENT_DATE (now : timestamptz) : date := ts_date now.

Definition digit (z : Z) : string :=
  String (ascii_of_nat (48 + Z.to_nat (z mod 10))) EmptyString.

(** The last [w] decimal digits of [z], zero-padded. *)
Fixpoint digits (w : nat) (z : Z) : string :=
  match w with
  | O => EmptyString
  | S w' => (digits w' (z / 10) ++ digit z)%string
  end.

(** The number of decimal digits of [z], 1 for [z < 10], counted in at most
    [fuel] steps. *)
Fixpoint decimal_width (fuel : nat) (z : Z) : nat :=
  match fuel with
  | O => 1%nat
  | S fuel' => if z <? 10 then 1%nat else S (decimal_width fuel' (z / 10))
  end.

(** [z] in decimal with at least [w] digits: zero-padded to [w] digits when
    it has fewer, all its digits when it has more. *)
Definition zero_padded (w : nat) (z : Z) : string :=
  digits (Nat.max w (decimal_width (Z.to_nat z) z)) z.

(** [to_char(d, 'YYYY_MM')]: the year with at least four digits, the month
    with two. *)
Definition to_char_YYYY_MM (d : date) : string :=
  (zero_padded 4 (year d) ++ "_" ++ zero_padded 2 (month d))%string.

(** ** JSON *)

(** A [jsonb] value.  [JTimestamp t] is the JSON string that
    [jsonb_build_object] makes of a timestamp. *)
#[local] Unset Elimination Schemes.
Inductive jsonb : Type :=
| JNull
| JBool (b : bool)
| JNumber (z : Z)
| JString (s : string)
| JTimestamp (t : timestamptz)
| JArray (items : list jsonb)
| JObject (fields : list (string * jsonb)).
#[local] Set Elimination Schemes.

Definition jsonb_typeof (j : jsonb) : string :=
  match j with
  | JNull => "null"
  | JBool _ => "boolean"
  | JNumber _ => "number"
  | JString _ => "string"
  | JTimestamp _ => "string"
  | JArray _ => "array"
  | JObject _ => "object"
  end.

Definition jsonb_build_object (fields : list (string * jsonb)) : jsonb :=
  JObject fields.

Definition uuid : Type := N.

(** ** Section 2 of the script: the tables *)

(** A row of [telemetry_events]. *)
Record event_row : Type := mkevent {
  ev_id : uuid;
  ev_user_id : string;          (* VARCHAR(64) NOT NULL *)
  ev_event : string;            (* VARCHAR(100) NOT NULL *)
  ev_properties : jsonb;        (* JSONB NOT NULL *)
  ev_created_at : timestamptz   (* DEFAULT NOW() *)
}.

(** A row of [telemetry_workflows]. *)
Record workflow_row : Type := mkworkflow {
  wf_id : uuid;
  wf_user_id : string;          (* VARCHAR(64) NOT NULL *)
  wf_workflow_hash : string;    (* VARCHAR(64) NOT NULL *)
  wf_node_count : Z;
  wf_node_types : list string;  (* TEXT[] NOT NULL *)
  wf_has_trigger : bool;
  wf_has_webhook : bool;
  wf_complexity : string;       (* VARCHAR(20) NOT NULL *)
  wf_sanitized_workflow : jsonb;
  wf_created_at : timestamptz
}.

(** A row of [telemetry_audit_log], without its [id] (a default no statement
    of the script reads). *)
Record audit_entry : Type := mkaudit {
  operation : string;           (* VARCHAR(50) NOT NULL *)
  table_name : string;          (* VARCHAR(50) NOT NULL *)
  record_count : option Z;      (* INTEGER *)
  user_role : option string;    (* VARCHAR(50) *)
  ip_address : option string;   (* INET *)
  metadata : option jsonb;
  audit_created_at : timestamptz
}.

(** What a table declares beyond its columns: how a proposed row is fitted to
    the column types, its CHECK constraints (tried in the order of their
    names), and its unique constraints (the primary key first), each given
    by its name and by when two rows collide on it. *)
Record relation (R : Type) : Type := mkrelation {
  relname : string;
  row_id : R -> uuid;
  coerce_row : R -> result R;
  check_row : R -> result unit;
  unique_constraints : list (string * (R -> R -> bool))
}.

Arguments relname {R} r.
Arguments row_id {R} r _.
Arguments coerce_row {R} r _.
Arguments check_row {R} r _.
Arguments unique_constraints {R} r.

Definition check (name : string) (condition : sql_bool) : result unit :=
  guard (check_passes condition) (check_violation name).

Definition events_relation : relation event_row :=
  {| relname := "telemetry_events";
     row_id := ev_id;
     coerce_row := fun r =>
       u <- varchar_assign 64 (ev_user_id r) ;;
       e <- varchar_assign 100 (ev_event r) ;;
       Ok (mkevent (ev_id r) u e (ev_properties r) (ev_created_at r));
     check_row := fun r =>
       _ <- check "telemetry_events_event_length"
              (Some ((length (ev_event r) >=? 1)
                     && (length (ev_event r) <=? 100))) ;;
       _ <- check "telemetry_events_properties_not_empty"
              (Some (jsonb_typeof (ev_properties r) =? "object")%string) ;;
       check "telemetry_events_user_id_length"
         (Some (length (ev_user_id r) >=? 16));
     unique_constraints :=
       [("telemetry_events_pkey", fun a b => N.eqb (ev_id a) (ev_id b))] |}.

Definition complexity_enum (c : string) : bool :=
  ((c =? "simple") || (c =? "medium") || (c =? "complex"))%string.

Definition workflows_relation : relation workflow_row :=
  {| relname := "telemetry_workflows";
     row_id := wf_id;
     coerce_row := fun r =>
       u <- varchar_assign 64 (wf_user_id r) ;;
       h <- varchar_assign 64 (wf_workflow_hash r) ;;
       c <- varchar_assign 20 (wf_complexity r) ;;
       Ok (mkworkflow (wf_id r) u h (wf_node_count r) (wf_node_types r)
             (wf_has_trigger r) (wf_has_webhook r) c
             (wf_sanitized_workflow r) (wf_created_at r));
     check_row := fun r =>
       _ <- check "telemetry_workflows_complexity_enum"
              (Some (complexity_enum (wf_complexity r))) ;;
       _ <- check "telemetry_workflows_node_count_positive"
              (Some (wf_node_count r >? 0)) ;;
       _ <- check "telemetry_workflows_node_types_not_empty"
              (sql_gt (array_length (wf_node_types r)) (Some 0)) ;;
       _ <- check "telemetry_workflows_sanitized_workflow_not_empty"
              (Some (jsonb_typeof (wf_sanitized_workflow r) =? "object")%string) ;;
       _ <- check "telemetry_workflows_user_id_length"
              (Some (length (wf_user_id r) >=? 16)) ;;
       check "telemetry_workflows_workflow_hash_length"
         (Some (length (wf_workflow_hash r) =? 64));
     unique_constraints :=
       [("telemetry_workflows_pkey", fun a b => N.eqb (wf_id a) (wf_id b));
        ("telemetry_workflows_unique_hash_user", fun a b =>
           ((wf_workflow_hash a =? wf_workflow_hash b)
            && (wf_user_id a =? wf_user_id b))%string)] |}.

(** ** Section 4 of the script: partitions *)

(** A partition of a table, holding the rows whose key lies in
    [[part_from, part_to)]. *)
Record partition : Type := mkpartition {
  part_name : string;
  part_parent : string;
  part_from : date;
  part_to : date
}.

(** The database: the three tables, the partitions made so far, and the
    tables that have been turned into partitioned ones (a step the script
    leaves to be run by hand after it). *)
Record database : Type := mkdatabase {
  telemetry_events : list event_row;
  telemetry_workflows : list workflow_row;
  telemetry_audit_log : list audit_entry;
  partitions : list partition;
  partitioned_tables : list string
}.

Definition with_events (rows : list event_row) (db : database) : database :=
  mkdatabase rows (telemetry_workflows db) (telemetry_audit_log db)
    (partitions db) (partitioned_tables db).

Definition with_workflows (rows : list workflow_row) (db : database) : database :=
  mkdatabase (telemetry_events db) rows (telemetry_audit_log db)
    (partitions db) (partitioned_tables db).

Definition with_audit_log (log : list audit_entry) (db : database) : database :=
  mkdatabase (telemetry_events db) (telemetry_workflows db) log
    (partitions db) (partitioned_tables db).

Definition with_partitions (ps : list partition) (db : database) : database :=
  mkdatabase (telemetry_events db) (telemetry_workflows db)
    (telemetry_audit_log db) ps (partitioned_tables db).

(** One of the two telemetry tables inside the database. *)
Record store (R : Type) : Type := mkstore {
  store_relation : relation R;
  store_rows : database -> list R;
  store_put : list R -> database -> database
}.

Arguments store_relation {R} s.
Arguments store_rows {R} s _.
Arguments store_put {R} s _ _.

Definition events_store : store event_row :=
  mkstore event_row events_relation telemetry_events with_events.

Definition workflows_store : store workflow_row :=
  mkstore workflow_row workflows_relation telemetry_workflows with_workflows.

Definition partition_overlaps (a_from a_to b_from b_to : date) : bool :=
  date_ltb a_from b_to && date_ltb b_from a_to.

Definition relation_exists (name : string) (db : database) : bool :=
  existsb (String.eqb name)
    ("telemetry_events" :: "telemetry_workflows" :: "telemetry_audit_log"
       :: map part_name (partitions db)).

(** [CREATE TABLE IF NOT EXISTS name PARTITION OF parent FOR VALUES FROM
    (from) TO (to)]: nothing happens when a relation of that name exists;
    otherwise the parent must be partitioned ("parent" is not partitioned)
    and the new range must not meet a range of one of its partitions
    (partition "name" would overlap); both are reported under the condition
    invalid_object_definition, the first for the parent, the second for the
    new partition. *)
Definition create_table_if_not_exists_partition_of
    (name parent : string) (from to : date) (db : database) : result database :=
  if relation_exists name db then Ok db
  else
    _ <- guard (existsb (String.eqb parent) (partitioned_tables db))
           (invalid_object_definition parent) ;;
    _ <- guard (negb (existsb
                        (fun p => (part_parent p =? parent)%string
                                  && partition_overlaps from to
                                       (part_from p) (part_to p))
                        (partitions db)))
           (invalid_object_definition name) ;;
    Ok (with_partitions (partitions db ++ [mkpartition name parent from to]) db).

(** [create_telemetry_partition(table_name, start_date)]. *)
Definition create_telemetry_partition
    (table_name : string) (start_date : date) (db : database) : result database :=
  let end_date := add_months start_date 1 in
  let partition_name := (table_name ++ "_" ++ to_char_YYYY_MM start_date)%string in
  db1 <- (if (table_name =? "telemetry_events")%string
          then create_table_if_not_exists_partition_of
                 partition_name table_name start_date end_date db
          else Ok db) ;;
  if (table_name =? "telemetry_workflows")%string
  then create_table_if_not_exists_partition_of
         partition_name table_name start_date end_date db1
  else Ok db1.

(** ** Section 5 of the script: row level security *)

Inductive command : Type := SELECT | INSERT | UPDATE | DELETE.

(** [TG_OP], the text a trigger reads for the statement that fired it. *)
Definition command_tag (c : command) : string :=
  match c with
  | SELECT => "SELECT"
  | INSERT => "INSERT"
  | UPDATE => "UPDATE"
  | DELETE => "DELETE"
  end.

Definition command_eqb (a b : command) : bool :=
  (command_tag a =? command_tag b)%string.

Inductive policy_command : Type :=
| FOR_ALL
| FOR (c : command).

(** [CREATE POLICY name ON relation FOR command TO role USING (u) WITH CHECK
    (w)]; the script's expressions are all the constant [true]. *)
Record policy : Type := mkpolicy {
  polname : string;
  polrelation : string;
  polcmd : policy_command;
  polrole : string;
  polqual : option bool;        (* USING *)
  polwithcheck : option bool    (* WITH CHECK *)
}.

Definition policies : list policy :=
  [ mkpolicy "anon_insert_telemetry_events" "telemetry_events"
      (FOR INSERT) "anon" None (Some true);
    mkpolicy "anon_insert_telemetry_workflows" "telemetry_workflows"
      (FOR INSERT) "anon" None (Some true);
    mkpolicy "service_role_all_telemetry_events" "telemetry_events"
      FOR_ALL "service_role" (Some true) (Some true);
    mkpolicy "service_role_all_telemetry_workflows" "telemetry_workflows"
      FOR_ALL "service_role" (Some true) (Some true);
    mkpolicy "service_role_all_audit_log" "telemetry_audit_log"
      FOR_ALL "service_role" (Some true) (Some true) ].

(** [ALTER TABLE ... ENABLE ROW LEVEL SECURITY]. *)
Definition row_level_security : list string :=
  ["telemetry_events"; "telemetry_workflows"; "telemetry_audit_log"].

(** Who runs a statement: the role the session has set (what
    [current_setting('role')] returns), and whether the statement runs with
    the rights of the owner of the tables, whom neither privileges nor row
    level security restrict. *)
Record session : Type := mksession {
  role : string;
  table_owner : bool
}.

Definition anon : session := mksession "anon" false.
Definition service_role : session := mksession "service_role" false.

(** The body of a SECURITY DEFINER function runs with its owner's rights;
    the role setting stays the caller's. *)
Definition security_definer (s : session) : session :=
  mksession (role s) true.

Definition policy_applies (p : policy) (s : session) (rel : string) (c : command) : bool :=
  (polrelation p =? rel)%string
  && (polrole p =? role s)%string
  && match polcmd p with
     | FOR_ALL => true
     | FOR c' => command_eqb c' c
     end.

Definition restricted (s : session) (rel : string) : bool :=
  negb (table_owner s) && existsb (String.eqb rel) row_level_security.

(** The rows of [rel] a [c] statement of the session can see: with no policy
    for it, none (a statement then finds no row; it is not an error). *)
Definition rls_using (s : session) (rel : string) (c : command) : bool :=
  negb (restricted s rel)
  || existsb (fun p => policy_applies p s rel c && coalesce (polqual p) false)
       policies.

(** Whether the session may add a row to [rel] by a [c] statement; WITH
    CHECK, and USING where a policy has no WITH CHECK. *)
Definition rls_with_check (s : session) (rel : string) (c : command) : bool :=
  negb (restricted s rel)
  || existsb (fun p => policy_applies p s rel c
                       && coalesce (polwithcheck p) (coalesce (polqual p) false))
       policies.

(** The condition of the audit trigger, "only log for non-anonymous
    operations": [TG_OP != 'INSERT' OR (TG_OP = 'INSERT' AND
    current_setting('role') != 'anon')]. *)
Definition non_anonymous_operation (s : session) (TG_OP : command) : bool :=
  negb (command_tag TG_OP =? "INSERT")%string
  || ((command_tag TG_OP =? "INSERT")%string && negb (role s =? "anon")%string).

Section Engine.

(** Two things the script does not fix.  [has_table_privilege role rel c]:
    the table privileges, which are granted outside this script.
    [boolean_to_integer b]: what an INSERT does with a boolean expression
    offered to an INTEGER column, [None] for rejecting the statement. *)
Variable has_table_privilege : string -> string -> command -> bool.
Variable boolean_to_integer : bool -> option Z.

Definition aclcheck (s : session) (rel : string) (c : command) : result unit :=
  guard (table_owner s || has_table_privilege (role s) rel c)
    (insufficient_privilege rel).

Definition assign_integer (column : string) (v : sql_value) : result Z :=
  match v with
  | integer z => Ok z
  | boolean b =>
      match boolean_to_integer b with
      | Some z => Ok z
      | None => Err (datatype_mismatch column)
      end
  end.

(** [INSERT INTO telemetry_audit_log (operation, table_name, record_count,
    user_role, metadata) VALUES (...)], one row. *)
Definition insert_audit_log (s : session) (now : timestamptz)
    (op tbl : string) (count : sql_value) (urole : string) (meta : jsonb)
    (log : list audit_entry) : result (list audit_entry) :=
  n <- assign_integer "record_count" count ;;
  _ <- aclcheck s "telemetry_audit_log" INSERT ;;
  op' <- varchar_assign 50 op ;;
  tbl' <- varchar_assign 50 tbl ;;
  urole' <- varchar_assign 50 urole ;;
  _ <- guard (rls_with_check s "telemetry_audit_log" INSERT)
         (row_security_violation "telemetry_audit_log") ;;
  Ok (log ++ [mkaudit op' tbl' (Some n) (Some urole') None (Some meta) now]).

(** ** Section 10 of the script: the audit trigger *)

(** [audit_telemetry_changes()], fired AFTER INSERT OR UPDATE OR DELETE ...
    FOR EACH ROW with [TG_OP], [TG_TABLE_NAME] and the row ([OLD] for a
    DELETE, [NEW] otherwise), of which it reads the [id]. *)
Definition audit_telemetry_changes (s : session) (now : timestamptz)
    (TG_OP : command) (TG_TABLE_NAME : string) (id : uuid)
    (log : list audit_entry) : result (list audit_entry) :=
  if non_anonymous_operation s TG_OP
  then
    insert_audit_log s now
      (command_tag TG_OP)
      TG_TABLE_NAME
      (boolean (is_not_null (Some id)))
      (coalesce (Some (role s)) "unknown")
      (jsonb_build_object
         [("timestamp", JTimestamp now);
          ("operation", JString (command_tag TG_OP));
          ("table", JString TG_TABLE_NAME)])
      log
  else Ok log.

(** The trigger, once for each row the statement touched, in order. *)
Fixpoint fire_row_triggers (s : session) (now : timestamptz) (op : command)
    (tbl : string) (ids : list uuid) (log : list audit_entry)
    : result (list audit_entry) :=
  match ids with
  | [] => Ok log
  | id :: rest =>
      log' <- audit_telemetry_changes s now op tbl id log ;;
      fire_row_triggers s now op tbl rest log'
  end.

(** ** Statements on a telemetry table *)

Section Statements.

Context {R : Type}.
Variable T : store R.

Let rel : relation R := store_relation T.

(** [SELECT * FROM t WHERE w]. *)
Definition sql_select (s : session) (w : R -> bool) (db : database)
    : result (list R) :=
  _ <- aclcheck s (relname rel) SELECT ;;
  Ok (filter (fun r => rls_using s (relname rel) SELECT && w r) (store_rows T db)).

(** The first unique constraint on which [r] collides with a stored row. *)
Definition violated_unique (r : R) (rows : list R) : option string :=
  option_map fst
    (find (fun uc => existsb (snd uc r) rows) (unique_constraints rel)).

(** Whether [r] collides with a stored row on the constraint an ON CONFLICT
    clause names. *)
Definition conflicts_on (arbiter : string) (r : R) (rows : list R) : bool :=
  existsb (fun uc => (fst uc =? arbiter)%string && existsb (snd uc r) rows)
    (unique_constraints rel).

(** One proposed row: fitted to the column types, checked against the
    policies and the CHECK constraints, then against the unique constraints.
    With [ON CONFLICT (arbiter) DO NOTHING] a collision on the arbiter leaves
    the row out without an error.  Returns the rows inserted (one or none). *)
Definition insert_row (s : session) (on_conflict_do_nothing : option string)
    (r : R) (rows : list R) : result (list R * list R) :=
  r1 <- coerce_row rel r ;;
  _ <- guard (rls_with_check s (relname rel) INSERT)
         (row_security_violation (relname rel)) ;;
  _ <- check_row rel r1 ;;
  if match on_conflict_do_nothing with
     | Some arbiter => conflicts_on arbiter r1 rows
     | None => false
     end
  then Ok ([], rows)
  else
    match violated_unique r1 rows with
    | Some c => Err (unique_violation c)
    | None => Ok ([r1], rows ++ [r1])
    end.

Fixpoint insert_rows (s : session) (on_conflict_do_nothing : option string)
    (new : list R) (rows : list R) : result (list R * list R) :=
  match new with
  | [] => Ok ([], rows)
  | r :: rest =>
      '(ins, rows1) <- insert_row s on_conflict_do_nothing r rows ;;
      '(ins', rows2) <- insert_rows s on_conflict_do_nothing rest rows1 ;;
      Ok (ins ++ ins', rows2)
  end.

(** [INSERT INTO t VALUES new [ON CONFLICT ... DO NOTHING]]: the rows, then
    the row triggers.  Returns the rows inserted. *)
Definition sql_insert (s : session) (now : timestamptz)
    (on_conflict_do_nothing : option string) (new : list R) (db : database)
    : result (list R * database) :=
  _ <- aclcheck s (relname rel) INSERT ;;
  '(ins, rows') <- insert_rows s on_conflict_do_nothing new (store_rows T db) ;;
  log' <- fire_row_triggers s now INSERT (relname rel) (map (row_id rel) ins)
            (telemetry_audit_log db) ;;
  Ok (ins, with_audit_log log' (store_put T rows' db)).

(** A statement whose WHERE or SET reads columns of the table is, for the
    policies, a SELECT as well: it sees the rows that the policies of its
    own command and those of SELECT both show. *)
Definition rls_reading (s : session) (c : command) : bool :=
  rls_using s (relname rel) c && rls_using s (relname rel) SELECT.

(** The rows of an UPDATE one after the other: [done] holds the rows already
    passed (updated or not), [todo] the rows to come; a new row is checked
    against all the others as they stand. *)
Fixpoint update_rows (s : session) (set : R -> R) (w : R -> bool)
    (done todo : list R) : result (list R * list R) :=
  match todo with
  | [] => Ok ([], done)
  | r :: rest =>
      if rls_reading s UPDATE && w r then
        r1 <- coerce_row rel (set r) ;;
        _ <- guard (rls_with_check s (relname rel) UPDATE
                    && rls_using s (relname rel) SELECT)
               (row_security_violation (relname rel)) ;;
        _ <- check_row rel r1 ;;
        match violated_unique r1 (done ++ rest) with
        | Some c => Err (unique_violation c)
        | None =>
            '(upd, rows') <- update_rows s set w (done ++ [r1]) rest ;;
            Ok (r1 :: upd, rows')
        end
      else update_rows s set w (done ++ [r]) rest
  end.

(** [UPDATE t SET ... WHERE w], where SET or WHERE reads columns of the
    table: the statement needs the privilege SELECT besides UPDATE.  Returns
    the number of rows updated. *)
Definition sql_update (s : session) (now : timestamptz)
    (set : R -> R) (w : R -> bool) (db : database) : result (Z * database) :=
  _ <- aclcheck s (relname rel) UPDATE ;;
  _ <- aclcheck s (relname rel) SELECT ;;
  '(upd, rows') <- update_rows s set w [] (store_rows T db) ;;
  log' <- fire_row_triggers s now UPDATE (relname rel) (map (row_id rel) upd)
            (telemetry_audit_log db) ;;
  Ok (Z.of_nat (List.length upd), with_audit_log log' (store_put T rows' db)).

(** [DELETE FROM t WHERE w], where [w] reads columns of the table, as the
    WHERE clauses of the repository do: the statement needs the privilege
    SELECT besides DELETE.  Returns the number of rows deleted (what GET
    DIAGNOSTICS ... = ROW_COUNT reads). *)
Definition sql_delete (s : session) (now : timestamptz)
    (w : R -> bool) (db : database) : result (Z * database) :=
  _ <- aclcheck s (relname rel) DELETE ;;
  _ <- aclcheck s (relname rel) SELECT ;;
  let hit := fun r => rls_reading s DELETE && w r in
  let old := filter hit (store_rows T db) in
  log' <- fire_row_triggers s now DELETE (relname rel) (map (row_id rel) old)
            (telemetry_audit_log db) ;;
  Ok (Z.of_nat (List.length old),
      with_audit_log log'
        (store_put T (filter (fun r => negb (hit r)) (store_rows T db)) db)).

(** A statement that changes a table -- an INSERT, or an UPDATE or a DELETE
    with a WHERE clause on the table's columns -- and its run: the number of
    rows it touched and the database it leaves. *)
Inductive mutation : Type :=
| Insert (on_conflict_do_nothing : option string) (new : list R)
| Update (set : R -> R) (w : R -> bool)
| Delete (w : R -> bool).

Definition mutation_command (m : mutation) : command :=
  match m with
  | Insert _ _ => INSERT
  | Update _ _ => UPDATE
  | Delete _ => DELETE
  end.

Definition execute (s : session) (now : timestamptz) (m : mutation)
    (db : database) : result (Z * database) :=
  match m with
  | Insert arbiter new =>
      '(ins, db') <- sql_insert s now arbiter new db ;;
      Ok (Z.of_nat (List.length ins), db')
  | Update set w => sql_update s now set w db
  | Delete w => sql_delete s now w db
  end.

End Statements.

(** ** Section 6 of the script: functions *)

(** [IF condition THEN RAISE EXCEPTION message; END IF;] *)
Definition raise_if (condition : sql_bool) (message : string) : result unit :=
  if is_true condition then Err (raise_exception message) else Ok tt.

(** The block "Validate inputs" of [insert_telemetry_event]. *)
Definition validate_telemetry_event
    (p_user_id p_event : string) (p_properties : jsonb) : result unit :=
  _ <- raise_if (Some (length p_user_id <? 16))
         "user_id must be at least 16 characters" ;;
  _ <- raise_if (Some ((length p_event <? 1) || (length p_event >? 100)))
         "event must be between 1 and 100 characters" ;;
  raise_if (Some (negb (jsonb_typeof p_properties =? "object")%string))
    "properties must be a JSON object".

(** [insert_telemetry_event(p_user_id, p_event, p_properties)], SECURITY
    DEFINER.  [new_id] is the identifier the column default draws. *)
Definition insert_telemetry_event (s : session) (now : timestamptz)
    (new_id : uuid) (p_user_id p_event : string) (p_properties : jsonb)
    (db : database) : result (option uuid * database) :=
  _ <- validate_telemetry_event p_user_id p_event p_properties ;;
  '(ins, db') <- sql_insert events_store (security_definer s) now None
                   [mkevent new_id p_user_id p_event p_properties now] db ;;
  Ok (option_map ev_id (hd_error ins), db').

(** The block "Validate inputs" of [insert_telemetry_workflow]. *)
Definition validate_telemetry_workflow
    (p_user_id p_workflow_hash : string) (p_node_count : Z)
    (p_node_types : list string) (p_complexity : string)
    (p_sanitized_workflow : jsonb) : result unit :=
  _ <- raise_if (Some (length p_user_id <? 16))
         "user_id must be at least 16 characters" ;;
  _ <- raise_if (Some (negb (length p_workflow_hash =? 64)))
         "workflow_hash must be exactly 64 characters" ;;
  _ <- raise_if (Some (p_node_count <=? 0))
         "node_count must be positive" ;;
  _ <- raise_if (sql_eq (array_length p_node_types) (Some 0))
         "node_types cannot be empty" ;;
  _ <- raise_if (Some (negb (complexity_enum p_complexity)))
         "complexity must be simple, medium, or complex" ;;
  raise_if (Some (negb (jsonb_typeof p_sanitized_workflow =? "object")%string))
    "sanitized_workflow must be a JSON object".

(** [insert_telemetry_workflow(...)], SECURITY DEFINER: the identifier of
    the new row, or NULL when ON CONFLICT left the row out. *)
Definition insert_telemetry_workflow (s : session) (now : timestamptz)
    (new_id : uuid) (p_user_id p_workflow_hash : string) (p_node_count : Z)
    (p_node_types : list string) (p_has_trigger p_has_webhook : bool)
    (p_complexity : string) (p_sanitized_workflow : jsonb)
    (db : database) : result (option uuid * database) :=
  _ <- validate_telemetry_workflow p_user_id p_workflow_hash p_node_count
         p_node_types p_complexity p_sanitized_workflow ;;
  '(ins, db') <- sql_insert workflows_store (security_definer s) now
                   (Some "telemetry_workflows_unique_hash_user")
                   [mkworkflow new_id p_user_id p_workflow_hash p_node_count
                      p_node_types p_has_trigger p_has_webhook p_complexity
                      p_sanitized_workflow now] db ;;
  Ok (option_map wf_id (hd_error ins), db').

(** [COUNT( * )] of the rows a condition keeps. *)
Definition count {A : Type} (w : A -> bool) (rows : list A) : Z :=
  Z.of_nat (List.length (filter w rows)).

(** [get_telemetry_stats(start_date, end_date)], SECURITY DEFINER: the five
    rows [(metric, value)] in the order of the UNION ALL. *)
Definition get_telemetry_stats (now start_date end_date : timestamptz)
    (db : database) : list (string * Z) :=
  let ev_in := fun r => between (ev_created_at r) start_date end_date in
  let wf_in := fun r => between (wf_created_at r) start_date end_date in
  [ ("total_events", count ev_in (telemetry_events db));
    ("total_workflows", count wf_in (telemetry_workflows db));
    ("unique_users",
      Z.of_nat (List.length
        (nodup string_dec
           (map ev_user_id (filter ev_in (telemetry_events db))
            ++ map wf_user_id (filter wf_in (telemetry_workflows db))))));
    ("events_today",
      count (fun r => date_eqb (DATE (ev_created_at r)) (CURRENT_DATE now))
        (telemetry_events db));
    ("workflows_today",
      count (fun r => date_eqb (DATE (wf_created_at r)) (CURRENT_DATE now))
        (telemetry_workflows db)) ].

(** The value of one metric of the result. *)
Definition metric_value (metric : string) (stats : list (string * Z)) : option Z :=
  option_map snd (find (fun row => (fst row =? metric)%string) stats).

(** ** Section 7 of the script: retention *)

(** [cleanup_old_telemetry_data()], run with the caller's rights at time
    [now]. *)
Definition cleanup_old_telemetry_data (s : session) (now : timestamptz)
    (db : database) : result (Z * database) :=
  let cutoff_date := minus_2_years now in
  '(deleted_events, db1) <-
     sql_delete events_store s now
       (fun r => ts_ltb (ev_created_at r) cutoff_date) db ;;
  '(deleted_workflows, db2) <-
     sql_delete workflows_store s now
       (fun r => ts_ltb (wf_created_at r) cutoff_date) db1 ;;
  log1 <- insert_audit_log s now "DELETE" "telemetry_events"
            (integer deleted_events) "system"
            (jsonb_build_object [("cutoff_date", JTimestamp cutoff_date)])
            (telemetry_audit_log db2) ;;
  log2 <- insert_audit_log s now "DELETE" "telemetry_workflows"
            (integer deleted_workflows) "system"
            (jsonb_build_object [("cutoff_date", JTimestamp cutoff_date)])
            log1 ;;
  Ok (deleted_events + deleted_workflows, with_audit_log log2 db2).

End Engine.

(** ** The engine's rule and two sets of privileges *)

(** PostgreSQL registers the cast from boolean to integer as explicit only:
    an INSERT that offers a boolean expression to an INTEGER column is
    rejected ("column is of type integer but expression is of type
    boolean"). *)
Definition pg_boolean_to_integer : bool -> option Z := fun _ => None.

(** Every role holds every table privilege, so that only the policies
    restrict a role. *)
Definition all_privileges : string -> string -> command -> bool :=
  fun _ _ _ => true.

(** [anon] holds INSERT only; the other roles hold every privilege. *)
Definition anon_insert_only : string -> string -> command -> bool :=
  fun r _ c => negb (r =? "anon")%string || command_eqb c INSERT.

(** ** Reading the tables *)

(** A stored workflow with the given fingerprint and user: the pair of the
    constraint [telemetry_workflows_unique_hash_user]. *)
Definition same_submission (workflow_hash user_id : string) (r : workflow_row) : bool :=
  ((workflow_hash =? wf_workflow_hash r) && (user_id =? wf_user_id r))%string.

(** Whether the range of a partition holds a date. *)
Definition partition_covers (p : partition) (d : date) : bool :=
  date_leb (part_from p) d && date_ltb d (part_to p).

(** The rows [cleanup_old_telemetry_data] run at [now] looks for. *)
Definition event_expired (now : timestamptz) (r : event_row) : bool :=
  ts_ltb (ev_created_at r) (minus_2_years now).

Definition workflow_expired (now : timestamptz) (r : workflow_row) : bool :=
  ts_ltb (wf_created_at r) (minus_2_years now).

(** ** Reading the audit log *)

(** The log grew from [before] to [after] by exactly [n] entries, each for
    the statement [op] on the table [tbl]. *)
Definition audit_trail (op : command) (tbl : string) (n : Z)
    (before after : list audit_entry) : Prop :=
  exists entries,
    after = before ++ entries
    /\ Z.of_nat (List.length entries) = n
    /\ Forall (fun e => operation e = command_tag op /\ table_name e = tbl)
         entries.

(** The entry [cleanup_old_telemetry_data], run at [now], writes for one
    table: operation DELETE, role "system", the number of rows deleted, and
    the cutoff as metadata. *)
Definition cleanup_entry (tbl : string) (deleted : Z) (now : timestamptz) : audit_entry :=
  mkaudit "DELETE" tbl (Some deleted) (Some "system") None
    (Some (JObject [("cutoff_date", JTimestamp (minus_2_years now))]))
    now.

(** ** Sample data *)

Definition midnight (y m d : Z) : timestamptz := mktimestamp (mkdate y m d) 0.

(** The time of the sample runs; the cutoff of a cleanup is then 15 June
    2023. *)
Definition now_2025 : timestamptz := midnight 2025 6 15.

Definition user_a : string := "aaaaaaaaaaaaaaaaaaaa".

Definition hash_1 : string :=
  "0123456789abcdef0123456789abcdef0123456789abcdef0123456789abcdef".

Definition empty_database : database := mkdatabase [] [] [] [] [].

Definition event_2020 : event_row :=
  mkevent 1%N user_a "tool_usage" (JObject [("tool", JString "slack")])
    (midnight 2020 1 1).

Definition event_2025 : event_row :=
  mkevent 2%N user_a "session_start" (JObject []) (midnight 2025 6 1).

Definition workflow_2025 : workflow_row :=
  mkworkflow 3%N user_a hash_1 2 ["webhook"; "http"] true true "simple"
    (JObject []) (midnight 2025 6 1).

(** One event past the retention horizon of June 2025, one inside it. *)
Definition database_old_event : database :=
  mkdatabase [event_2020; event_2025] [workflow_2025] [] [] [].

Definition database_recent : database :=
  mkdatabase [event_2025] [workflow_2025] [] [] [].

Definition workflow_2020 : workflow_row :=
  mkworkflow 4%N user_a hash_1 3 ["webhook"; "set"; "if"] true true "medium"
    (JObject []) (midnight 2020 1 1).

(** One workflow past the retention horizon of June 2025, no such event. *)
Definition database_old_workflow : database :=
  mkdatabase [event_2025] [workflow_2020] [] [] [].

Definition database_partitioned : database :=
  mkdatabase [] [] [] [] ["telemetry_events"; "telemetry_workflows"].

(** Sixty-five characters: sixteen letters and forty-nine spaces. *)
Definition user_padded : string :=
  "aaaaaaaaaaaaaaaa                                                 ".

(** Sixty-five letters. *)
Definition user_65 : string :=
  "aaaaaaaaaaaaaaaaaaaaaaaaaaaaaaaaaaaaaaaaaaaaaaaaaaaaaaaaaaaaaaaaa".

Definition anon_event : event_row :=
  mkevent 7%N user_a "tool_usage" (JObject [("tool", JString "slack")]) now_2025.

(** The session of a scheduled job run by the owner of the tables, who has
    set no role. *)
Definition owner_job : session := mksession "none" true.

(** [database_recent] after a cleanup in June 2025. *)
Definition database_recent_cleaned : database :=
  mkdatabase [event_2025] [workflow_2025]
    [cleanup_entry "telemetry_events" 0 now_2025;
     cleanup_entry "telemetry_workflows" 0 now_2025]
    [] [].


(** The partition made for the reference date 1 January 2025. *)
Definition partition_january : partition :=
  mkpartition "telemetry_events_2025_01" "telemetry_events"
    (mkdate 2025 1 1) (mkdate 2025 2 1).

(** A valid submission as [insert_telemetry_workflow] stores it. *)
Definition submitted_workflow : workflow_row :=
  mkworkflow 9%N user_a hash_1 2 ["webhook"; "http"] true true "simple"
    (JObject []) now_2025.

(** A submission whose list of node types is empty, valid otherwise. *)
Definition workflow_without_node_types : workflow_row :=
  mkworkflow 9%N user_a hash_1 2 [] true false "simple" (JObject []) now_2025.

(** ** Section 9 of the script: the view of daily activity *)

(** Days since 1 January 1970 of a date of the Gregorian calendar, and the
    date of a day number. *)
Definition days_from_civil (d : date) : Z :=
  let y := if month d <=? 2 then year d - 1 else year d in
  let era := y / 400 in
  let yoe := y - era * 400 in
  let doy := (153 * (if month d >? 2 then month d - 3 else month d + 9) + 2) / 5
             + day d - 1 in
  let doe := yoe * 365 + yoe / 4 - yoe / 100 + doy in
  era * 146097 + doe - 719468.

Definition civil_from_days (z : Z) : date :=
  let z := z + 719468 in
  let era := z / 146097 in
  let doe := z - era * 146097 in
  let yoe := (doe - doe / 1460 + doe / 36524 - doe / 146096) / 365 in
  let doy := doe - (365 * yoe + yoe / 4 - yoe / 100) in
  let mp := (5 * doy + 2) / 153 in
  let d := doy - (153 * mp + 2) / 5 + 1 in
  let m := if mp <? 10 then mp + 3 else mp - 9 in
  mkdate (if m <=? 2 then yoe + era * 400 + 1 else yoe + era * 400) m d.

(** [t - INTERVAL 'n days']. *)
Definition minus_days (t : timestamptz) (n : Z) : timestamptz :=
  mktimestamp (civil_from_days (days_from_civil (ts_date t) - n)) (ts_time t).

(** A row of the subquery [combined]. *)
Record activity : Type := mkactivity {
  act_created_at : timestamptz;
  act_user_id : string;
  act_table_name : string
}.

Definition combined (db : database) : list activity :=
  map (fun r => mkactivity (ev_created_at r) (ev_user_id r) "events")
    (telemetry_events db)
  ++ map (fun r => mkactivity (wf_created_at r) (wf_user_id r) "workflows")
       (telemetry_workflows db).

Definition date_eq_dec (a b : date) : {a = b} + {a <> b}.
Proof. decide equality; apply Z.eq_dec. Defined.

(** ORDER BY date DESC, by insertion. *)
Fixpoint insert_desc (d : date) (l : list date) : list date :=
  match l with
  | [] => [d]
  | x :: rest => if date_leb x d then d :: l else x :: insert_desc d rest
  end.

Definition order_by_date_desc (l : list date) : list date :=
  fold_right insert_desc [] l.

(** A row of the view. *)
Record daily_activity : Type := mkdaily {
  da_date : date;
  da_events : Z;
  da_workflows : Z;
  da_active_users : Z
}.

(** The rows of [combined] the view reads at [now]. *)
Definition recent_activity (now : timestamptz) (db : database) : list activity :=
  filter (fun a => ts_leb (minus_days now 90) (act_created_at a)) (combined db).

(** The group of one date. *)
Definition activity_on (d : date) (l : list activity) : list activity :=
  filter (fun a => date_eqb (DATE (act_created_at a)) d) l.

(** [telemetry_daily_activity], read at [now]. *)
Definition telemetry_daily_activity (now : timestamptz) (db : database)
    : list daily_activity :=
  let recent := recent_activity now db in
  map (fun d =>
         let group := activity_on d recent in
         mkdaily d
           (count (fun a => (act_table_name a =? "events")%string) group)
           (count (fun a => (act_table_name a =? "workflows")%string) group)
           (Z.of_nat (List.length (nodup string_dec (map act_user_id group)))))
    (order_by_date_desc
       (nodup date_eq_dec (map (fun a => DATE (act_created_at a)) recent))).

(** ** The scripts that write to the tables *)

(** Test 1 of verify-telemetry-fix.js: with the anon key,
    [supabase.from('telemetry_events').insert([{user_id: testUserId, event:
    'verification_test', properties: {fixed: true}}])], where [testUserId]
    is ['verify-' + crypto.randomBytes(4).toString('hex')]; [hex] stands for
    the eight hexadecimal digits. *)
Definition verify_telemetry_fix_test_1
    (P : string -> string -> command -> bool) (b2i : bool -> option Z)
    (now : timestamptz) (new_id : uuid) (hex : string) (db : database)
    : result (list event_row * database) :=
  sql_insert P b2i events_store anon now None
    [mkevent new_id ("verify-" ++ hex)%string "verification_test"
       (JObject [("fixed", JBool true)]) now]
    db.

(** ** Reading the partitions *)

(** No two partitions of one table overlap, and no two relations share a
    name. *)
Definition partitions_consistent (db : database) : Prop :=
  NoDup ("telemetry_events" :: "telemetry_workflows" :: "telemetry_audit_log"
           :: map part_name (partitions db))
  /\ ForallOrdPairs
       (fun p q => part_parent p = part_parent q ->
                   partition_overlaps (part_from p) (part_to p)
                     (part_from q) (part_to q) = false)
       (partitions db).

(** A partition as a call of [create_telemetry_partition] for the first day
    of a month makes it. *)
Definition monthly_partition (p : partition) : Prop :=
  exists d,
    day d = 1 /\ 1 <= month d <= 12 /\ 0 <= year d <= 9999
    /\ p = mkpartition (part_parent p ++ "_" ++ to_char_YYYY_MM d)%string
             (part_parent p) d (add_months d 1).

(** ** Reading the statistics and the view *)

(** The value of one metric of [get_telemetry_stats] (0 for a name that is
    no metric). *)
Definition stat (metric : string) (now start_date end_date : timestamptz)
    (db : database) : Z :=
  coalesce (metric_value metric (get_telemetry_stats now start_date end_date db)) 0.

(** The users with a row, event or workflow, inside the window. *)
Definition seen_between (start_date end_date : timestamptz) (db : database)
    (user : string) : Prop :=
  (exists r, In r (telemetry_events db)
             /\ between (ev_created_at r) start_date end_date = true
             /\ ev_user_id r = user)
  \/ (exists r, In r (telemetry_workflows db)
                /\ between (wf_created_at r) start_date end_date = true
                /\ wf_user_id r = user).

(** A column of the view summed over its rows. *)
Definition total (column : daily_activity -> Z) (rows : list daily_activity) : Z :=
  fold_right (fun r acc => column r + acc) 0 rows.

(** ** Reading the constraints *)

(** A row as a table accepts it: it fits the column types as it is and
    passes the CHECK constraints.  A table whose rows all do, no two of them
    colliding on a unique constraint. *)
Definition satisfies {R : Type} (rel : relation R) (r : R) : Prop :=
  coerce_row rel r = Ok r /\ check_row rel r = Ok tt.

Definition table_consistent {R : Type} (rel : relation R) (rows : list R) : Prop :=
  Forall (satisfies rel) rows
  /\ ForallOrdPairs
       (fun a b => forall uc, In uc (unique_constraints rel) -> snd uc a b = false)
       rows.

(** The same in terms of the columns: what the declarations of the two
    telemetry tables promise of every stored row. *)
Definition event_valid (r : event_row) : Prop :=
  16 <= length (ev_user_id r) <= 64
  /\ 1 <= length (ev_event r) <= 100
  /\ jsonb_typeof (ev_properties r) = "object".

Definition workflow_valid (r : workflow_row) : Prop :=
  16 <= length (wf_user_id r) <= 64
  /\ length (wf_workflow_hash r) = 64
  /\ 0 < wf_node_count r
  /\ complexity_enum (wf_complexity r) = true
  /\ jsonb_typeof (wf_sanitized_workflow r) = "object".

Definition database_consistent (db : database) : Prop :=
  Forall event_valid (telemetry_events db)
  /\ NoDup (map ev_id (telemetry_events db))
  /\ Forall workflow_valid (telemetry_workflows db)
  /\ NoDup (map wf_id (telemetry_workflows db))
  /\ NoDup (map (fun r => (wf_workflow_hash r, wf_user_id r))
             (telemetry_workflows db)).

(** * Properties *)

(** ** Results *)

Lemma bind_Ok {A B : Type} (r : result A) (k : A -> result B) (y : B) :
  bind r k = Ok y -> exists a, r = Ok a /\ k a = Ok y.
Proof.
  destruct r as [a | e]; simpl; intros H.
  - exists a. split; [reflexivity | exact H].
  - discriminate H.
Qed.

Lemma guard_Ok (ok : bool) (e : error) (u : unit) :
  guard ok e = Ok u -> ok = true.
Proof. destruct ok; simpl; [reflexivity | discriminate]. Qed.

(** Splits the successful run of a sequence of statements into the runs of
    its steps. *)
Ltac inv_bind H :=
  repeat match type of H with
  | bind _ _ = Ok _ =>
      let a := fresh "a" in
      let Ha := fresh "Hstep" in
      apply bind_Ok in H; destruct H as (a & Ha & H)
  | (let '(_, _) := ?p in _) = Ok _ => destruct p
  end.

(** The same for every run among the hypotheses, down to the values. *)
Ltac inv_ok :=
  repeat match goal with
  | H : bind _ _ = Ok _ |- _ =>
      let a := fresh "a" in
      let Ha := fresh "Hstep" in
      apply bind_Ok in H; destruct H as (a & Ha & H)
  | H : (let '(_, _) := ?p in _) = Ok _ |- _ => destruct p
  | H : Ok _ = Ok _ |- _ => inversion H; subst; clear H
  | H : guard _ _ = Ok _ |- _ => apply guard_Ok in H
  end.

(** ** Text *)

Lemma varchar_assign_fits (n : nat) (s : string) :
  (String.length s <= n)%nat -> varchar_assign n s = Ok s.
Proof.
  intros H. unfold varchar_assign.
  destruct (Nat.leb_spec (String.length s) n) as [_ | Hgt]; [reflexivity | lia].
Qed.

Lemma varchar_assign_too_long (n : nat) (s : string) :
  (n < String.length s)%nat ->
  all_spaces (substring n (String.length s - n) s) = false ->
  varchar_assign n s = Err (string_data_right_truncation n).
Proof.
  intros Hlen Hsp. unfold varchar_assign.
  destruct (Nat.leb_spec (String.length s) n) as [Hle | _]; [lia |].
  now rewrite Hsp.
Qed.

Lemma command_tag_fits (c : command) : (String.length (command_tag c) <= 50)%nat.
Proof. destruct c; simpl; lia. Qed.

Lemma date_eqb_eq (a b : date) : date_eqb a b = true <-> a = b.
Proof.
  destruct a as [ya ma da], b as [yb mb db]. unfold date_eqb. simpl.
  rewrite !andb_true_iff, !Z.eqb_eq. split.
  - intros [[-> ->] ->]. reflexivity.
  - intros H. injection H as -> -> ->. auto.
Qed.

(** ** The audit log and the trigger *)

Section AuditProperties.

Variable P : string -> string -> command -> bool.
Variable b2i : bool -> option Z.

(** A successful write to the audit log adds one entry at the end, with the
    operation and the table it was given. *)
Lemma insert_audit_log_Ok s now op tbl v urole meta log log' :
  (String.length op <= 50)%nat ->
  (String.length tbl <= 50)%nat ->
  insert_audit_log P b2i s now op tbl v urole meta log = Ok log' ->
  exists n urole',
    assign_integer b2i "record_count" v = Ok n
    /\ varchar_assign 50 urole = Ok urole'
    /\ log' = log ++ [mkaudit op tbl (Some n) (Some urole') None (Some meta) now].
Proof.
  intros Hop Htbl H. unfold insert_audit_log in H.
  rewrite (varchar_assign_fits 50 op Hop), (varchar_assign_fits 50 tbl Htbl) in H.
  inv_bind H.
  match goal with E : Ok op = Ok _ |- _ => injection E as <- end.
  match goal with E : Ok tbl = Ok _ |- _ => injection E as <- end.
  injection H as <-. eauto.
Qed.

Lemma audit_telemetry_changes_Ok s now op tbl id log log' :
  (String.length tbl <= 50)%nat ->
  audit_telemetry_changes P b2i s now op tbl id log = Ok log' ->
  if non_anonymous_operation s op
  then exists e, log' = log ++ [e]
                 /\ operation e = command_tag op /\ table_name e = tbl
  else log' = log.
Proof.
  intros Htbl H. unfold audit_telemetry_changes in H.
  destruct (non_anonymous_operation s op).
  - apply insert_audit_log_Ok in H; [| apply command_tag_fits | exact Htbl].
    destruct H as (n & u & _ & _ & ->).
    eexists. split; [reflexivity |]. split; reflexivity.
  - now injection H as <-.
Qed.

(** The trigger fired for the rows of one statement: one entry a row when it
    logs the operation, none otherwise. *)
Lemma fire_row_triggers_Ok s now op tbl ids :
  (String.length tbl <= 50)%nat ->
  forall log log',
    fire_row_triggers P b2i s now op tbl ids log = Ok log' ->
    audit_trail op tbl
      (if non_anonymous_operation s op then Z.of_nat (List.length ids) else 0)
      log log'.
Proof.
  intros Htbl. induction ids as [| id ids IH]; intros log log' H; simpl in H.
  - injection H as <-. exists []. rewrite app_nil_r.
    repeat split; [now destruct (non_anonymous_operation s op) | constructor].
  - inv_bind H.
    apply audit_telemetry_changes_Ok in Hstep; [| exact Htbl].
    apply IH in H. destruct H as (es & -> & Hn & Hall).
    destruct (non_anonymous_operation s op).
    + destruct Hstep as (e & -> & He1 & He2).
      exists (e :: es). rewrite <- app_assoc. simpl.
      repeat split; [lia | constructor; auto].
    + subst a. exists es. auto.
Qed.

(** When the trigger does not log, firing it changes nothing and cannot
    fail. *)
Lemma fire_row_triggers_silent s now op tbl ids log :
  non_anonymous_operation s op = false ->
  fire_row_triggers P b2i s now op tbl ids log = Ok log.
Proof.
  intros Hq. induction ids as [| id ids IH]; simpl; [reflexivity |].
  unfold audit_telemetry_changes. rewrite Hq. simpl. exact IH.
Qed.

(** Under PostgreSQL's rule the trigger cannot write an entry: whenever it
    logs the operation, it aborts the statement that fired it. *)
Lemma audit_telemetry_changes_aborts s now op tbl id log :
  non_anonymous_operation s op = true ->
  audit_telemetry_changes P pg_boolean_to_integer s now op tbl id log
  = Err (datatype_mismatch "record_count").
Proof.
  intros Hq. unfold audit_telemetry_changes. now rewrite Hq.
Qed.

End AuditProperties.

(** ** Statements *)

Lemma filter_none {A : Type} (f : A -> bool) (l : list A) :
  (forall x, f x = false) -> filter f l = [].
Proof.
  intros Hf. induction l as [| x l IH]; simpl; [reflexivity |].
  now rewrite Hf.
Qed.

Lemma filter_all {A : Type} (f : A -> bool) (l : list A) :
  (forall x, f x = true) -> filter f l = l.
Proof.
  intros Hf. induction l as [| x l IH]; simpl; [reflexivity |].
  now rewrite Hf, IH.
Qed.

Section StatementProperties.

Variable P : string -> string -> command -> bool.
Variable b2i : bool -> option Z.
Context {R : Type}.
Variable T : store R.

(** What the two telemetry stores have in common: a short name, and rows
    that are put back unchanged. *)
Hypothesis name_fits : (String.length (relname (store_relation T)) <= 50)%nat.
Hypothesis put_same :
  forall db, with_audit_log (telemetry_audit_log db)
               (store_put T (store_rows T db) db) = db.

(** Every statement that changes a table leaves one audit entry for each row
    it touched, when the trigger logs the operation, and none otherwise. *)
Lemma execute_audit_trail s now m db n db' :
  execute P b2i T s now m db = Ok (n, db') ->
  audit_trail (mutation_command m) (relname (store_relation T))
    (if non_anonymous_operation s (mutation_command m) then n else 0)
    (telemetry_audit_log db) (telemetry_audit_log db').
Proof.
  destruct m as [arb new | set w | w]; simpl; intros H;
    unfold sql_insert, sql_update, sql_delete in H; inv_ok;
    match goal with
    | Ht : fire_row_triggers _ _ _ _ _ _ _ _ = Ok _ |- _ =>
        apply fire_row_triggers_Ok in Ht; [| exact name_fits];
        rewrite length_map in Ht; exact Ht
    end.
Qed.

(** With no row in sight an UPDATE passes over the table. *)
Lemma update_rows_unseen s set w todo :
  rls_reading T s UPDATE = false ->
  forall done, update_rows T s set w done todo = Ok ([], done ++ todo).
Proof.
  intros Hu. induction todo as [| r rest IH]; intros done; simpl.
  - now rewrite app_nil_r.
  - rewrite Hu. simpl. rewrite IH, <- app_assoc. reflexivity.
Qed.

(** A session for which no policy shows a row: a SELECT returns nothing, an
    UPDATE or a DELETE touches nothing and leaves the database, its audit
    log included, as it was; each is refused only for want of a table
    privilege. *)
Lemma sql_select_unseen s w db :
  rls_using s (relname (store_relation T)) SELECT = false ->
  sql_select P T s w db =
    if table_owner s || P (role s) (relname (store_relation T)) SELECT
    then Ok []
    else Err (insufficient_privilege (relname (store_relation T))).
Proof.
  intros Hu. unfold sql_select, aclcheck.
  destruct (table_owner s || P (role s) _ SELECT); simpl; [| reflexivity].
  rewrite filter_none; [reflexivity |]. intros x. now rewrite Hu.
Qed.

Lemma sql_update_unseen s now set w db :
  rls_reading T s UPDATE = false ->
  sql_update P b2i T s now set w db =
    if (table_owner s || P (role s) (relname (store_relation T)) UPDATE)
       && (table_owner s || P (role s) (relname (store_relation T)) SELECT)
    then Ok (0, db)
    else Err (insufficient_privilege (relname (store_relation T))).
Proof.
  intros Hu. unfold sql_update, aclcheck.
  destruct (table_owner s || P (role s) _ UPDATE); simpl; [| reflexivity].
  destruct (table_owner s || P (role s) _ SELECT); simpl; [| reflexivity].
  rewrite update_rows_unseen by exact Hu. simpl.
  now rewrite put_same.
Qed.

Lemma sql_delete_unseen s now w db :
  rls_reading T s DELETE = false ->
  sql_delete P b2i T s now w db =
    if (table_owner s || P (role s) (relname (store_relation T)) DELETE)
       && (table_owner s || P (role s) (relname (store_relation T)) SELECT)
    then Ok (0, db)
    else Err (insufficient_privilege (relname (store_relation T))).
Proof.
  intros Hu. unfold sql_delete, aclcheck.
  destruct (table_owner s || P (role s) _ DELETE); simpl; [| reflexivity].
  destruct (table_owner s || P (role s) _ SELECT); simpl; [| reflexivity].
  rewrite Hu. simpl.
  rewrite filter_none by reflexivity. simpl.
  rewrite filter_all by reflexivity.
  now rewrite put_same.
Qed.

End StatementProperties.

Lemma events_put_same db :
  with_audit_log (telemetry_audit_log db)
    (store_put events_store (store_rows events_store db) db) = db.
Proof. now destruct db. Qed.

Lemma workflows_put_same db :
  with_audit_log (telemetry_audit_log db)
    (store_put workflows_store (store_rows workflows_store db) db) = db.
Proof. now destruct db. Qed.

(** ** Access of the anonymous role *)

(** C1, at the failing input.  The script protects the tables by row level
    security alone: it enables it and gives [anon] no policy for SELECT,
    UPDATE or DELETE, and it revokes no privilege.  Where [anon] holds the
    table privileges, its SELECT on either table is therefore not refused:
    it succeeds and returns no row, although the tables hold rows; its
    UPDATE and its DELETE succeed on no row.  None of them is an error and
    none leaves an audit entry. *)
Lemma anon_select_not_refused :
  sql_select all_privileges events_store anon (fun _ => true) database_recent
    = Ok []
  /\ sql_select all_privileges workflows_store anon (fun _ => true)
       database_recent
     = Ok []
  /\ sql_update all_privileges pg_boolean_to_integer workflows_store anon
       now_2025
       (fun r => mkworkflow (wf_id r) (wf_user_id r) (wf_workflow_hash r)
                   (wf_node_count r) (wf_node_types r) (wf_has_trigger r)
                   (wf_has_webhook r) "complex" (wf_sanitized_workflow r)
                   (wf_created_at r))
       (fun r => (wf_user_id r =? user_a)%string) database_recent
     = Ok (0, database_recent)
  /\ sql_delete all_privileges pg_boolean_to_integer events_store anon
       now_2025 (fun r => (ev_user_id r =? user_a)%string) database_recent
     = Ok (0, database_recent)
  /\ telemetry_events database_recent = [event_2025]
  /\ telemetry_workflows database_recent = [workflow_2025].
Proof. repeat split. Qed.

(** Where [anon] holds the INSERT privilege alone, the same statements are
    refused. *)
Lemma anon_select_refused :
  sql_select anon_insert_only events_store anon (fun _ => true) database_recent
    = Err (insufficient_privilege "telemetry_events")
  /\ sql_delete anon_insert_only pg_boolean_to_integer workflows_store anon
       now_2025 (fun r => (wf_user_id r =? user_a)%string) database_recent
     = Err (insufficient_privilege "telemetry_workflows").
Proof. split; reflexivity. Qed.

(** ** The audit trail of statements *)

Lemma non_anonymous_role s c :
  role s <> "anon" -> non_anonymous_operation s c = true.
Proof.
  intros Hr. unfold non_anonymous_operation.
  destruct (String.eqb_spec (role s) "anon") as [E | _]; [contradiction |].
  simpl. now destruct (command_tag c =? "INSERT")%string.
Qed.

Lemma anonymous_insert s :
  role s = "anon" -> non_anonymous_operation s INSERT = false.
Proof.
  intros Hr. unfold non_anonymous_operation. now rewrite Hr.
Qed.

(** C2, at the failing input.  A statement of [service_role] that touches a
    row of a telemetry table does not succeed, so it leaves no audit entry:
    the trigger, fired for the row, offers the boolean [NEW.id IS NOT NULL]
    (for a DELETE, [OLD.id IS NOT NULL]) to the INTEGER column
    [record_count], and the statement is aborted with it -- the INSERT of
    one valid event, the UPDATE of an event, the DELETE of a workflow alike.
    The table and the audit log stay as they were.  The INSERT of the same
    event under the role [anon] is stored and, as intended, not audited. *)
Lemma privileged_mutation_aborts :
  execute all_privileges pg_boolean_to_integer events_store service_role
    now_2025 (Insert None [anon_event]) empty_database
  = Err (datatype_mismatch "record_count")
  /\ execute all_privileges pg_boolean_to_integer events_store service_role
       now_2025
       (Update
          (fun r => mkevent (ev_id r) (ev_user_id r) "session_end"
                      (ev_properties r) (ev_created_at r))
          (fun r => (ev_user_id r =? user_a)%string))
       database_recent
     = Err (datatype_mismatch "record_count")
  /\ execute all_privileges pg_boolean_to_integer workflows_store service_role
       now_2025 (Delete (fun r => (wf_user_id r =? user_a)%string))
       database_recent
     = Err (datatype_mismatch "record_count")
  /\ execute all_privileges pg_boolean_to_integer events_store anon
       now_2025 (Insert None [anon_event]) empty_database
     = Ok (1, with_events [anon_event] empty_database)
  /\ telemetry_audit_log (with_events [anon_event] empty_database) = [].
Proof. repeat split. Qed.

(** ** Inserting events *)

Lemma existsb_id_false (id : uuid) (ids : list uuid) :
  existsb (N.eqb id) ids = false <-> ~ In id ids.
Proof.
  induction ids as [| x ids IH]; simpl.
  - tauto.
  - rewrite orb_false_iff, IH, N.eqb_neq. intuition congruence.
Qed.

Lemma existsb_map {A B : Type} (f : B -> bool) (g : A -> B) (l : list A) :
  existsb f (map g l) = existsb (fun x => f (g x)) l.
Proof.
  induction l as [| x l IH]; simpl; [reflexivity | now rewrite IH].
Qed.

Lemma raise_if_true (message : string) :
  raise_if (Some true) message = Err (raise_exception message).
Proof. reflexivity. Qed.

(** The validator of events: what it accepts and what it rejects. *)
Lemma validate_telemetry_event_Ok uid ev props :
  16 <= length uid -> 1 <= length ev <= 100 -> jsonb_typeof props = "object" ->
  validate_telemetry_event uid ev props = Ok tt.
Proof.
  intros Hu He Hp. unfold validate_telemetry_event.
  replace (length uid <? 16) with false by (symmetry; apply Z.ltb_ge; lia).
  replace (length ev <? 1) with false by (symmetry; apply Z.ltb_ge; lia).
  replace (length ev >? 100) with false
    by (symmetry; rewrite Z.gtb_ltb; apply Z.ltb_ge; lia).
  rewrite Hp. reflexivity.
Qed.

Lemma validate_telemetry_event_Err uid ev props :
  length uid < 16 \/ length ev = 0 \/ length ev > 100
  \/ jsonb_typeof props <> "object" ->
  exists message,
    validate_telemetry_event uid ev props = Err (raise_exception message).
Proof.
  intros H. unfold validate_telemetry_event.
  destruct (Z.ltb_spec (length uid) 16) as [_ | Hu]; simpl; [eauto |].
  destruct (Z.ltb_spec (length ev) 1) as [_ | He1]; simpl; [eauto |].
  destruct (length ev >? 100) eqn:He2; simpl; [eauto |].
  destruct (String.eqb_spec (jsonb_typeof props) "object") as [Hp | _];
    simpl; [| rewrite raise_if_true; eauto].
  exfalso. rewrite Z.gtb_ltb in He2. apply Z.ltb_ge in He2.
  destruct H as [H | [H | [H | H]]]; [lia | lia | lia | contradiction].
Qed.

(** An event row that fits its columns and passes the CHECK constraints,
    inserted with the owner's rights. *)
Lemma insert_event_row P b2i s now id uid ev props db :
  16 <= length uid <= 64 -> 1 <= length ev <= 100 -> jsonb_typeof props = "object" ->
  sql_insert P b2i events_store (security_definer s) now None
    [mkevent id uid ev props now] db =
  if existsb (N.eqb id) (map ev_id (telemetry_events db))
  then Err (unique_violation "telemetry_events_pkey")
  else
    log' <- fire_row_triggers P b2i (security_definer s) now INSERT
              "telemetry_events" [id] (telemetry_audit_log db) ;;
    Ok ([mkevent id uid ev props now],
        with_audit_log log'
          (with_events (telemetry_events db ++ [mkevent id uid ev props now]) db)).
Proof.
  intros Hu He Hp. unfold sql_insert, aclcheck. simpl.
  unfold insert_row. simpl.
  rewrite (varchar_assign_fits 64 uid) by (unfold length in Hu; lia).
  rewrite (varchar_assign_fits 100 ev) by (unfold length in He; lia).
  simpl. unfold check. simpl. rewrite Hp. simpl.
  replace (length ev >=? 1) with true by (symmetry; apply Z.geb_le; lia).
  replace (length ev <=? 100) with true by (symmetry; apply Z.leb_le; lia).
  replace (length uid >=? 16) with true by (symmetry; apply Z.geb_le; lia).
  simpl. unfold violated_unique. simpl.
  rewrite existsb_map.
  destruct (existsb _ (telemetry_events db)); simpl; [reflexivity |].
  destruct (audit_telemetry_changes _ _ _ _ _ _ _ _); reflexivity.
Qed.

(** The identifier a successful insert of an event returns is the one drawn
    for the row, and the primary key held: no stored event had it. *)
Lemma insert_telemetry_event_fresh P b2i s now id uid ev props db r db' :
  insert_telemetry_event P b2i s now id uid ev props db = Ok (r, db') ->
  r = Some id
  /\ ~ In id (map ev_id (telemetry_events db))
  /\ In id (map ev_id (telemetry_events db')).
Proof.
  intros H. unfold insert_telemetry_event, sql_insert in H. inv_ok.
  simpl in *. inv_ok.
  unfold insert_row in *. simpl in *. inv_ok.
  unfold violated_unique in *. simpl in *.
  destruct (existsb _ (telemetry_events db)) eqn:Hpk; simpl in *;
    [discriminate |].
  inv_ok. simpl. repeat split.
  - rewrite <- existsb_map in Hpk. now apply existsb_id_false.
  - rewrite map_app, in_app_iff. right. simpl. now left.
Qed.

(** C5, at the failing input.  The event is valid -- a user id of 20
    characters, an event name of 13, properties that are an object -- and
    the caller is [service_role], as in the repository's validation script.
    The function does not store it and returns no identifier: its INSERT
    fires the audit trigger, which reads the caller's role, logs the INSERT
    and offers the boolean [NEW.id IS NOT NULL] to the INTEGER column
    [record_count]; the call is aborted.  So it is for every caller but
    [anon], for whom the same call stores the event. *)
Lemma insert_telemetry_event_refuses_service_role :
  validate_telemetry_event user_a "function_test"
    (JObject [("source", JString "validation_script")]) = Ok tt
  /\ insert_telemetry_event all_privileges pg_boolean_to_integer service_role
       now_2025 7%N user_a "function_test"
       (JObject [("source", JString "validation_script")]) empty_database
     = Err (datatype_mismatch "record_count")
  /\ insert_telemetry_event all_privileges pg_boolean_to_integer
       (mksession "authenticated" false)
       now_2025 7%N user_a "function_test"
       (JObject [("source", JString "validation_script")]) empty_database
     = Err (datatype_mismatch "record_count")
  /\ insert_telemetry_event all_privileges pg_boolean_to_integer anon
       now_2025 7%N user_a "function_test"
       (JObject [("source", JString "validation_script")]) empty_database
     = Ok (Some 7%N,
           with_events
             [mkevent 7%N user_a "function_test"
                (JObject [("source", JString "validation_script")]) now_2025]
             empty_database).
Proof. repeat split. Qed.

(** X25.  [insert_telemetry_event] raises the validator's exception when the
    user id is shorter than 16 characters, when the event name is empty or
    longer than 100 characters, or when the properties are not a JSON
    object.  For a valid event (user id of 16 to 64 characters, event name
    of 1 to 100, object properties) sent under the role [anon], with the
    identifier drawn for it not yet a key of the table, it stores the event
    at the end of the table and returns that identifier.  Whenever it
    succeeds the identifier it returns was held by no stored event. *)
Theorem insert_telemetry_event_validates_and_stores
    (P : string -> string -> command -> bool) (b2i : bool -> option Z)
    (s : session) (now : timestamptz) (new_id : uuid)
    (uid ev : string) (props : jsonb) (db : database) :
  (length uid < 16 \/ length ev = 0 \/ length ev > 100
   \/ jsonb_typeof props <> "object" ->
   exists message,
     insert_telemetry_event P b2i s now new_id uid ev props db
       = Err (raise_exception message))
  /\ (16 <= length uid <= 64 -> 1 <= length ev <= 100 ->
      jsonb_typeof props = "object" ->
      role s = "anon" ->
      ~ In new_id (map ev_id (telemetry_events db)) ->
      insert_telemetry_event P b2i s now new_id uid ev props db
        = Ok (Some new_id,
              with_events
                (telemetry_events db ++ [mkevent new_id uid ev props now]) db))
  /\ (forall r db',
      insert_telemetry_event P b2i s now new_id uid ev props db = Ok (r, db') ->
      exists id, r = Some id
                 /\ ~ In id (map ev_id (telemetry_events db))
                 /\ In id (map ev_id (telemetry_events db'))).
Proof.
  split; [| split].
  - intros H. apply validate_telemetry_event_Err in H.
    destruct H as (message & H). exists message.
    unfold insert_telemetry_event. now rewrite H.
  - intros Hu He Hp Hr Hid. unfold insert_telemetry_event.
    rewrite validate_telemetry_event_Ok by (assumption || lia). simpl.
    rewrite insert_event_row by assumption.
    apply existsb_id_false in Hid. rewrite Hid.
    rewrite fire_row_triggers_silent by (now apply anonymous_insert).
    simpl. now destruct db.
  - intros r db' H. exists new_id.
    now apply insert_telemetry_event_fresh in H.
Qed.

Lemma insert_telemetry_event_validates_and_stores_witness :
  (exists message,
     insert_telemetry_event all_privileges pg_boolean_to_integer anon now_2025
       7%N "short" "tool_usage" (JObject []) empty_database
       = Err (raise_exception message))
  /\ insert_telemetry_event all_privileges pg_boolean_to_integer anon now_2025
       7%N user_a "tool_usage" (JObject [("tool", JString "slack")])
       empty_database
     = Ok (Some 7%N, with_events [anon_event] empty_database)
  /\ (exists id, Some 7%N = Some id
                 /\ ~ In id (map ev_id (telemetry_events empty_database))
                 /\ In id (map ev_id [anon_event])).
Proof.
  pose proof (insert_telemetry_event_validates_and_stores all_privileges
                pg_boolean_to_integer anon now_2025 7%N "short" "tool_usage"
                (JObject []) empty_database) as Hbad.
  pose proof (insert_telemetry_event_validates_and_stores all_privileges
                pg_boolean_to_integer anon now_2025 7%N user_a "tool_usage"
                (JObject [("tool", JString "slack")]) empty_database) as Hgood.
  split; [| split].
  - apply (proj1 Hbad). left. unfold length. simpl. lia.
  - apply (proj1 (proj2 Hgood)).
    + unfold length. simpl. lia.
    + unfold length. simpl. lia.
    + reflexivity.
    + reflexivity.
    + simpl. tauto.
  - apply (proj2 (proj2 Hgood) (Some 7%N)
             (with_events [anon_event] empty_database)).
    reflexivity.
Defined.

(** C10, as amended.  For a user id longer than 64 characters whose
    characters past the 64th are not all spaces, [insert_telemetry_event]
    fails and so stores no row; the validator, which bounds the length from
    below only, accepts the id, and with a valid event name and valid
    properties the failure is the column's "value too long for type
    character varying(64)". *)
Theorem insert_telemetry_event_long_user_id
    (P : string -> string -> command -> bool) (b2i : bool -> option Z)
    (s : session) (now : timestamptz) (new_id : uuid)
    (uid ev : string) (props : jsonb) (db : database) :
  64 < length uid ->
  all_spaces (substring 64 (String.length uid - 64) uid) = false ->
  (exists e, insert_telemetry_event P b2i s now new_id uid ev props db = Err e)
  /\ (1 <= length ev <= 100 -> jsonb_typeof props = "object" ->
      validate_telemetry_event uid ev props = Ok tt
      /\ insert_telemetry_event P b2i s now new_id uid ev props db
         = Err (string_data_right_truncation 64)).
Proof.
  intros Hlen Hsp.
  assert (Hcol : forall rows,
            insert_row events_store (security_definer s) None
              (mkevent new_id uid ev props now) rows
            = Err (string_data_right_truncation 64)).
  { intros rows. unfold insert_row. simpl.
    rewrite varchar_assign_too_long; [reflexivity | | exact Hsp].
    unfold length in Hlen. lia. }
  assert (Hins : sql_insert P b2i events_store (security_definer s) now None
                   [mkevent new_id uid ev props now] db
                 = Err (string_data_right_truncation 64)).
  { unfold sql_insert, aclcheck. simpl. now rewrite Hcol. }
  split.
  - unfold insert_telemetry_event.
    destruct (validate_telemetry_event uid ev props) as [[] | e]; simpl.
    + rewrite Hins. simpl. eauto.
    + eauto.
  - intros He Hp.
    assert (Hv : validate_telemetry_event uid ev props = Ok tt)
      by (apply validate_telemetry_event_Ok; (assumption || lia)).
    split; [exact Hv |].
    unfold insert_telemetry_event. rewrite Hv. simpl. now rewrite Hins.
Qed.

Lemma insert_telemetry_event_long_user_id_witness :
  (exists e,
     insert_telemetry_event all_privileges pg_boolean_to_integer anon now_2025
       7%N user_65 "tool_usage" (JObject []) empty_database = Err e)
  /\ validate_telemetry_event user_65 "tool_usage" (JObject []) = Ok tt
  /\ insert_telemetry_event all_privileges pg_boolean_to_integer anon now_2025
       7%N user_65 "tool_usage" (JObject []) empty_database
     = Err (string_data_right_truncation 64).
Proof.
  assert (Hlen : 64 < length user_65) by (unfold length; simpl; lia).
  assert (Hsp : all_spaces
                  (substring 64 (String.length user_65 - 64) user_65) = false)
    by reflexivity.
  pose proof (insert_telemetry_event_long_user_id all_privileges
                pg_boolean_to_integer anon now_2025 7%N user_65 "tool_usage"
                (JObject []) empty_database Hlen Hsp) as H.
  split; [exact (proj1 H) |].
  apply (proj2 H).
  - unfold length. simpl. lia.
  - reflexivity.
Defined.

(** C10 as stated fails: a user id of 65 characters that ends in spaces is
    not refused; the column cuts it to its first 64 characters and the event
    is stored. *)
Lemma insert_telemetry_event_padded_user_id :
  length user_padded = 65
  /\ insert_telemetry_event all_privileges pg_boolean_to_integer anon now_2025
       7%N user_padded "tool_usage" (JObject []) empty_database
     = Ok (Some 7%N,
           with_events
             [mkevent 7%N (substring 0 64 user_padded) "tool_usage"
                (JObject []) now_2025]
             empty_database).
Proof. split; reflexivity. Qed.

(** ** Inserting workflows *)

Lemma count_app {A : Type} (f : A -> bool) (l1 l2 : list A) :
  count f (l1 ++ l2) = count f l1 + count f l2.
Proof.
  unfold count. rewrite filter_app, length_app. lia.
Qed.

Lemma existsb_false_count {A : Type} (f : A -> bool) (l : list A) :
  existsb f l = false -> count f l = 0.
Proof.
  unfold count. induction l as [| x l IH]; simpl; [reflexivity |].
  intros H. apply orb_false_iff in H. destruct H as [Hx Hl].
  rewrite Hx. now apply IH.
Qed.

Lemma existsb_true_count {A : Type} (f : A -> bool) (l : list A) :
  existsb f l = true -> 1 <= count f l.
Proof.
  unfold count. induction l as [| x l IH]; simpl; [discriminate |].
  intros H. destruct (f x); simpl in *; [lia | now apply IH].
Qed.

(** The validator of workflows accepts a submission on these conditions; it
    looks at the node types through [array_length], which is NULL for the
    empty array, so it accepts every array. *)
Lemma validate_telemetry_workflow_Ok uid hash n types c sw :
  16 <= length uid -> length hash = 64 -> 0 < n ->
  complexity_enum c = true -> jsonb_typeof sw = "object" ->
  validate_telemetry_workflow uid hash n types c sw = Ok tt.
Proof.
  intros Hu Hh Hn Hc Hs. unfold validate_telemetry_workflow.
  replace (length uid <? 16) with false by (symmetry; apply Z.ltb_ge; lia).
  rewrite Hh, Hc, Hs.
  replace (n <=? 0) with false by (symmetry; apply Z.leb_gt; lia).
  simpl. destruct types as [| t types]; simpl; [reflexivity |].
  unfold raise_if, is_true.
  replace (Z.pos (Pos.of_succ_nat (List.length types)) =? 0) with false
    by (symmetry; apply Z.eqb_neq; lia).
  reflexivity.
Qed.

Lemma complexity_enum_fits c :
  complexity_enum c = true -> (String.length c <= 20)%nat.
Proof.
  unfold complexity_enum. rewrite !orb_true_iff, !String.eqb_eq.
  intros [[-> | ->] | ->]; simpl; lia.
Qed.

(** A valid workflow row inserted with the owner's rights under ON CONFLICT
    (workflow_hash, user_id) DO NOTHING. *)
Lemma insert_workflow_row P b2i s now id uid hash n types ht hw c sw db :
  16 <= length uid <= 64 -> length hash = 64 -> 0 < n ->
  complexity_enum c = true -> jsonb_typeof sw = "object" ->
  let r := mkworkflow id uid hash n types ht hw c sw now in
  sql_insert P b2i workflows_store (security_definer s) now
    (Some "telemetry_workflows_unique_hash_user") [r] db =
  if existsb (same_submission hash uid) (telemetry_workflows db)
  then Ok ([], db)
  else if existsb (N.eqb id) (map wf_id (telemetry_workflows db))
  then Err (unique_violation "telemetry_workflows_pkey")
  else
    log' <- fire_row_triggers P b2i (security_definer s) now INSERT
              "telemetry_workflows" [id] (telemetry_audit_log db) ;;
    Ok ([r], with_audit_log log'
               (with_workflows (telemetry_workflows db ++ [r]) db)).
Proof.
  intros Hu Hh Hn Hc Hs r. unfold sql_insert, aclcheck. simpl.
  unfold insert_row. simpl.
  rewrite (varchar_assign_fits 64 uid) by (unfold length in Hu; lia).
  rewrite (varchar_assign_fits 64 hash) by (unfold length in Hh; lia).
  rewrite (varchar_assign_fits 20 c) by (now apply complexity_enum_fits).
  simpl. unfold check. simpl. rewrite Hc, Hs, Hh. simpl.
  replace (n >? 0) with true by (symmetry; apply Z.gtb_lt; lia).
  replace (length uid >=? 16) with true by (symmetry; apply Z.geb_le; lia).
  simpl.
  assert (Hty : check_passes (sql_gt (array_length types) (Some 0)) = true).
  { destruct types; simpl; [reflexivity |].
    now replace (Z.pos (Pos.of_succ_nat (List.length types)) >? 0) with true
      by (symmetry; apply Z.gtb_lt; lia). }
  rewrite Hty. simpl.
  unfold conflicts_on, violated_unique. simpl.
  fold (same_submission hash uid).
  rewrite orb_false_r, existsb_map.
  destruct (existsb (same_submission hash uid) (telemetry_workflows db));
    simpl; [now destruct db |].
  destruct (existsb _ (telemetry_workflows db)); simpl; [reflexivity |].
  fold r.
  destruct (audit_telemetry_changes _ _ _ _ _ _ _ _); reflexivity.
Qed.

Lemma validate_telemetry_workflow_inv uid hash n types c sw :
  validate_telemetry_workflow uid hash n types c sw = Ok tt ->
  16 <= length uid /\ length hash = 64 /\ 0 < n
  /\ complexity_enum c = true /\ jsonb_typeof sw = "object".
Proof.
  unfold validate_telemetry_workflow. intros H.
  destruct (Z.ltb_spec (length uid) 16) as [| Hu]; [discriminate |].
  destruct (Z.eqb_spec (length hash) 64) as [Hh |]; [| discriminate].
  destruct (Z.leb_spec n 0) as [| Hn]; [discriminate |].
  simpl in H.
  destruct (raise_if (sql_eq (array_length types) (Some 0)) _); [| discriminate].
  simpl in H.
  destruct (complexity_enum c); [| discriminate].
  destruct (String.eqb_spec (jsonb_typeof sw) "object") as [Hs |];
    [| discriminate].
  auto.
Qed.

(** C3, at the failing input.  The submission is valid and its pair is not
    stored; the caller is [service_role], as in the repository's validation
    script.  Neither call stores a row and neither returns: the INSERT of
    the function fires the audit trigger, which reads the caller's role,
    logs the INSERT and offers a boolean to the INTEGER column
    [record_count]; each call is aborted and the table stays empty. *)
Lemma insert_telemetry_workflow_twice_by_service_role :
  validate_telemetry_workflow user_a hash_1 2 ["webhook"; "code"] "simple"
    (JObject [("nodes", JArray []); ("connections", JObject [])]) = Ok tt
  /\ existsb (same_submission hash_1 user_a)
       (telemetry_workflows empty_database) = false
  /\ insert_telemetry_workflow all_privileges pg_boolean_to_integer
       service_role now_2025 9%N user_a hash_1 2 ["webhook"; "code"] true
       false "simple"
       (JObject [("nodes", JArray []); ("connections", JObject [])])
       empty_database
     = Err (datatype_mismatch "record_count")
  /\ insert_telemetry_workflow all_privileges pg_boolean_to_integer
       service_role (midnight 2025 6 16) 10%N user_a hash_1 2
       ["webhook"; "code"] true false "simple"
       (JObject [("nodes", JArray []); ("connections", JObject [])])
       empty_database
     = Err (datatype_mismatch "record_count")
  /\ count (same_submission hash_1 user_a)
       (telemetry_workflows empty_database) = 0.
Proof. repeat split. Qed.

(** X26.  A workflow submission sent twice, the user id within the width of
    its column and the table holding, as its unique constraint grants, at
    most one row with the pair (workflow_hash, user_id).  Whenever the first
    call succeeds, the second call succeeds too, returns NULL and leaves the
    database as the first call left it, and the table then holds exactly one
    row with the pair.  The first call does succeed for a submission that
    passes validation, sent under the role [anon], when the identifier drawn
    for it is not yet a key of the table. *)
Theorem insert_telemetry_workflow_twice
    (P : string -> string -> command -> bool) (b2i : bool -> option Z)
    (s : session) (now1 now2 : timestamptz) (id1 id2 : uuid)
    (uid hash : string) (n : Z) (types : list string) (ht hw : bool)
    (c : string) (sw : jsonb) (db : database) :
  length uid <= 64 ->
  count (same_submission hash uid) (telemetry_workflows db) <= 1 ->
  (forall r1 db1,
     insert_telemetry_workflow P b2i s now1 id1 uid hash n types ht hw c sw db
       = Ok (r1, db1) ->
     insert_telemetry_workflow P b2i s now2 id2 uid hash n types ht hw c sw db1
       = Ok (None, db1)
     /\ count (same_submission hash uid) (telemetry_workflows db1) = 1)
  /\ (role s = "anon" ->
      16 <= length uid -> length hash = 64 -> 0 < n ->
      complexity_enum c = true -> jsonb_typeof sw = "object" ->
      ~ In id1 (map wf_id (telemetry_workflows db)) ->
      exists r1 db1,
        insert_telemetry_workflow P b2i s now1 id1 uid hash n types ht hw c sw db
          = Ok (r1, db1)).
Proof.
  intros Hwidth Hone. split.
  - intros r1 db1 H. unfold insert_telemetry_workflow in *.
    destruct (validate_telemetry_workflow uid hash n types c sw) as [[] | e] eqn:Hv;
      [| discriminate].
    apply validate_telemetry_workflow_inv in Hv.
    destruct Hv as (Hu & Hh & Hn & Hc & Hs).
    simpl in *.
    rewrite insert_workflow_row in * by (assumption || lia).
    destruct (existsb (same_submission hash uid) (telemetry_workflows db)) eqn:Hdup.
    + (* the pair was stored already: both calls leave the row out *)
      simpl in H. inv_ok. rewrite Hdup. simpl. split; [reflexivity |].
      apply existsb_true_count in Hdup. lia.
    + (* the first call stored the row, the second finds it *)
      destruct (existsb (N.eqb id1) _); [discriminate |].
      inv_ok. simpl.
      rewrite existsb_app. simpl.
      unfold same_submission at 2. simpl. rewrite !String.eqb_refl. simpl.
      rewrite orb_true_r. simpl. split; [reflexivity |].
      rewrite count_app, (existsb_false_count _ _ Hdup).
      unfold count, same_submission. simpl. now rewrite !String.eqb_refl.
  - intros Hr Hu Hh Hn Hc Hs Hid.
    unfold insert_telemetry_workflow.
    rewrite validate_telemetry_workflow_Ok by assumption. simpl.
    rewrite insert_workflow_row by (assumption || lia).
    destruct (existsb (same_submission hash uid) (telemetry_workflows db)).
    + simpl. eauto.
    + apply existsb_id_false in Hid. rewrite Hid.
      rewrite fire_row_triggers_silent by (now apply anonymous_insert).
      simpl. eauto.
Qed.

Lemma insert_telemetry_workflow_twice_witness :
  (insert_telemetry_workflow all_privileges pg_boolean_to_integer anon
     (midnight 2025 6 16) 10%N user_a hash_1 2 ["webhook"; "http"] true true
     "simple" (JObject []) (with_workflows [submitted_workflow] empty_database)
   = Ok (None, with_workflows [submitted_workflow] empty_database)
   /\ count (same_submission hash_1 user_a) [submitted_workflow] = 1)
  /\ exists r1 db1,
       insert_telemetry_workflow all_privileges pg_boolean_to_integer anon
         now_2025 9%N user_a hash_1 2 ["webhook"; "http"] true true "simple"
         (JObject []) empty_database = Ok (r1, db1).
Proof.
  assert (Hwidth : length user_a <= 64) by (unfold length; simpl; lia).
  assert (Hone : count (same_submission hash_1 user_a)
                   (telemetry_workflows empty_database) <= 1)
    by (unfold count; simpl; lia).
  pose proof (insert_telemetry_workflow_twice all_privileges
                pg_boolean_to_integer anon now_2025 (midnight 2025 6 16)
                9%N 10%N user_a hash_1 2 ["webhook"; "http"] true true
                "simple" (JObject []) empty_database Hwidth Hone) as H.
  split.
  - apply (proj1 H (Some 9%N)
             (with_workflows [submitted_workflow] empty_database)).
    reflexivity.
  - apply (proj2 H).
    + reflexivity.
    + unfold length. simpl. lia.
    + reflexivity.
    + lia.
    + reflexivity.
    + reflexivity.
    + simpl. tauto.
Defined.

(** Neither guard against an empty list of node types holds it back:
    [array_length] of the empty array is NULL, so the validator's
    [array_length(p_node_types, 1) = 0] is not true and the constraint's
    [array_length(node_types, 1) > 0] is not false.  A submission that is
    valid otherwise is stored with its empty list. *)
Lemma insert_telemetry_workflow_no_node_types P b2i s now id uid hash n ht hw c sw db :
  role s = "anon" ->
  16 <= length uid <= 64 -> length hash = 64 -> 0 < n ->
  complexity_enum c = true -> jsonb_typeof sw = "object" ->
  ~ In id (map wf_id (telemetry_workflows db)) ->
  existsb (same_submission hash uid) (telemetry_workflows db) = false ->
  insert_telemetry_workflow P b2i s now id uid hash n [] ht hw c sw db
  = Ok (Some id,
        with_workflows
          (telemetry_workflows db ++ [mkworkflow id uid hash n [] ht hw c sw now])
          db).
Proof.
  intros Hr Hu Hh Hn Hc Hs Hid Hdup.
  unfold insert_telemetry_workflow.
  rewrite validate_telemetry_workflow_Ok by (assumption || lia). simpl.
  rewrite insert_workflow_row by assumption.
  apply existsb_id_false in Hid. rewrite Hdup, Hid.
  rewrite fire_row_triggers_silent by (now apply anonymous_insert).
  simpl. now destruct db.
Qed.

(** C6, at the failing input: the submission with no node type passes the
    validator and the table's CHECK constraints, and is stored. *)
Lemma insert_telemetry_workflow_empty_node_types :
  validate_telemetry_workflow user_a hash_1 2 [] "simple" (JObject []) = Ok tt
  /\ check_row workflows_relation workflow_without_node_types = Ok tt
  /\ insert_telemetry_workflow all_privileges pg_boolean_to_integer anon
       now_2025 9%N user_a hash_1 2 [] true false "simple" (JObject [])
       empty_database
     = Ok (Some 9%N, with_workflows [workflow_without_node_types] empty_database).
Proof. repeat split. Qed.

(** ** Retention *)

Lemma delete_is_logged s : non_anonymous_operation s DELETE = true.
Proof. reflexivity. Qed.

Section DeleteProperties.

Variable P : string -> string -> command -> bool.
Variable b2i : bool -> option Z.
Context {R : Type}.
Variable T : store R.

Hypothesis name_fits : (String.length (relname (store_relation T)) <= 50)%nat.

(** A successful DELETE: the rows it removed, the rows it left, and the
    trail the trigger wrote for the removed ones. *)
Lemma sql_delete_Ok s now w db n db' :
  sql_delete P b2i T s now w db = Ok (n, db') ->
  let hit := fun r => rls_reading T s DELETE && w r in
  n = count hit (store_rows T db)
  /\ exists log',
       audit_trail DELETE (relname (store_relation T)) n
         (telemetry_audit_log db) log'
       /\ db' = with_audit_log log'
                  (store_put T (filter (fun r => negb (hit r)) (store_rows T db)) db).
Proof.
  intros H hit. unfold sql_delete in H. inv_ok.
  match goal with
  | Ht : fire_row_triggers _ _ _ _ _ _ _ _ = Ok ?l |- _ =>
      apply fire_row_triggers_Ok in Ht; [| exact name_fits];
      rewrite length_map, delete_is_logged in Ht;
      split; [reflexivity | exists l; split; [exact Ht | reflexivity]]
  end.
Qed.

End DeleteProperties.

(** C7, at the failing input: a workflow of January 2020 is older than the
    cutoff of June 2025.  The run deletes nothing, writes no entry for
    either table and returns nothing: its second DELETE fires the audit
    trigger for the row, the trigger's INSERT offers the boolean [OLD.id IS
    NOT NULL] to the INTEGER column [record_count], and the run is aborted
    before the statement that writes the two entries is reached, for
    [service_role] as for the owner's scheduled job.  With no row older
    than the cutoff the run writes its two entries and returns 0. *)
Lemma cleanup_aborts_before_its_entries :
  workflow_expired now_2025 workflow_2020 = true
  /\ cleanup_old_telemetry_data all_privileges pg_boolean_to_integer
       service_role now_2025 database_old_workflow
     = Err (datatype_mismatch "record_count")
  /\ cleanup_old_telemetry_data all_privileges pg_boolean_to_integer
       owner_job now_2025 database_old_workflow
     = Err (datatype_mismatch "record_count")
  /\ cleanup_old_telemetry_data all_privileges pg_boolean_to_integer
       service_role now_2025 database_recent
     = Ok (0, database_recent_cleaned)
  /\ telemetry_audit_log database_recent_cleaned
     = [cleanup_entry "telemetry_events" 0 now_2025;
        cleanup_entry "telemetry_workflows" 0 now_2025].
Proof. repeat split. Qed.

(** C4, at the failing input: an event of January 2020 is older than the
    cutoff of June 2025, yet the cleanup does not delete it.  The DELETE
    fires the audit trigger for the row, the trigger's INSERT offers the
    boolean [OLD.id IS NOT NULL] to the INTEGER column [record_count], and
    the whole run is aborted, for [service_role] as for the owner's
    scheduled job. *)
Lemma cleanup_keeps_expired_event :
  event_expired now_2025 event_2020 = true
  /\ cleanup_old_telemetry_data all_privileges pg_boolean_to_integer
       service_role now_2025 database_old_event
     = Err (datatype_mismatch "record_count")
  /\ cleanup_old_telemetry_data all_privileges pg_boolean_to_integer
       owner_job now_2025 database_old_event
     = Err (datatype_mismatch "record_count").
Proof. repeat split. Qed.

(** ** Statistics *)

(** C9.  Whatever window the caller gives, even one that leaves today out,
    the metrics events_today and workflows_today are the numbers of stored
    events and workflows whose creation date is the current date. *)
Theorem today_counts_ignore_window
    (now start_date end_date : timestamptz) (db : database) :
  metric_value "events_today" (get_telemetry_stats now start_date end_date db)
    = Some (count (fun r => date_eqb (DATE (ev_created_at r)) (CURRENT_DATE now))
              (telemetry_events db))
  /\ metric_value "workflows_today"
       (get_telemetry_stats now start_date end_date db)
     = Some (count (fun r => date_eqb (DATE (wf_created_at r)) (CURRENT_DATE now))
               (telemetry_workflows db))
  /\ (forall r,
        In r (filter (fun r => date_eqb (DATE (ev_created_at r)) (CURRENT_DATE now))
                (telemetry_events db))
        <-> In r (telemetry_events db) /\ DATE (ev_created_at r) = CURRENT_DATE now)
  /\ (forall r,
        In r (filter (fun r => date_eqb (DATE (wf_created_at r)) (CURRENT_DATE now))
                (telemetry_workflows db))
        <-> In r (telemetry_workflows db) /\ DATE (wf_created_at r) = CURRENT_DATE now)
  /\ (forall start_date' end_date',
        metric_value "events_today"
          (get_telemetry_stats now start_date' end_date' db)
        = metric_value "events_today"
            (get_telemetry_stats now start_date end_date db)
        /\ metric_value "workflows_today"
             (get_telemetry_stats now start_date' end_date' db)
           = metric_value "workflows_today"
               (get_telemetry_stats now start_date end_date db)).
Proof.
  repeat split; intros;
    try (rewrite filter_In, date_eqb_eq in *; tauto).
Qed.

(** A window that ends before today: no event lies in it, and the event of
    today is counted all the same. *)
Lemma today_counts_outside_window :
  get_telemetry_stats now_2025 (midnight 2024 1 1) (midnight 2024 12 31)
    (with_events [anon_event] empty_database)
  = [("total_events", 0); ("total_workflows", 0); ("unique_users", 0);
     ("events_today", 1); ("workflows_today", 0)].
Proof. reflexivity. Qed.

(** ** Partitions *)

Lemma existsb_eqb_In (x : string) (l : list string) :
  In x l -> existsb (String.eqb x) l = true.
Proof.
  intros H. apply existsb_exists. exists x. split; [exact H |].
  apply String.eqb_refl.
Qed.


(** Without a relation of the name, on a partitioned parent and clear of its
    other partitions, the statement adds the partition. *)
Lemma create_partition_new name parent from to db :
  relation_exists name db = false ->
  In parent (partitioned_tables db) ->
  (forall p, In p (partitions db) -> part_parent p = parent ->
             partition_overlaps from to (part_from p) (part_to p) = false) ->
  create_table_if_not_exists_partition_of name parent from to db
  = Ok (with_partitions (partitions db ++ [mkpartition name parent from to]) db).
Proof.
  intros Hnew Hpart Hclear. unfold create_table_if_not_exists_partition_of.
  rewrite Hnew, (existsb_eqb_In _ _ Hpart). simpl.
  replace (existsb _ (partitions db)) with false; [reflexivity |].
  symmetry. apply not_true_is_false. intros Hex.
  apply existsb_exists in Hex. destruct Hex as (p & Hin & Hp).
  apply andb_true_iff in Hp. destruct Hp as [Hparent Hover].
  apply String.eqb_eq in Hparent.
  now rewrite (Hclear p Hin Hparent) in Hover.
Qed.

Lemma create_partition_exists name parent from to db :
  relation_exists name db = true ->
  create_table_if_not_exists_partition_of name parent from to db = Ok db.
Proof.
  intros H. unfold create_table_if_not_exists_partition_of. now rewrite H.
Qed.

Lemma to_char_YYYY_MM_month (d1 d2 : date) :
  year d1 = year d2 -> month d1 = month d2 ->
  to_char_YYYY_MM d1 = to_char_YYYY_MM d2.
Proof. intros Hy Hm. unfold to_char_YYYY_MM. now rewrite Hy, Hm. Qed.

(** The function as one statement on the table it names. *)
Lemma create_telemetry_partition_unfold table_name d db :
  table_name = "telemetry_events" \/ table_name = "telemetry_workflows" ->
  create_telemetry_partition table_name d db
  = create_table_if_not_exists_partition_of
      (table_name ++ "_" ++ to_char_YYYY_MM d)%string table_name
      d (add_months d 1) db.
Proof.
  intros [-> | ->]; unfold create_telemetry_partition; simpl.
  - now destruct (create_table_if_not_exists_partition_of _ _ _ _ _).
  - reflexivity.
Qed.

Lemma add_months_first_day (d : date) :
  day d = 1 -> 1 <= month d <= 12 ->
  add_months d 1
  = mkdate (if month d =? 12 then year d + 1 else year d)
      (if month d =? 12 then 1 else month d + 1) 1.
Proof.
  intros Hd Hm. unfold add_months.
  assert (Hy : (year d * 12 + (month d - 1) + 1) / 12
               = if month d =? 12 then year d + 1 else year d).
  { destruct (Z.eqb_spec (month d) 12) as [E | E].
    - rewrite E. replace (year d * 12 + (12 - 1) + 1) with ((year d + 1) * 12) by lia.
      apply Z.div_mul. lia.
    - replace (year d * 12 + (month d - 1) + 1) with (month d + year d * 12) by lia.
      rewrite Z.div_add by lia. rewrite Z.div_small by lia. lia. }
  assert (Hmo : (year d * 12 + (month d - 1) + 1) mod 12 + 1
                = if month d =? 12 then 1 else month d + 1).
  { destruct (Z.eqb_spec (month d) 12) as [E | E].
    - rewrite E. replace (year d * 12 + (12 - 1) + 1) with ((year d + 1) * 12) by lia.
      rewrite Z.mod_mul by lia. reflexivity.
    - replace (year d * 12 + (month d - 1) + 1) with (month d + year d * 12) by lia.
      rewrite Z.mod_add by lia. rewrite Z.mod_small by lia. reflexivity. }
  rewrite Hy, Hmo, Hd. f_equal.
  unfold days_in_month.
  destruct (_ =? 2); [destruct (is_leap_year _); lia |].
  destruct (_ || _); lia.
Qed.




(** * Further properties of the script *)

#[local] Arguments String.eqb : simpl nomatch.

(** ** The policies *)

(** X1.  The policies as a table of rights, for a session that does not own
    the tables.  On each of the three tables a row is visible to a command
    exactly for the role [service_role].  A row may be added to a telemetry
    table by [service_role], and by [anon] through INSERT alone; to the
    audit log by [service_role] alone.  Every other role sees no row and may
    add none. *)
Theorem policy_rights (r : string) (c : command) :
  let s := mksession r false in
  rls_using s "telemetry_events" c = (r =? "service_role")%string
  /\ rls_using s "telemetry_workflows" c = (r =? "service_role")%string
  /\ rls_using s "telemetry_audit_log" c = (r =? "service_role")%string
  /\ rls_with_check s "telemetry_events" c
     = ((r =? "service_role")%string
        || ((r =? "anon")%string && command_eqb c INSERT))
  /\ rls_with_check s "telemetry_workflows" c
     = ((r =? "service_role")%string
        || ((r =? "anon")%string && command_eqb c INSERT))
  /\ rls_with_check s "telemetry_audit_log" c = (r =? "service_role")%string.
Proof.
  unfold rls_using, rls_with_check, restricted, policy_applies. simpl.
  rewrite !(String.eqb_sym _ r).
  destruct (String.eqb_spec r "service_role") as [Hs | Hs];
    destruct (String.eqb_spec r "anon") as [Ha | Ha];
    try (rewrite Hs in Ha; discriminate Ha); destruct c; repeat split.
Qed.

(** ** The functions run with their owner's rights *)

Lemma aclcheck_owner P s rel c :
  table_owner s = true -> aclcheck P s rel c = Ok tt.
Proof. intros H. unfold aclcheck. now rewrite H. Qed.

Lemma insert_audit_log_owner P P' b2i s now op tbl v urole meta log :
  table_owner s = true ->
  insert_audit_log P b2i s now op tbl v urole meta log
  = insert_audit_log P' b2i s now op tbl v urole meta log.
Proof.
  intros H. unfold insert_audit_log.
  now rewrite (aclcheck_owner P s _ _ H), (aclcheck_owner P' s _ _ H).
Qed.

Lemma fire_row_triggers_owner P P' b2i s now op tbl ids :
  table_owner s = true ->
  forall log,
    fire_row_triggers P b2i s now op tbl ids log
    = fire_row_triggers P' b2i s now op tbl ids log.
Proof.
  intros H. induction ids as [| id ids IH]; intros log; simpl; [reflexivity |].
  unfold audit_telemetry_changes.
  destruct (non_anonymous_operation s op).
  - rewrite (insert_audit_log_owner P P' b2i s) by exact H.
    destruct (insert_audit_log P' b2i s now _ _ _ _ _ log); simpl;
      [apply IH | reflexivity].
  - simpl. apply IH.
Qed.

Lemma sql_insert_owner P P' b2i {R : Type} (T : store R) s now arbiter new db :
  table_owner s = true ->
  sql_insert P b2i T s now arbiter new db
  = sql_insert P' b2i T s now arbiter new db.
Proof.
  intros H. unfold sql_insert.
  rewrite (aclcheck_owner P s _ _ H), (aclcheck_owner P' s _ _ H). simpl.
  destruct (insert_rows T s arbiter new (store_rows T db)) as [[ins rows'] | e];
    simpl; [| reflexivity].
  now rewrite (fire_row_triggers_owner P P' b2i s) by exact H.
Qed.

(** X2.  The two insert functions are SECURITY DEFINER: what a call does
    depends on the role of the caller only through the role's name, which
    the audit trigger reads.  The table privileges of the caller, and
    whether the caller owns the tables, change nothing; a role without any
    privilege or policy is served like any other. *)
Theorem insert_functions_ignore_privileges
    (P P' : string -> string -> command -> bool) (b2i : bool -> option Z)
    (r : string) (owner owner' : bool) (now : timestamptz) (new_id : uuid)
    (db : database) :
  (forall uid ev props,
     insert_telemetry_event P b2i (mksession r owner) now new_id uid ev props db
     = insert_telemetry_event P' b2i (mksession r owner') now new_id uid ev
         props db)
  /\ (forall uid hash n types ht hw c sw,
     insert_telemetry_workflow P b2i (mksession r owner) now new_id uid hash n
       types ht hw c sw db
     = insert_telemetry_workflow P' b2i (mksession r owner') now new_id uid
         hash n types ht hw c sw db).
Proof.
  split; intros; unfold insert_telemetry_event, insert_telemetry_workflow,
    security_definer; simpl role;
    now rewrite (sql_insert_owner P P' b2i) by reflexivity.
Qed.

(** ** The validator of workflows *)

(** X3.  [insert_telemetry_workflow] raises the exception of the first check
    that fails, in the order of the function's body: the user id shorter
    than 16 characters, the fingerprint not of 64 characters, a node count
    of zero or less, a complexity outside simple, medium and complex, a
    sanitized workflow that is not a JSON object.  The list of node types
    never makes it raise. *)
Theorem insert_telemetry_workflow_rejects
    (P : string -> string -> command -> bool) (b2i : bool -> option Z)
    (s : session) (now : timestamptz) (new_id : uuid)
    (uid hash : string) (n : Z) (types : list string) (ht hw : bool)
    (c : string) (sw : jsonb) (db : database) :
  let call := insert_telemetry_workflow P b2i s now new_id uid hash n types
                ht hw c sw db in
  (length uid < 16 ->
   call = Err (raise_exception "user_id must be at least 16 characters"))
  /\ (16 <= length uid -> length hash <> 64 ->
      call = Err (raise_exception "workflow_hash must be exactly 64 characters"))
  /\ (16 <= length uid -> length hash = 64 -> n <= 0 ->
      call = Err (raise_exception "node_count must be positive"))
  /\ (16 <= length uid -> length hash = 64 -> 0 < n ->
      complexity_enum c = false ->
      call = Err (raise_exception
                    "complexity must be simple, medium, or complex"))
  /\ (16 <= length uid -> length hash = 64 -> 0 < n ->
      complexity_enum c = true -> jsonb_typeof sw <> "object" ->
      call = Err (raise_exception "sanitized_workflow must be a JSON object")).
Proof.
  intros call. subst call.
  assert (Hty : raise_if (sql_eq (array_length types) (Some 0))
                  "node_types cannot be empty" = Ok tt).
  { destruct types as [| t types]; [reflexivity |].
    unfold array_length, sql_eq, raise_if, is_true.
    now replace (Z.of_nat (List.length (t :: types)) =? 0) with false
      by (symmetry; apply Z.eqb_neq; simpl List.length; lia). }
  unfold insert_telemetry_workflow, validate_telemetry_workflow.
  repeat split; intros.
  - now replace (length uid <? 16) with true by (symmetry; apply Z.ltb_lt; lia).
  - replace (length uid <? 16) with false by (symmetry; apply Z.ltb_ge; lia).
    now replace (length hash =? 64) with false
      by (symmetry; apply Z.eqb_neq; assumption).
  - replace (length uid <? 16) with false by (symmetry; apply Z.ltb_ge; lia).
    replace (length hash =? 64) with true by (symmetry; apply Z.eqb_eq; lia).
    now replace (n <=? 0) with true by (symmetry; apply Z.leb_le; lia).
  - replace (length uid <? 16) with false by (symmetry; apply Z.ltb_ge; lia).
    replace (length hash =? 64) with true by (symmetry; apply Z.eqb_eq; lia).
    replace (n <=? 0) with false by (symmetry; apply Z.leb_gt; lia).
    simpl. rewrite Hty. simpl.
    match goal with H : complexity_enum c = false |- _ => now rewrite H end.
  - replace (length uid <? 16) with false by (symmetry; apply Z.ltb_ge; lia).
    replace (length hash =? 64) with true by (symmetry; apply Z.eqb_eq; lia).
    replace (n <=? 0) with false by (symmetry; apply Z.leb_gt; lia).
    simpl. rewrite Hty. simpl.
    match goal with H : complexity_enum c = true |- _ => rewrite H end.
    simpl.
    destruct (String.eqb_spec (jsonb_typeof sw) "object") as [E | _];
      [contradiction | reflexivity].
Qed.

Lemma insert_telemetry_workflow_rejects_witness :
  insert_telemetry_workflow all_privileges pg_boolean_to_integer anon now_2025
    9%N "short" hash_1 2 ["webhook"] true true "simple" (JObject [])
    empty_database
  = Err (raise_exception "user_id must be at least 16 characters")
  /\ insert_telemetry_workflow all_privileges pg_boolean_to_integer anon
       now_2025 9%N user_a "abc" 2 ["webhook"] true true "simple" (JObject [])
       empty_database
     = Err (raise_exception "workflow_hash must be exactly 64 characters")
  /\ insert_telemetry_workflow all_privileges pg_boolean_to_integer anon
       now_2025 9%N user_a hash_1 0 ["webhook"] true true "simple" (JObject [])
       empty_database
     = Err (raise_exception "node_count must be positive")
  /\ insert_telemetry_workflow all_privileges pg_boolean_to_integer anon
       now_2025 9%N user_a hash_1 2 ["webhook"] true true "huge" (JObject [])
       empty_database
     = Err (raise_exception "complexity must be simple, medium, or complex")
  /\ insert_telemetry_workflow all_privileges pg_boolean_to_integer anon
       now_2025 9%N user_a hash_1 2 ["webhook"] true true "simple" (JArray [])
       empty_database
     = Err (raise_exception "sanitized_workflow must be a JSON object").
Proof.
  split; [| split; [| split; [| split]]].
  - apply (proj1 (insert_telemetry_workflow_rejects all_privileges
                    pg_boolean_to_integer anon now_2025 9%N "short" hash_1 2
                    ["webhook"] true true "simple" (JObject []) empty_database)).
    unfold length. simpl. lia.
  - apply (proj1 (proj2 (insert_telemetry_workflow_rejects all_privileges
                    pg_boolean_to_integer anon now_2025 9%N user_a "abc" 2
                    ["webhook"] true true "simple" (JObject []) empty_database))).
    + unfold length. simpl. lia.
    + unfold length. simpl. lia.
  - apply (proj1 (proj2 (proj2 (insert_telemetry_workflow_rejects all_privileges
                    pg_boolean_to_integer anon now_2025 9%N user_a hash_1 0
                    ["webhook"] true true "simple" (JObject []) empty_database)))).
    + unfold length. simpl. lia.
    + reflexivity.
    + lia.
  - apply (proj1 (proj2 (proj2 (proj2 (insert_telemetry_workflow_rejects
                    all_privileges pg_boolean_to_integer anon now_2025 9%N
                    user_a hash_1 2 ["webhook"] true true "huge" (JObject [])
                    empty_database))))).
    + unfold length. simpl. lia.
    + reflexivity.
    + lia.
    + reflexivity.
  - apply (proj2 (proj2 (proj2 (proj2 (insert_telemetry_workflow_rejects
                    all_privileges pg_boolean_to_integer anon now_2025 9%N
                    user_a hash_1 2 ["webhook"] true true "simple" (JArray [])
                    empty_database))))).
    + unfold length. simpl. lia.
    + reflexivity.
    + lia.
    + reflexivity.
    + discriminate.
Defined.

(** ** The tables against the validators *)

Lemma check_row_events_Ok r :
  check_row events_relation r = Ok tt
  <-> 16 <= length (ev_user_id r) /\ 1 <= length (ev_event r) <= 100
      /\ jsonb_typeof (ev_properties r) = "object".
Proof.
  simpl. unfold check, guard, check_passes.
  rewrite !Z.geb_leb.
  destruct (Z.leb_spec 1 (length (ev_event r))) as [? | ?];
    destruct (Z.leb_spec (length (ev_event r)) 100) as [? | ?];
    destruct (String.eqb_spec (jsonb_typeof (ev_properties r)) "object")
      as [? | ?];
    destruct (Z.leb_spec 16 (length (ev_user_id r))) as [? | ?];
    simpl; split; intros Hyp; try discriminate Hyp; try reflexivity;
    try (repeat split; (assumption || lia));
    destruct Hyp as (? & ? & ?); try contradiction; lia.
Qed.

Lemma validate_telemetry_event_Ok_iff uid ev props :
  validate_telemetry_event uid ev props = Ok tt
  <-> 16 <= length uid /\ 1 <= length ev <= 100 /\ jsonb_typeof props = "object".
Proof.
  split.
  - intros H.
    destruct (Z.lt_ge_cases (length uid) 16) as [Hu | Hu];
      [destruct (validate_telemetry_event_Err uid ev props) as (m & E);
         [tauto | congruence] |].
    destruct (Z.lt_ge_cases (length ev) 1) as [He | He];
      [destruct (validate_telemetry_event_Err uid ev props) as (m & E);
         [unfold length in *; right; left; lia | congruence] |].
    destruct (Z.lt_ge_cases 100 (length ev)) as [He' | He'];
      [destruct (validate_telemetry_event_Err uid ev props) as (m & E);
         [right; right; left; lia | congruence] |].
    destruct (string_dec (jsonb_typeof props) "object") as [Hp | Hp];
      [| destruct (validate_telemetry_event_Err uid ev props) as (m & E);
           [tauto | congruence]].
    repeat split; (assumption || lia).
  - intros (Hu & He & Hp). now apply validate_telemetry_event_Ok.
Qed.

Lemma check_row_workflows_Ok r :
  check_row workflows_relation r = Ok tt
  <-> 16 <= length (wf_user_id r) /\ length (wf_workflow_hash r) = 64
      /\ 0 < wf_node_count r /\ complexity_enum (wf_complexity r) = true
      /\ jsonb_typeof (wf_sanitized_workflow r) = "object".
Proof.
  simpl. unfold check, guard.
  assert (Hty : check_passes (sql_gt (array_length (wf_node_types r)) (Some 0))
                = true).
  { destruct (wf_node_types r) as [| t types]; [reflexivity |].
    unfold array_length, sql_gt, check_passes.
    now replace (Z.of_nat (List.length (t :: types)) >? 0) with true
      by (symmetry; apply Z.gtb_lt; simpl List.length; lia). }
  rewrite Hty. unfold check_passes.
  rewrite Z.geb_leb, Z.gtb_ltb.
  destruct (complexity_enum (wf_complexity r));
    destruct (Z.ltb_spec 0 (wf_node_count r)) as [? | ?];
    destruct (String.eqb_spec (jsonb_typeof (wf_sanitized_workflow r)) "object")
      as [? | ?];
    destruct (Z.leb_spec 16 (length (wf_user_id r))) as [? | ?];
    destruct (Z.eqb_spec (length (wf_workflow_hash r)) 64) as [? | ?];
    simpl; split; intros Hyp; try discriminate Hyp; try reflexivity;
    try (repeat split; (assumption || lia));
    destruct Hyp as (? & ? & ? & ? & ?);
    try contradiction; try discriminate; lia.
Qed.

Lemma validate_telemetry_workflow_Ok_iff uid hash n types c sw :
  validate_telemetry_workflow uid hash n types c sw = Ok tt
  <-> 16 <= length uid /\ length hash = 64 /\ 0 < n
      /\ complexity_enum c = true /\ jsonb_typeof sw = "object".
Proof.
  split.
  - apply validate_telemetry_workflow_inv.
  - intros (Hu & Hh & Hn & Hc & Hs). now apply validate_telemetry_workflow_Ok.
Qed.

(** X4.  The CHECK constraints of each telemetry table accept exactly the
    rows the validator of its insert function accepts: a row written to the
    table directly is held to the same rules as one sent through the
    function, the empty list of node types passing both. *)
Theorem constraints_agree_with_validators :
  (forall r : event_row,
     check_row events_relation r = Ok tt
     <-> validate_telemetry_event (ev_user_id r) (ev_event r) (ev_properties r)
         = Ok tt)
  /\ (forall r : workflow_row,
     check_row workflows_relation r = Ok tt
     <-> validate_telemetry_workflow (wf_user_id r) (wf_workflow_hash r)
           (wf_node_count r) (wf_node_types r) (wf_complexity r)
           (wf_sanitized_workflow r) = Ok tt).
Proof.
  split; intros r.
  - now rewrite check_row_events_Ok, validate_telemetry_event_Ok_iff.
  - now rewrite check_row_workflows_Ok, validate_telemetry_workflow_Ok_iff.
Qed.

(** ** Rows written to the tables directly *)

Lemma length_append (a b : string) :
  String.length (a ++ b)%string = (String.length a + String.length b)%nat.
Proof. induction a as [| c a IH]; simpl; [reflexivity | now rewrite IH]. Qed.

(** One valid event row inserted by a session of its own right. *)
Lemma sql_insert_event_row P b2i s now id uid ev props db :
  16 <= length uid <= 64 -> 1 <= length ev <= 100 -> jsonb_typeof props = "object" ->
  ~ In id (map ev_id (telemetry_events db)) ->
  sql_insert P b2i events_store s now None [mkevent id uid ev props now] db =
  (_ <- aclcheck P s "telemetry_events" INSERT ;;
   _ <- guard (rls_with_check s "telemetry_events" INSERT)
          (row_security_violation "telemetry_events") ;;
   log' <- fire_row_triggers P b2i s now INSERT "telemetry_events" [id]
             (telemetry_audit_log db) ;;
   Ok ([mkevent id uid ev props now],
       with_audit_log log'
         (with_events (telemetry_events db ++ [mkevent id uid ev props now]) db))).
Proof.
  intros Hu He Hp Hid. unfold sql_insert.
  destruct (aclcheck P s _ INSERT) as [[] | e]; [| reflexivity].
  cbn [bind relname store_relation events_store events_relation store_rows
       insert_rows].
  unfold insert_row.
  cbn [coerce_row relname store_relation events_store events_relation
       ev_user_id ev_event ev_id ev_properties ev_created_at].
  rewrite (varchar_assign_fits 64 uid) by (unfold length in Hu; lia).
  rewrite (varchar_assign_fits 100 ev) by (unfold length in He; lia).
  cbn [bind].
  destruct (rls_with_check s "telemetry_events" INSERT); [| reflexivity].
  cbn [guard bind].
  assert (Hck : check_row events_relation (mkevent id uid ev props now) = Ok tt).
  { apply check_row_events_Ok. simpl. repeat split; (assumption || lia). }
  rewrite Hck. cbn [bind].
  unfold violated_unique.
  cbn [unique_constraints store_relation events_store events_relation find
       snd fst ev_id].
  apply existsb_id_false in Hid. rewrite existsb_map in Hid. rewrite Hid.
  cbn [option_map bind map row_id].
  destruct (fire_row_triggers _ _ _ _ _ _ _ _); reflexivity.
Qed.

(** One valid workflow row inserted by a session of its own right, with no
    ON CONFLICT clause. *)
Lemma sql_insert_workflow_row P b2i s now id uid hash n types ht hw c sw db :
  16 <= length uid <= 64 -> length hash = 64 -> 0 < n ->
  complexity_enum c = true -> jsonb_typeof sw = "object" ->
  ~ In id (map wf_id (telemetry_workflows db)) ->
  let r := mkworkflow id uid hash n types ht hw c sw now in
  sql_insert P b2i workflows_store s now None [r] db =
  (_ <- aclcheck P s "telemetry_workflows" INSERT ;;
   _ <- guard (rls_with_check s "telemetry_workflows" INSERT)
          (row_security_violation "telemetry_workflows") ;;
   if existsb (same_submission hash uid) (telemetry_workflows db)
   then Err (unique_violation "telemetry_workflows_unique_hash_user")
   else
     log' <- fire_row_triggers P b2i s now INSERT "telemetry_workflows" [id]
               (telemetry_audit_log db) ;;
     Ok ([r], with_audit_log log'
                (with_workflows (telemetry_workflows db ++ [r]) db))).
Proof.
  intros Hu Hh Hn Hc Hs Hid r. unfold sql_insert.
  destruct (aclcheck P s _ INSERT) as [[] | e]; [| reflexivity].
  cbn [bind relname store_relation workflows_store workflows_relation
       store_rows insert_rows].
  unfold insert_row.
  cbn [coerce_row relname store_relation workflows_store workflows_relation].
  unfold r at 1 2 3.
  cbn [wf_user_id wf_workflow_hash wf_complexity].
  rewrite (varchar_assign_fits 64 uid) by (unfold length in Hu; lia).
  rewrite (varchar_assign_fits 64 hash) by (unfold length in Hh; lia).
  rewrite (varchar_assign_fits 20 c) by (now apply complexity_enum_fits).
  cbn [bind]. fold r.
  replace (mkworkflow (wf_id r) uid hash (wf_node_count r) (wf_node_types r)
             (wf_has_trigger r) (wf_has_webhook r) c
             (wf_sanitized_workflow r) (wf_created_at r)) with r by reflexivity.
  destruct (rls_with_check s "telemetry_workflows" INSERT); [| reflexivity].
  cbn [guard bind].
  assert (Hck : check_row workflows_relation r = Ok tt).
  { apply check_row_workflows_Ok. simpl. repeat split; (assumption || lia). }
  rewrite Hck. cbn [bind].
  unfold violated_unique.
  cbn [unique_constraints store_relation workflows_store workflows_relation
       find snd fst].
  apply existsb_id_false in Hid. rewrite existsb_map in Hid.
  change (existsb (fun b => N.eqb (wf_id r) (wf_id b)) (telemetry_workflows db))
    with (existsb (fun x => N.eqb id (wf_id x)) (telemetry_workflows db)).
  rewrite Hid.
  change (existsb (fun b => ((wf_workflow_hash r =? wf_workflow_hash b)
                             && (wf_user_id r =? wf_user_id b))%string)
            (telemetry_workflows db))
    with (existsb (same_submission hash uid) (telemetry_workflows db)).
  destruct (existsb (same_submission hash uid) (telemetry_workflows db));
    cbn [option_map bind fst]; [reflexivity |].
  cbn [map row_id store_relation workflows_store workflows_relation].
  change (wf_id r) with id.
  destruct (fire_row_triggers _ _ _ _ _ _ _ _); reflexivity.
Qed.

(** X5.  A valid row that the role [anon] inserts into a telemetry table
    directly, as the scripts do, the identifier drawn for it not yet a key
    (and, for a workflow, its pair not yet stored): with the INSERT
    privilege the row is stored at the end of the table and the audit log
    stays as it was; without it the statement is refused with "permission
    denied". *)
Theorem anon_direct_insert
    (P : string -> string -> command -> bool) (b2i : bool -> option Z)
    (now : timestamptz) (id : uuid) (db : database) :
  (forall uid ev props,
     16 <= length uid <= 64 -> 1 <= length ev <= 100 ->
     jsonb_typeof props = "object" ->
     ~ In id (map ev_id (telemetry_events db)) ->
     sql_insert P b2i events_store anon now None
       [mkevent id uid ev props now] db
     = if P "anon" "telemetry_events" INSERT
       then Ok ([mkevent id uid ev props now],
                with_events
                  (telemetry_events db ++ [mkevent id uid ev props now]) db)
       else Err (insufficient_privilege "telemetry_events"))
  /\ (forall uid hash n types ht hw c sw,
     16 <= length uid <= 64 -> length hash = 64 -> 0 < n ->
     complexity_enum c = true -> jsonb_typeof sw = "object" ->
     ~ In id (map wf_id (telemetry_workflows db)) ->
     existsb (same_submission hash uid) (telemetry_workflows db) = false ->
     sql_insert P b2i workflows_store anon now None
       [mkworkflow id uid hash n types ht hw c sw now] db
     = if P "anon" "telemetry_workflows" INSERT
       then Ok ([mkworkflow id uid hash n types ht hw c sw now],
                with_workflows
                  (telemetry_workflows db
                   ++ [mkworkflow id uid hash n types ht hw c sw now]) db)
       else Err (insufficient_privilege "telemetry_workflows")).
Proof.
  split; intros.
  - rewrite sql_insert_event_row by assumption.
    unfold aclcheck. simpl.
    destruct (P "anon" "telemetry_events" INSERT); simpl; [| reflexivity].
    now destruct db.
  - rewrite sql_insert_workflow_row by assumption.
    unfold aclcheck. simpl.
    destruct (P "anon" "telemetry_workflows" INSERT); simpl; [| reflexivity].
    match goal with H : existsb _ _ = false |- _ => rewrite H end.
    now destruct db.
Qed.

Lemma anon_direct_insert_witness :
  sql_insert all_privileges pg_boolean_to_integer events_store anon now_2025
    None [anon_event] empty_database
  = Ok ([anon_event], with_events [anon_event] empty_database)
  /\ sql_insert anon_insert_only pg_boolean_to_integer workflows_store anon
       now_2025 None [submitted_workflow] empty_database
     = Ok ([submitted_workflow],
           with_workflows [submitted_workflow] empty_database).
Proof.
  split.
  - apply (proj1 (anon_direct_insert all_privileges pg_boolean_to_integer
                    now_2025 7%N empty_database)).
    + unfold length. simpl. lia.
    + unfold length. simpl. lia.
    + reflexivity.
    + simpl. tauto.
  - apply (proj2 (anon_direct_insert anon_insert_only pg_boolean_to_integer
                    now_2025 9%N empty_database)).
    + unfold length. simpl. lia.
    + reflexivity.
    + lia.
    + reflexivity.
    + reflexivity.
    + simpl. tauto.
    + reflexivity.
Defined.

(** X6.  A workflow whose pair (workflow_hash, user_id) is stored already:
    the function leaves the row out and returns NULL, whereas a plain INSERT
    of the same valid row by [anon] is an error, the violation of
    [telemetry_workflows_unique_hash_user]. *)
Theorem duplicate_workflow_direct_and_function
    (P : string -> string -> command -> bool) (b2i : bool -> option Z)
    (now : timestamptz) (id : uuid) (uid hash : string) (n : Z)
    (types : list string) (ht hw : bool) (c : string) (sw : jsonb)
    (db : database) :
  16 <= length uid <= 64 -> length hash = 64 -> 0 < n ->
  complexity_enum c = true -> jsonb_typeof sw = "object" ->
  ~ In id (map wf_id (telemetry_workflows db)) ->
  existsb (same_submission hash uid) (telemetry_workflows db) = true ->
  P "anon" "telemetry_workflows" INSERT = true ->
  sql_insert P b2i workflows_store anon now None
    [mkworkflow id uid hash n types ht hw c sw now] db
  = Err (unique_violation "telemetry_workflows_unique_hash_user")
  /\ insert_telemetry_workflow P b2i anon now id uid hash n types ht hw c sw db
     = Ok (None, db).
Proof.
  intros Hu Hh Hn Hc Hs Hid Hdup Hp. split.
  - rewrite sql_insert_workflow_row by assumption.
    unfold aclcheck. simpl. rewrite Hp. simpl. now rewrite Hdup.
  - unfold insert_telemetry_workflow.
    rewrite validate_telemetry_workflow_Ok by (assumption || lia).
    cbn [bind]. rewrite insert_workflow_row by assumption.
    now rewrite Hdup.
Qed.

Lemma duplicate_workflow_direct_and_function_witness :
  sql_insert all_privileges pg_boolean_to_integer workflows_store anon
    now_2025 None
    [mkworkflow 10%N user_a hash_1 2 ["webhook"; "http"] true true "simple"
       (JObject []) now_2025]
    (with_workflows [submitted_workflow] empty_database)
  = Err (unique_violation "telemetry_workflows_unique_hash_user")
  /\ insert_telemetry_workflow all_privileges pg_boolean_to_integer anon
       now_2025 10%N user_a hash_1 2 ["webhook"; "http"] true true "simple"
       (JObject []) (with_workflows [submitted_workflow] empty_database)
     = Ok (None, with_workflows [submitted_workflow] empty_database).
Proof.
  apply (duplicate_workflow_direct_and_function all_privileges
           pg_boolean_to_integer now_2025 10%N user_a hash_1 2
           ["webhook"; "http"] true true "simple" (JObject [])
           (with_workflows [submitted_workflow] empty_database)).
  - unfold length. simpl. lia.
  - reflexivity.
  - lia.
  - reflexivity.
  - reflexivity.
  - simpl. intros [H | []]. discriminate H.
  - reflexivity.
  - reflexivity.
Defined.

(** X7.  The first test of verify-telemetry-fix.js cannot pass against these
    tables: its user id, "verify-" followed by eight hexadecimal digits, has
    15 characters, one short of the table's bound.  Whatever the digits, the
    identifier drawn and the rows stored, the INSERT fails: on the
    constraint [telemetry_events_user_id_length] where [anon] holds the
    INSERT privilege, with "permission denied" where it does not. *)
Theorem verify_telemetry_fix_test_1_fails
    (P : string -> string -> command -> bool) (b2i : bool -> option Z)
    (now : timestamptz) (new_id : uuid) (hex : string) (db : database) :
  String.length hex = 8%nat ->
  length ("verify-" ++ hex) = 15
  /\ verify_telemetry_fix_test_1 P b2i now new_id hex db
     = if P "anon" "telemetry_events" INSERT
       then Err (check_violation "telemetry_events_user_id_length")
       else Err (insufficient_privilege "telemetry_events").
Proof.
  intros Hhex.
  assert (Hlen : String.length ("verify-" ++ hex) = 15%nat)
    by (rewrite length_append, Hhex; reflexivity).
  split; [unfold length; now rewrite Hlen |].
  unfold verify_telemetry_fix_test_1, sql_insert, aclcheck.
  cbn [table_owner anon role orb relname store_relation events_store
       events_relation].
  destruct (P "anon" "telemetry_events" INSERT); [| reflexivity].
  cbn [guard bind insert_rows store_rows events_store].
  unfold insert_row.
  cbn [coerce_row store_relation events_store events_relation ev_user_id
       ev_event ev_id ev_properties ev_created_at].
  rewrite (varchar_assign_fits 64) by (rewrite Hlen; lia).
  cbn [bind]. rewrite (varchar_assign_fits 100) by (simpl; lia).
  cbn [bind relname].
  replace (rls_with_check anon "telemetry_events" INSERT) with true
    by reflexivity.
  cbn [guard bind check_row events_relation ev_event ev_properties ev_user_id].
  unfold check at 1. cbn.
  unfold check at 1. cbn.
  rewrite Hhex. reflexivity.
Qed.

Lemma verify_telemetry_fix_test_1_fails_witness :
  length "verify-0a1b2c3d" = 15
  /\ verify_telemetry_fix_test_1 all_privileges pg_boolean_to_integer now_2025
       7%N "0a1b2c3d" empty_database
     = Err (check_violation "telemetry_events_user_id_length").
Proof.
  exact (verify_telemetry_fix_test_1_fails all_privileges pg_boolean_to_integer
           now_2025 7%N "0a1b2c3d" empty_database eq_refl).
Defined.

(** ** Statements the trigger logs, under PostgreSQL's rule *)

Lemma fire_row_triggers_aborts P s now op tbl ids log log' :
  non_anonymous_operation s op = true ->
  fire_row_triggers P pg_boolean_to_integer s now op tbl ids log = Ok log' ->
  ids = [] /\ log' = log.
Proof.
  intros Hq H. destruct ids as [| id ids]; simpl in H.
  - injection H as <-. auto.
  - rewrite audit_telemetry_changes_aborts in H by exact Hq. discriminate H.
Qed.

Lemma map_nil_inv {A B : Type} (f : A -> B) (l : list A) :
  map f l = [] -> l = [].
Proof. now destruct l. Qed.

Section UntouchedProperties.

Variable P : string -> string -> command -> bool.
Variable b2i : bool -> option Z.
Context {R : Type}.
Variable T : store R.

Lemma insert_rows_none s arbiter new :
  forall rows rows',
    insert_rows T s arbiter new rows = Ok ([], rows') -> rows' = rows.
Proof.
  induction new as [| r rest IH]; intros rows rows' H; simpl in H.
  - now injection H as <-.
  - inv_ok.
    match goal with
    | E : ?a ++ ?b = [] |- _ => apply app_eq_nil in E; destruct E as [-> ->]
    end.
    match goal with
    | Hi : insert_rows _ _ _ _ _ = Ok _ |- _ => apply IH in Hi; subst
    end.
    match goal with
    | Hr : insert_row _ _ _ _ _ = Ok _ |- _ =>
        unfold insert_row in Hr; inv_ok;
        repeat match type of Hr with
               | (if ?c then _ else _) = _ => destruct c
               | match ?c with _ => _ end = _ => destruct c
               end;
        try discriminate Hr; now injection Hr as <-
    end.
Qed.

Lemma update_rows_none s set w todo :
  forall done rows',
    update_rows T s set w done todo = Ok ([], rows') -> rows' = done ++ todo.
Proof.
  induction todo as [| r rest IH]; intros done rows' H; simpl in H.
  - injection H as <-. now rewrite app_nil_r.
  - destruct (rls_reading T s UPDATE && w r).
    + inv_ok.
      match goal with
      | Hr : match ?c with _ => _ end = _ |- _ =>
          destruct c; [discriminate Hr | inv_ok]
      end.
    + apply IH in H. subst. now rewrite <- app_assoc.
Qed.

Lemma filter_negb_none {A : Type} (f : A -> bool) (l : list A) :
  filter f l = [] -> filter (fun x => negb (f x)) l = l.
Proof.
  induction l as [| x l IH]; simpl; [reflexivity |].
  destruct (f x); [discriminate |]. intros H. simpl. now rewrite IH.
Qed.

Hypothesis put_same :
  forall db, with_audit_log (telemetry_audit_log db)
               (store_put T (store_rows T db) db) = db.

(** Under PostgreSQL's rule, a statement the trigger logs succeeds only on
    no row, and then leaves the database as it was. *)
Lemma execute_logged s now m db n db' :
  non_anonymous_operation s (mutation_command m) = true ->
  execute P pg_boolean_to_integer T s now m db = Ok (n, db') ->
  n = 0 /\ db' = db.
Proof.
  intros Hq H.
  destruct m as [arb new | set w | w]; simpl in Hq, H;
    unfold sql_insert, sql_update, sql_delete in H; inv_ok;
    match goal with
    | Ht : fire_row_triggers _ _ _ _ _ _ _ _ = Ok _ |- _ =>
        apply fire_row_triggers_aborts in Ht; [| exact Hq];
        destruct Ht as [Hids ->]; apply map_nil_inv in Hids
    end.
  - subst.
    match goal with
    | Hi : insert_rows _ _ _ _ _ = Ok _ |- _ =>
        apply insert_rows_none in Hi; subst
    end.
    split; [reflexivity | apply put_same].
  - subst.
    match goal with
    | Hu : update_rows _ _ _ _ _ _ = Ok _ |- _ =>
        apply update_rows_none in Hu; subst
    end.
    split; [reflexivity | apply put_same].
  - rewrite Hids. rewrite filter_negb_none by exact Hids.
    split; [reflexivity | apply put_same].
Qed.

End UntouchedProperties.

(** X8.  With PostgreSQL's rule for a boolean offered to the INTEGER column
    [record_count], the audit trigger cannot write an entry.  So a statement
    the trigger logs -- any UPDATE or DELETE, and an INSERT of a role other
    than [anon] -- succeeds on either telemetry table only when it touches
    no row, and it then leaves the whole database as it was. *)
Theorem logged_statement_touches_no_row
    (P : string -> string -> command -> bool) (s : session)
    (now : timestamptz) (db : database) :
  (forall m n db',
     non_anonymous_operation s (mutation_command m) = true ->
     execute P pg_boolean_to_integer events_store s now m db = Ok (n, db') ->
     n = 0 /\ db' = db)
  /\ (forall m n db',
     non_anonymous_operation s (mutation_command m) = true ->
     execute P pg_boolean_to_integer workflows_store s now m db = Ok (n, db') ->
     n = 0 /\ db' = db).
Proof.
  split; intros m n db'.
  - apply (execute_logged P events_store events_put_same).
  - apply (execute_logged P workflows_store workflows_put_same).
Qed.

Lemma logged_statement_touches_no_row_witness :
  non_anonymous_operation service_role DELETE = true
  /\ execute all_privileges pg_boolean_to_integer events_store service_role
       now_2025 (Delete (event_expired now_2025)) database_recent
     = Ok (0, database_recent)
  /\ (0 = 0 /\ database_recent = database_recent).
Proof.
  split; [reflexivity |]. split; [reflexivity |].
  apply (proj1 (logged_statement_touches_no_row all_privileges service_role
                  now_2025 database_recent)
           (Delete (event_expired now_2025)) 0 database_recent);
    reflexivity.
Defined.

(** X9.  The same rule closes the two insert functions to every role but
    [anon]: the functions run with their owner's rights, but the trigger
    reads the caller's role, logs the INSERT and aborts it.  A valid event,
    or a valid workflow whose pair is not stored yet, is refused; a workflow
    whose pair is stored is passed over before the trigger is reached. *)
Theorem insert_functions_abort_for_logged_roles
    (P : string -> string -> command -> bool) (s : session)
    (now : timestamptz) (new_id : uuid) (db : database) :
  role s <> "anon" ->
  (forall uid ev props,
     16 <= length uid <= 64 -> 1 <= length ev <= 100 ->
     jsonb_typeof props = "object" ->
     ~ In new_id (map ev_id (telemetry_events db)) ->
     insert_telemetry_event P pg_boolean_to_integer s now new_id uid ev props db
     = Err (datatype_mismatch "record_count"))
  /\ (forall uid hash n types ht hw c sw,
     16 <= length uid <= 64 -> length hash = 64 -> 0 < n ->
     complexity_enum c = true -> jsonb_typeof sw = "object" ->
     ~ In new_id (map wf_id (telemetry_workflows db)) ->
     insert_telemetry_workflow P pg_boolean_to_integer s now new_id uid hash n
       types ht hw c sw db
     = if existsb (same_submission hash uid) (telemetry_workflows db)
       then Ok (None, db)
       else Err (datatype_mismatch "record_count")).
Proof.
  intros Hr.
  assert (Hq : non_anonymous_operation (security_definer s) INSERT = true)
    by (apply non_anonymous_role; exact Hr).
  split; intros.
  - unfold insert_telemetry_event.
    rewrite validate_telemetry_event_Ok by (assumption || lia). cbn [bind].
    rewrite insert_event_row by assumption.
    match goal with
    | Hid : ~ In _ _ |- _ => apply existsb_id_false in Hid; rewrite Hid
    end.
    cbn [fire_row_triggers].
    rewrite audit_telemetry_changes_aborts by exact Hq. reflexivity.
  - unfold insert_telemetry_workflow.
    rewrite validate_telemetry_workflow_Ok by (assumption || lia). cbn [bind].
    rewrite insert_workflow_row by assumption.
    destruct (existsb (same_submission hash uid) (telemetry_workflows db));
      [reflexivity |].
    match goal with
    | Hid : ~ In _ _ |- _ => apply existsb_id_false in Hid; rewrite Hid
    end.
    cbn [fire_row_triggers].
    rewrite audit_telemetry_changes_aborts by exact Hq. reflexivity.
Qed.

Lemma insert_functions_abort_for_logged_roles_witness :
  insert_telemetry_event all_privileges pg_boolean_to_integer service_role
    now_2025 7%N user_a "tool_usage" (JObject []) empty_database
  = Err (datatype_mismatch "record_count").
Proof.
  apply (proj1 (insert_functions_abort_for_logged_roles all_privileges
                  service_role now_2025 7%N empty_database
                  ltac:(discriminate))).
  - unfold length. simpl. lia.
  - unfold length. simpl. lia.
  - reflexivity.
  - simpl. tauto.
Defined.

(** ** Retention, further *)

(** The owner of the tables and the role [service_role] see every row and
    may add rows everywhere. *)
Lemma unrestricted_rights s rel c :
  table_owner s = true \/ role s = "service_role" ->
  rls_using s rel c = true /\ rls_with_check s rel c = true.
Proof.
  intros [Ho | Hr]; unfold rls_using, rls_with_check, restricted.
  - rewrite Ho. split; reflexivity.
  - destruct (table_owner s); [split; reflexivity |].
    unfold row_level_security, policies. cbn [existsb negb andb orb].
    unfold policy_applies. cbn [polrelation polrole polcmd polqual polwithcheck
                                coalesce].
    rewrite Hr.
    rewrite !(String.eqb_sym rel).
    destruct c;
      destruct ("telemetry_events" =? rel)%string;
      destruct ("telemetry_workflows" =? rel)%string;
      destruct ("telemetry_audit_log" =? rel)%string;
      split; reflexivity.
Qed.

Lemma existsb_false_filter {A : Type} (f : A -> bool) (l : list A) :
  existsb f l = false -> filter f l = [].
Proof.
  induction l as [| x l IH]; simpl; [reflexivity |].
  destruct (f x); [discriminate | exact IH].
Qed.

Lemma existsb_true_filter {A : Type} (f : A -> bool) (l : list A) :
  existsb f l = true -> exists x rest, filter f l = x :: rest.
Proof.
  induction l as [| x l IH]; simpl; [discriminate |].
  destruct (f x); [eauto | exact IH].
Qed.

(** X10.  The cleanup run by the owner of the tables (the scheduled job) or
    by [service_role] holding the privileges it needs: DELETE and, for the
    column its WHERE clauses read, SELECT on both telemetry tables, INSERT
    on the audit log.  With no row older than the cutoff it succeeds
    whatever the engine's rule: it returns 0, keeps both tables and adds its
    two entries with count 0 to the audit log.  Under PostgreSQL's rule that
    is the only run that succeeds: one expired row in either table and the
    run is aborted, the database left as it was. *)
Theorem cleanup_by_privileged_session
    (P : string -> string -> command -> bool) (b2i : bool -> option Z)
    (s : session) (now : timestamptz) (db : database) :
  table_owner s = true
  \/ (role s = "service_role"
      /\ P "service_role" "telemetry_events" DELETE = true
      /\ P "service_role" "telemetry_events" SELECT = true
      /\ P "service_role" "telemetry_workflows" DELETE = true
      /\ P "service_role" "telemetry_workflows" SELECT = true
      /\ P "service_role" "telemetry_audit_log" INSERT = true) ->
  (existsb (event_expired now) (telemetry_events db) = false ->
   existsb (workflow_expired now) (telemetry_workflows db) = false ->
   cleanup_old_telemetry_data P b2i s now db
   = Ok (0, with_audit_log
              (telemetry_audit_log db
               ++ [cleanup_entry "telemetry_events" 0 now;
                   cleanup_entry "telemetry_workflows" 0 now]) db))
  /\ (existsb (event_expired now) (telemetry_events db)
      || existsb (workflow_expired now) (telemetry_workflows db) = true ->
      cleanup_old_telemetry_data P pg_boolean_to_integer s now db
      = Err (datatype_mismatch "record_count")).
Proof.
  intros Hs.
  assert (Hrights : forall rel c,
             rls_using s rel c = true /\ rls_with_check s rel c = true).
  { intros rel c. apply unrestricted_rights. tauto. }
  assert (Hacl : (table_owner s || P (role s) "telemetry_events" DELETE = true)
                 /\ (table_owner s || P (role s) "telemetry_events" SELECT
                     = true)
                 /\ (table_owner s || P (role s) "telemetry_workflows" DELETE
                     = true)
                 /\ (table_owner s || P (role s) "telemetry_workflows" SELECT
                     = true)
                 /\ (table_owner s || P (role s) "telemetry_audit_log" INSERT
                     = true)).
  { destruct Hs as [-> | (-> & -> & -> & -> & -> & ->)];
      [repeat split | rewrite !orb_true_r; repeat split]. }
  destruct Hacl as (Ha1 & Ha1' & Ha2 & Ha2' & Ha3).
  assert (Hev : forall b,
             sql_delete P b events_store s now
               (fun r => ts_ltb (ev_created_at r) (minus_2_years now)) db
             = (log' <- fire_row_triggers P b s now DELETE "telemetry_events"
                          (map ev_id (filter (event_expired now)
                                        (telemetry_events db)))
                          (telemetry_audit_log db) ;;
                Ok (Z.of_nat (List.length (filter (event_expired now)
                                             (telemetry_events db))),
                    with_audit_log log'
                      (with_events
                         (filter (fun r => negb (event_expired now r))
                            (telemetry_events db)) db)))).
  { intros b. unfold sql_delete, aclcheck, rls_reading. simpl.
    rewrite Ha1, Ha1'. simpl.
    rewrite (proj1 (Hrights "telemetry_events" DELETE)).
    rewrite (proj1 (Hrights "telemetry_events" SELECT)). reflexivity. }
  assert (Hwf : forall b db0,
             sql_delete P b workflows_store s now
               (fun r => ts_ltb (wf_created_at r) (minus_2_years now)) db0
             = (log' <- fire_row_triggers P b s now DELETE
                          "telemetry_workflows"
                          (map wf_id (filter (workflow_expired now)
                                        (telemetry_workflows db0)))
                          (telemetry_audit_log db0) ;;
                Ok (Z.of_nat (List.length (filter (workflow_expired now)
                                             (telemetry_workflows db0))),
                    with_audit_log log'
                      (with_workflows
                         (filter (fun r => negb (workflow_expired now r))
                            (telemetry_workflows db0)) db0)))).
  { intros b db0. unfold sql_delete, aclcheck, rls_reading. simpl.
    rewrite Ha2, Ha2'. simpl.
    rewrite (proj1 (Hrights "telemetry_workflows" DELETE)).
    rewrite (proj1 (Hrights "telemetry_workflows" SELECT)). reflexivity. }
  split.
  - intros He Hw. unfold cleanup_old_telemetry_data.
    rewrite Hev.
    rewrite (existsb_false_filter _ _ He).
    rewrite (filter_negb_none _ _ (existsb_false_filter _ _ He)).
    cbn [map fire_row_triggers bind List.length Z.of_nat].
    rewrite Hwf. cbn [telemetry_workflows with_audit_log with_events
                      telemetry_audit_log].
    rewrite (existsb_false_filter _ _ Hw).
    rewrite (filter_negb_none _ _ (existsb_false_filter _ _ Hw)).
    cbn [map fire_row_triggers bind List.length Z.of_nat].
    unfold insert_audit_log, aclcheck. cbn [assign_integer bind].
    rewrite Ha3.
    rewrite (proj2 (Hrights "telemetry_audit_log" INSERT)).
    simpl. rewrite <- app_assoc. now destruct db.
  - intros Hex. unfold cleanup_old_telemetry_data.
    rewrite Hev.
    destruct (existsb (event_expired now) (telemetry_events db)) eqn:He.
    + apply existsb_true_filter in He. destruct He as (x & rest & ->).
      reflexivity.
    + rewrite (existsb_false_filter _ _ He).
      rewrite (filter_negb_none _ _ (existsb_false_filter _ _ He)).
      cbn [map fire_row_triggers bind List.length Z.of_nat].
      rewrite Hwf. cbn [telemetry_workflows with_audit_log with_events
                        telemetry_audit_log].
      simpl in Hex. apply existsb_true_filter in Hex.
      destruct Hex as (x & rest & ->). reflexivity.
Qed.

Lemma cleanup_by_privileged_session_witness :
  cleanup_old_telemetry_data all_privileges pg_boolean_to_integer owner_job
    now_2025 database_recent
  = Ok (0, database_recent_cleaned)
  /\ cleanup_old_telemetry_data all_privileges pg_boolean_to_integer
       service_role now_2025 database_old_event
     = Err (datatype_mismatch "record_count").
Proof.
  split.
  - apply (proj1 (cleanup_by_privileged_session all_privileges
                    pg_boolean_to_integer owner_job now_2025 database_recent
                    (or_introl eq_refl))); reflexivity.
  - apply (proj2 (cleanup_by_privileged_session all_privileges
                    pg_boolean_to_integer service_role now_2025
                    database_old_event
                    (or_intror
                       (conj eq_refl
                          (conj eq_refl
                             (conj eq_refl
                                (conj eq_refl (conj eq_refl eq_refl))))))));
      reflexivity.
Defined.

(** X11.  Under PostgreSQL's rule a run of the cleanup that succeeds, by
    whatever session, has deleted nothing: it returns 0 and leaves the
    database as it was but for its two entries in the audit log, one for
    each telemetry table, with operation DELETE, role "system", count 0 and
    the cutoff as metadata. *)
Theorem cleanup_succeeds_without_deleting
    (P : string -> string -> command -> bool)
    (s : session) (now : timestamptz) (db db' : database) (total : Z) :
  cleanup_old_telemetry_data P pg_boolean_to_integer s now db
  = Ok (total, db') ->
  total = 0
  /\ db' = with_audit_log
             (telemetry_audit_log db
              ++ [cleanup_entry "telemetry_events" 0 now;
                  cleanup_entry "telemetry_workflows" 0 now]) db.
Proof.
  intros H. unfold cleanup_old_telemetry_data in H. inv_ok.
  match goal with
  | H1 : sql_delete _ _ events_store _ _ ?w1 _ = Ok (?n1, ?d1) |- _ =>
      destruct (execute_logged P events_store events_put_same s now
                  (Delete w1) db n1 d1 eq_refl H1) as [-> ->]
  end.
  match goal with
  | H2 : sql_delete _ _ workflows_store _ _ ?w2 _ = Ok (?n2, ?d2) |- _ =>
      destruct (execute_logged P workflows_store workflows_put_same s now
                  (Delete w2) db n2 d2 eq_refl H2) as [-> ->]
  end.
  repeat match goal with
  | Hi : insert_audit_log _ _ _ _ _ _ _ _ _ _ = Ok _ |- _ =>
      apply insert_audit_log_Ok in Hi; [| simpl; lia | simpl; lia];
      destruct Hi as (? & ? & ? & ? & ->)
  end.
  repeat match goal with
  | Hr : varchar_assign 50 "system" = Ok _ |- _ => cbv in Hr; injection Hr as <-
  end.
  simpl in *. inv_ok.
  split; [reflexivity |].
  rewrite <- app_assoc. reflexivity.
Qed.

Lemma cleanup_succeeds_without_deleting_witness :
  cleanup_old_telemetry_data all_privileges pg_boolean_to_integer owner_job
    now_2025 database_recent
  = Ok (0, database_recent_cleaned)
  /\ 0 = 0
  /\ database_recent_cleaned
     = with_audit_log
         (telemetry_audit_log database_recent
          ++ [cleanup_entry "telemetry_events" 0 now_2025;
              cleanup_entry "telemetry_workflows" 0 now_2025])
         database_recent.
Proof.
  split; [reflexivity |].
  exact (cleanup_succeeds_without_deleting all_privileges owner_job now_2025
           database_recent database_recent_cleaned 0 eq_refl).
Defined.

(** X12.  The role [anon] cannot run the cleanup, whatever privileges it
    was granted: a privilege is missing -- DELETE or SELECT on a telemetry
    table, INSERT on the audit log -- or, the two DELETEs having found no
    row to see, the policy of the audit log refuses the first entry the
    cleanup writes.  The database stays as it was. *)
Theorem cleanup_refused_to_anon
    (P : string -> string -> command -> bool) (b2i : bool -> option Z)
    (now : timestamptz) (db : database) :
  cleanup_old_telemetry_data P b2i anon now db
  = if negb (P "anon" "telemetry_events" DELETE
             && P "anon" "telemetry_events" SELECT)
    then Err (insufficient_privilege "telemetry_events")
    else if negb (P "anon" "telemetry_workflows" DELETE
                  && P "anon" "telemetry_workflows" SELECT)
    then Err (insufficient_privilege "telemetry_workflows")
    else if negb (P "anon" "telemetry_audit_log" INSERT)
    then Err (insufficient_privilege "telemetry_audit_log")
    else Err (row_security_violation "telemetry_audit_log").
Proof.
  unfold cleanup_old_telemetry_data.
  rewrite (sql_delete_unseen P b2i events_store events_put_same)
    by reflexivity.
  cbn [table_owner anon role orb relname store_relation events_store
       events_relation].
  destruct (P "anon" "telemetry_events" DELETE
            && P "anon" "telemetry_events" SELECT); [| reflexivity].
  cbn [negb bind].
  rewrite (sql_delete_unseen P b2i workflows_store workflows_put_same)
    by reflexivity.
  cbn [table_owner anon role orb relname store_relation workflows_store
       workflows_relation].
  destruct (P "anon" "telemetry_workflows" DELETE
            && P "anon" "telemetry_workflows" SELECT); [| reflexivity].
  cbn [negb bind].
  unfold insert_audit_log, aclcheck.
  cbn [assign_integer bind table_owner anon role orb].
  destruct (P "anon" "telemetry_audit_log" INSERT); reflexivity.
Qed.

(** ** Partitions, further *)

Lemma existsb_eqb_not_In (x : string) (l : list string) :
  existsb (String.eqb x) l = false -> ~ In x l.
Proof.
  intros H Hin. now rewrite (existsb_eqb_In _ _ Hin) in H.
Qed.

Lemma partition_overlaps_sym (a b c d : date) :
  partition_overlaps a b c d = partition_overlaps c d a b.
Proof. unfold partition_overlaps. apply andb_comm. Qed.

Lemma NoDup_snoc {A : Type} (l : list A) (x : A) :
  NoDup l -> ~ In x l -> NoDup (l ++ [x]).
Proof.
  induction 1 as [| y l Hy Hl IH]; intros Hx; simpl.
  - constructor; [intros [] | constructor].
  - constructor.
    + rewrite in_app_iff. simpl. intros [H | [H | []]]; [contradiction |].
      subst. apply Hx. now left.
    + apply IH. intros H. apply Hx. now right.
Qed.

Lemma ForallOrdPairs_snoc {A : Type} (Q : A -> A -> Prop) (l : list A) (x : A) :
  ForallOrdPairs Q l -> Forall (fun p => Q p x) l ->
  ForallOrdPairs Q (l ++ [x]).
Proof.
  induction 1 as [| y l Hy Hl IH]; intros Hx; simpl.
  - constructor; constructor.
  - inversion Hx as [| ? ? Hyx Hrest]; subst.
    constructor.
    + apply Forall_app. split; [exact Hy | constructor; [exact Hyx | constructor]].
    + apply IH. exact Hrest.
Qed.

(** What the statement does when it succeeds: nothing, or one partition
    more, which then is new, on a partitioned parent and clear of the
    parent's other partitions. *)
Lemma create_partition_Ok name parent from to db db' :
  create_table_if_not_exists_partition_of name parent from to db = Ok db' ->
  db' = db
  \/ (relation_exists name db = false
      /\ In parent (partitioned_tables db)
      /\ (forall p, In p (partitions db) -> part_parent p = parent ->
            partition_overlaps from to (part_from p) (part_to p) = false)
      /\ db' = with_partitions
                 (partitions db ++ [mkpartition name parent from to]) db).
Proof.
  unfold create_table_if_not_exists_partition_of. intros H.
  destruct (relation_exists name db) eqn:Hex.
  - left. now injection H as <-.
  - right. inv_ok.
    split; [reflexivity |]. split; [| split; [| reflexivity]].
    + match goal with
      | Hp : existsb (String.eqb parent) _ = true |- _ =>
          apply existsb_exists in Hp; destruct Hp as (x & Hin & Hx);
          apply String.eqb_eq in Hx; now subst x
      end.
    + intros p Hin Hparent.
      match goal with
      | Hn : negb (existsb ?f _) = true |- _ =>
          apply negb_true_iff in Hn;
          assert (Hf : f p = false)
            by (apply not_true_is_false; intros Hf;
                assert (Hex' : existsb f (partitions db) = true)
                  by (apply existsb_exists; eauto);
                now rewrite Hex' in Hn)
      end.
      cbn beta in Hf. rewrite Hparent, String.eqb_refl in Hf. exact Hf.
Qed.

Lemma create_partition_consistent name parent from to db db' :
  create_table_if_not_exists_partition_of name parent from to db = Ok db' ->
  partitions_consistent db -> partitions_consistent db'.
Proof.
  intros H (Hnames & Hranges).
  apply create_partition_Ok in H.
  destruct H as [-> | (Hnew & _ & Hclear & ->)]; [split; assumption |].
  unfold partitions_consistent. cbn [partitions with_partitions].
  split.
  - rewrite map_app. cbn [map part_name].
    apply (NoDup_snoc
             ("telemetry_events" :: "telemetry_workflows"
                :: "telemetry_audit_log" :: map part_name (partitions db))).
    + exact Hnames.
    + apply existsb_eqb_not_In. exact Hnew.
  - apply ForallOrdPairs_snoc; [exact Hranges |].
    apply Forall_forall. intros p Hin Hparent. cbn in Hparent |- *.
    rewrite partition_overlaps_sym. now apply Hclear.
Qed.



(** The function is one statement, or none. *)
Lemma create_telemetry_partition_Ok table_name d db db' :
  create_telemetry_partition table_name d db = Ok db' ->
  db' = db
  \/ create_table_if_not_exists_partition_of
       (table_name ++ "_" ++ to_char_YYYY_MM d)%string
       table_name d (add_months d 1) db = Ok db'.
Proof.
  intros H. unfold create_telemetry_partition in H.
  destruct (table_name =? "telemetry_events")%string eqn:E1.
  - apply String.eqb_eq in E1. subst table_name.
    cbn in H. inv_ok. now right.
  - cbn [bind] in H.
    destruct (table_name =? "telemetry_workflows")%string.
    + now right.
    + left. now injection H as <-.
Qed.

(** X14.  A successful call, for any table name and any date, keeps the
    rows of the three tables and the partitions made before, adds at most
    one partition at the end, and keeps the partitions consistent: no two
    relations share a name and no two partitions of one table overlap. *)
Theorem create_telemetry_partition_keeps_consistency
    (table_name : string) (d : date) (db db' : database) :
  create_telemetry_partition table_name d db = Ok db' ->
  telemetry_events db' = telemetry_events db
  /\ telemetry_workflows db' = telemetry_workflows db
  /\ telemetry_audit_log db' = telemetry_audit_log db
  /\ partitioned_tables db' = partitioned_tables db
  /\ (partitions db' = partitions db
      \/ partitions db'
         = partitions db
           ++ [mkpartition (table_name ++ "_" ++ to_char_YYYY_MM d)%string
                 table_name d (add_months d 1)])
  /\ (partitions_consistent db -> partitions_consistent db').
Proof.
  intros H. apply create_telemetry_partition_Ok in H.
  destruct H as [-> | Hone].
  { repeat (split; [reflexivity |]). split; [now left | tauto]. }
  pose proof (create_partition_consistent _ _ _ _ _ _ Hone) as Hcons.
  apply create_partition_Ok in Hone.
  destruct Hone as [-> | (_ & _ & _ & ->)].
  - repeat (split; [reflexivity |]). split; [now left | tauto].
  - repeat (split; [reflexivity |]). split; [now right | exact Hcons].
Qed.

Lemma create_telemetry_partition_keeps_consistency_witness :
  create_telemetry_partition "telemetry_events" (mkdate 2025 1 1)
    database_partitioned
  = Ok (with_partitions [partition_january] database_partitioned)
  /\ telemetry_events (with_partitions [partition_january] database_partitioned)
     = telemetry_events database_partitioned
  /\ partitions_consistent
       (with_partitions [partition_january] database_partitioned).
Proof.
  split; [reflexivity |].
  pose proof (create_telemetry_partition_keeps_consistency "telemetry_events"
                (mkdate 2025 1 1) database_partitioned
                (with_partitions [partition_january] database_partitioned)
                eq_refl) as H.
  split; [apply H |].
  apply H. split.
  - repeat constructor; simpl; intuition discriminate.
  - constructor.
Defined.

(** *** The names of the partitions *)

Lemma append_cancel_l (t a b : string) :
  (t ++ a)%string = (t ++ b)%string -> a = b.
Proof.
  induction t as [| c t IH]; simpl; intros H; [exact H |].
  injection H as H. now apply IH.
Qed.

Lemma append_inj (a b x y : string) :
  String.length a = String.length b ->
  (a ++ x)%string = (b ++ y)%string -> a = b /\ x = y.
Proof.
  revert b. induction a as [| c a IH]; intros [| c' b] Hlen H;
    simpl in Hlen, H; try discriminate Hlen.
  - auto.
  - injection H as -> H. injection Hlen as Hlen.
    destruct (IH b Hlen H) as [-> ->]. auto.
Qed.

Lemma digits_length (w : nat) (z : Z) : String.length (digits w z) = w.
Proof.
  revert z. induction w as [| w IH]; intros z; simpl; [reflexivity |].
  rewrite length_append, IH. simpl. lia.
Qed.

Lemma digit_inj (a b : Z) : digit a = digit b -> a mod 10 = b mod 10.
Proof.
  unfold digit. intros H. injection H as H.
  assert (Ha : 0 <= a mod 10 < 10) by (apply Z.mod_pos_bound; lia).
  assert (Hb : 0 <= b mod 10 < 10) by (apply Z.mod_pos_bound; lia).
  apply (f_equal nat_of_ascii) in H.
  rewrite !nat_ascii_embedding in H by lia. lia.
Qed.

Lemma digits_inj (w : nat) :
  forall a b, digits w a = digits w b ->
              a mod 10 ^ Z.of_nat w = b mod 10 ^ Z.of_nat w.
Proof.
  induction w as [| w IH]; intros a b H.
  - simpl. now rewrite !Z.mod_1_r.
  - simpl in H.
    apply append_inj in H; [| now rewrite !digits_length].
    destruct H as [Hhigh Hlow].
    apply IH in Hhigh. apply digit_inj in Hlow.
    rewrite Nat2Z.inj_succ, Z.pow_succ_r by lia.
    rewrite !(Z.rem_mul_r _ 10) by lia.
    now rewrite Hhigh, Hlow.
Qed.

(** [decimal_width] counts all the digits: with the fuel [zero_padded]
    gives it, no digit of a number is lost. *)
Lemma decimal_width_enough (fuel : nat) :
  forall z, 0 <= z <= Z.of_nat fuel ->
            z < 10 ^ Z.of_nat (decimal_width fuel z).
Proof.
  induction fuel as [| fuel IH]; intros z Hz.
  - simpl. lia.
  - cbn [decimal_width].
    destruct (Z.ltb_spec z 10) as [Hlt | Hge]; [simpl; lia |].
    rewrite Nat2Z.inj_succ, Z.pow_succ_r by lia.
    assert (Hq : 0 <= z / 10 <= Z.of_nat fuel).
    { split; [apply Z.div_pos; lia |].
      assert (z / 10 < z) by (apply Z.div_lt; lia). lia. }
    specialize (IH _ Hq).
    pose proof (Z.mul_div_le z 10 ltac:(lia)).
    pose proof (Z.mod_pos_bound z 10 ltac:(lia)).
    pose proof (Z.div_mod z 10 ltac:(lia)). lia.
Qed.

Lemma decimal_width_bound (k : nat) :
  forall fuel z, (1 <= k)%nat -> z < 10 ^ Z.of_nat k ->
                 (decimal_width fuel z <= k)%nat.
Proof.
  induction k as [| k IH]; intros fuel z Hk Hz; [lia |].
  destruct fuel as [| fuel]; cbn [decimal_width]; [lia |].
  destruct (Z.ltb_spec z 10) as [Hlt | Hge]; [lia |].
  rewrite Nat2Z.inj_succ, Z.pow_succ_r in Hz by lia.
  assert (Hq : z / 10 < 10 ^ Z.of_nat k)
    by (apply Z.div_lt_upper_bound; lia).
  destruct k as [| k]; [simpl in Hz; lia |].
  specialize (IH fuel (z / 10) ltac:(lia) Hq). lia.
Qed.

(** A number that fits [w] digits is printed with exactly [w]. *)
Lemma zero_padded_fits (w : nat) (z : Z) :
  (1 <= w)%nat -> z < 10 ^ Z.of_nat w -> zero_padded w z = digits w z.
Proof.
  intros Hw Hz. unfold zero_padded.
  pose proof (decimal_width_bound w (Z.to_nat z) z Hw Hz).
  now rewrite Nat.max_l by lia.
Qed.

(** The name of a month of a year of at most four digits. *)
Lemma to_char_YYYY_MM_four_digits (d : date) :
  year d <= 9999 -> month d <= 12 ->
  to_char_YYYY_MM d = (digits 4 (year d) ++ "_" ++ digits 2 (month d))%string.
Proof.
  intros Hy Hm. unfold to_char_YYYY_MM.
  rewrite (zero_padded_fits 4) by (simpl; lia).
  now rewrite (zero_padded_fits 2) by (simpl; lia).
Qed.

(** X15.  The name of a partition tells its table's months apart: for years
    of four digits, two reference dates give one partition name exactly when
    they lie in one calendar month.  So IF NOT EXISTS passes over a call
    only for a month that has its partition, never for another month. *)
Theorem partition_name_of_month (table_name : string) (d1 d2 : date) :
  0 <= year d1 <= 9999 -> 0 <= year d2 <= 9999 ->
  1 <= month d1 <= 12 -> 1 <= month d2 <= 12 ->
  (table_name ++ "_" ++ to_char_YYYY_MM d1)%string
  = (table_name ++ "_" ++ to_char_YYYY_MM d2)%string
  <-> year d1 = year d2 /\ month d1 = month d2.
Proof.
  intros Hy1 Hy2 Hm1 Hm2. split.
  - intros H. apply append_cancel_l in H.
    apply (append_cancel_l "_") in H.
    rewrite !to_char_YYYY_MM_four_digits in H by lia.
    apply append_inj in H; [| now rewrite !digits_length].
    destruct H as [Hy Hm].
    apply (append_cancel_l "_") in Hm.
    apply digits_inj in Hy. apply digits_inj in Hm.
    change (10 ^ Z.of_nat 4) with 10000 in Hy.
    change (10 ^ Z.of_nat 2) with 100 in Hm.
    rewrite !Z.mod_small in Hy, Hm by lia. auto.
  - intros [Hy Hm]. now rewrite (to_char_YYYY_MM_month d1 d2 Hy Hm).
Qed.

Lemma partition_name_of_month_witness :
  ("telemetry_events" ++ "_" ++ to_char_YYYY_MM (mkdate 2025 1 15))%string
  = ("telemetry_events" ++ "_" ++ to_char_YYYY_MM (mkdate 2025 1 1))%string
  <-> 2025 = 2025 /\ 1 = 1.
Proof.
  apply (partition_name_of_month "telemetry_events" (mkdate 2025 1 15)
           (mkdate 2025 1 1)); simpl; lia.
Defined.

(** ** Statistics, further *)

Lemma count_cons {A : Type} (f : A -> bool) (x : A) (l : list A) :
  count f (x :: l) = (if f x then 1 else 0) + count f l.
Proof.
  unfold count. cbn [filter]. destruct (f x); cbn [List.length]; lia.
Qed.

Lemma count_nonneg {A : Type} (f : A -> bool) (l : list A) : 0 <= count f l.
Proof. unfold count. lia. Qed.

Lemma count_none {A : Type} (f : A -> bool) (l : list A) :
  (forall x, f x = false) -> count f l = 0.
Proof. intros H. unfold count. now rewrite filter_none. Qed.

Lemma count_le {A : Type} (f g : A -> bool) (l : list A) :
  (forall x, f x = true -> g x = true) -> count f l <= count g l.
Proof.
  intros H. induction l as [| x l IH]; [reflexivity |].
  rewrite !count_cons. specialize (H x).
  destruct (f x), (g x); first [lia | discriminate (H eq_refl)].
Qed.

Lemma nodup_length_le (l : list string) :
  (List.length (nodup string_dec l) <= List.length l)%nat.
Proof.
  apply NoDup_incl_length; [apply NoDup_nodup |].
  intros x Hx. now apply nodup_In in Hx.
Qed.

Lemma nodup_length_incl (l l' : list string) :
  incl l l' ->
  (List.length (nodup string_dec l) <= List.length (nodup string_dec l'))%nat.
Proof.
  intros H. apply NoDup_incl_length; [apply NoDup_nodup |].
  intros x Hx. apply nodup_In. apply H. now apply nodup_In in Hx.
Qed.

Lemma nodup_nil_inv (l : list string) : nodup string_dec l = [] -> l = [].
Proof.
  destruct l as [| x l]; [reflexivity |]. intros H.
  assert (Hin : In x (nodup string_dec (x :: l)))
    by (apply nodup_In; now left).
  rewrite H in Hin. contradiction.
Qed.

(** The users the third metric counts. *)
Lemma users_between_In a b db (u : string) :
  In u (map ev_user_id
          (filter (fun r => between (ev_created_at r) a b) (telemetry_events db))
        ++ map wf_user_id
             (filter (fun r => between (wf_created_at r) a b)
                (telemetry_workflows db)))
  <-> seen_between a b db u.
Proof.
  unfold seen_between. rewrite in_app_iff, !in_map_iff.
  split; (intros [(r & H1 & H2) | (r & H1 & H2)]; [left | right]; exists r).
  - apply filter_In in H2. tauto.
  - apply filter_In in H2. tauto.
  - split; [tauto |]. apply filter_In. tauto.
  - split; [tauto |]. apply filter_In. tauto.
Qed.

(** X16.  The metric unique_users counts each user once, however many rows
    the user has in the window and in whichever of the two tables: it is
    the size of any duplicate-free list of the users seen in the window.
    It never exceeds total_events plus total_workflows, and it is 0 exactly
    when both are. *)
Theorem unique_users_counts_each_user_once
    (now start_date end_date : timestamptz) (db : database) :
  0 <= stat "unique_users" now start_date end_date db
    <= stat "total_events" now start_date end_date db
       + stat "total_workflows" now start_date end_date db
  /\ (stat "unique_users" now start_date end_date db = 0
      <-> stat "total_events" now start_date end_date db
          + stat "total_workflows" now start_date end_date db = 0)
  /\ (forall users,
        NoDup users ->
        (forall u, In u users <-> seen_between start_date end_date db u) ->
        stat "unique_users" now start_date end_date db
        = Z.of_nat (List.length users)).
Proof.
  set (l := map ev_user_id
              (filter (fun r => between (ev_created_at r) start_date end_date)
                 (telemetry_events db))
            ++ map wf_user_id
                 (filter (fun r => between (wf_created_at r) start_date end_date)
                    (telemetry_workflows db))).
  assert (Hu : stat "unique_users" now start_date end_date db
               = Z.of_nat (List.length (nodup string_dec l))) by reflexivity.
  assert (Ht : stat "total_events" now start_date end_date db
               + stat "total_workflows" now start_date end_date db
               = Z.of_nat (List.length l)).
  { unfold l. rewrite length_app, !length_map, Nat2Z.inj_add. reflexivity. }
  rewrite Hu, Ht.
  pose proof (nodup_length_le l) as Hle.
  split; [lia |]. split.
  - split; intros H.
    + assert (Hnil : nodup string_dec l = [])
        by (apply length_zero_iff_nil; lia).
      apply nodup_nil_inv in Hnil. now rewrite Hnil.
    + assert (Hnil : l = []) by (apply length_zero_iff_nil; lia).
      now rewrite Hnil.
  - intros users Hnodup Hseen. f_equal.
    apply Permutation_length. apply NoDup_Permutation.
    + apply NoDup_nodup.
    + exact Hnodup.
    + intros u. rewrite nodup_In, Hseen. apply users_between_In.
Qed.

Lemma unique_users_counts_each_user_once_witness :
  stat "unique_users" now_2025 (midnight 2025 1 1) now_2025 database_recent
  = Z.of_nat (List.length [user_a]).
Proof.
  apply (proj2 (proj2 (unique_users_counts_each_user_once now_2025
                         (midnight 2025 1 1) now_2025 database_recent))).
  - repeat constructor. simpl. tauto.
  - intros u. split.
    + intros [<- | []]. left. exists event_2025.
      split; [simpl; tauto | split; reflexivity].
    + intros [(r & Hin & _ & <-) | (r & Hin & _ & <-)]; simpl in Hin.
      * destruct Hin as [<- | []]. now left.
      * destruct Hin as [<- | []]. now left.
Defined.

Lemma between_reversed (t lo hi : timestamptz) :
  ts_ord hi < ts_ord lo -> between t lo hi = false.
Proof.
  intros H. unfold between, ts_leb.
  destruct (Z.leb_spec (ts_ord lo) (ts_ord t)); [| reflexivity].
  destruct (Z.leb_spec (ts_ord t) (ts_ord hi)); [lia | reflexivity].
Qed.

Lemma between_wider (t lo hi lo' hi' : timestamptz) :
  ts_ord lo' <= ts_ord lo -> ts_ord hi <= ts_ord hi' ->
  between t lo hi = true -> between t lo' hi' = true.
Proof.
  unfold between, ts_leb. intros Hlo Hhi H.
  apply andb_true_iff in H. destruct H as [H1 H2].
  apply Z.leb_le in H1, H2. apply andb_true_iff. split; apply Z.leb_le; lia.
Qed.

(** Two windows that meet at [b]: a row is in both exactly when it was
    created at [b]. *)
Lemma count_between_split {A : Type} (at_ : A -> timestamptz)
    (a b c : timestamptz) (l : list A) :
  ts_ord a <= ts_ord b <= ts_ord c ->
  count (fun r => between (at_ r) a b) l + count (fun r => between (at_ r) b c) l
  = count (fun r => between (at_ r) a c) l
    + count (fun r => ts_ord (at_ r) =? ts_ord b) l.
Proof.
  intros Habc. induction l as [| x l IH]; [reflexivity |].
  rewrite !count_cons. unfold between, ts_leb in IH |- *.
  destruct (Z.leb_spec (ts_ord a) (ts_ord (at_ x)));
    destruct (Z.leb_spec (ts_ord (at_ x)) (ts_ord b));
    destruct (Z.leb_spec (ts_ord b) (ts_ord (at_ x)));
    destruct (Z.leb_spec (ts_ord (at_ x)) (ts_ord c));
    destruct (Z.eqb_spec (ts_ord (at_ x)) (ts_ord b));
    cbn [andb]; lia.
Qed.

(** X17.  The window of [get_telemetry_stats] is closed at both ends
    (BETWEEN).  A window whose end lies before its start counts nothing.
    Widening a window lowers none of the three window metrics.  And two
    windows that meet at a time [b] both count the rows created at [b]:
    their totals add up to the total of the joined window plus the number
    of those rows. *)
Theorem stats_windows
    (now a b c : timestamptz) (db : database) :
  (ts_ord b < ts_ord a ->
   stat "total_events" now a b db = 0
   /\ stat "total_workflows" now a b db = 0
   /\ stat "unique_users" now a b db = 0)
  /\ (forall a' b',
        ts_ord a' <= ts_ord a -> ts_ord b <= ts_ord b' ->
        stat "total_events" now a b db <= stat "total_events" now a' b' db
        /\ stat "total_workflows" now a b db
           <= stat "total_workflows" now a' b' db
        /\ stat "unique_users" now a b db <= stat "unique_users" now a' b' db)
  /\ (ts_ord a <= ts_ord b <= ts_ord c ->
      stat "total_events" now a b db + stat "total_events" now b c db
      = stat "total_events" now a c db
        + count (fun r => ts_ord (ev_created_at r) =? ts_ord b)
            (telemetry_events db)
      /\ stat "total_workflows" now a b db + stat "total_workflows" now b c db
         = stat "total_workflows" now a c db
           + count (fun r => ts_ord (wf_created_at r) =? ts_ord b)
               (telemetry_workflows db)).
Proof.
  assert (He : forall x y,
             stat "total_events" now x y db
             = count (fun r => between (ev_created_at r) x y)
                 (telemetry_events db)) by reflexivity.
  assert (Hw : forall x y,
             stat "total_workflows" now x y db
             = count (fun r => between (wf_created_at r) x y)
                 (telemetry_workflows db)) by reflexivity.
  assert (Hu : forall x y,
             stat "unique_users" now x y db
             = Z.of_nat (List.length (nodup string_dec
                 (map ev_user_id
                    (filter (fun r => between (ev_created_at r) x y)
                       (telemetry_events db))
                  ++ map wf_user_id
                       (filter (fun r => between (wf_created_at r) x y)
                          (telemetry_workflows db))))))
    by reflexivity.
  split; [| split].
  - intros Hrev. rewrite He, Hw, Hu.
    rewrite !count_none by (intros x; now apply between_reversed).
    rewrite !filter_none by (intros x; now apply between_reversed).
    repeat split.
  - intros a' b' Ha Hb. rewrite !He, !Hw, !Hu.
    split; [| split].
    + apply count_le. intros x. now apply between_wider.
    + apply count_le. intros x. now apply between_wider.
    + apply inj_le. apply nodup_length_incl.
      intros u Hin. apply users_between_In in Hin.
      apply users_between_In.
      destruct Hin as [(r & H1 & H2 & H3) | (r & H1 & H2 & H3)];
        [left | right]; exists r; repeat split; try assumption;
        now apply (between_wider _ a b).
  - intros Habc. rewrite !He, !Hw. split.
    + now apply count_between_split.
    + now apply count_between_split.
Qed.

Lemma stats_windows_witness :
  (stat "total_events" now_2025 now_2025 (midnight 2025 1 1) database_recent = 0
   /\ stat "total_workflows" now_2025 now_2025 (midnight 2025 1 1)
        database_recent = 0
   /\ stat "unique_users" now_2025 now_2025 (midnight 2025 1 1)
        database_recent = 0)
  /\ stat "total_events" now_2025 (midnight 2025 1 1) (midnight 2025 6 1)
       database_recent
     + stat "total_events" now_2025 (midnight 2025 6 1) now_2025
         database_recent
     = stat "total_events" now_2025 (midnight 2025 1 1) now_2025
         database_recent
       + count (fun r => ts_ord (ev_created_at r)
                         =? ts_ord (midnight 2025 6 1))
           (telemetry_events database_recent).
Proof.
  split.
  - apply (proj1 (stats_windows now_2025 now_2025 (midnight 2025 1 1)
                    now_2025 database_recent)).
    vm_compute. reflexivity.
  - apply (proj2 (proj2 (stats_windows now_2025 (midnight 2025 1 1)
                           (midnight 2025 6 1) now_2025 database_recent))).
    vm_compute. split; discriminate.
Defined.

(** ** The view of daily activity *)

Lemma insert_desc_perm (d : date) (l : list date) :
  Permutation (insert_desc d l) (d :: l).
Proof.
  induction l as [| x l IH]; simpl; [reflexivity |].
  destruct (date_leb x d); [reflexivity |].
  apply perm_trans with (x :: d :: l); [now apply perm_skip | apply perm_swap].
Qed.

Lemma order_by_date_desc_perm (l : list date) :
  Permutation (order_by_date_desc l) l.
Proof.
  induction l as [| x l IH]; simpl; [constructor |].
  apply perm_trans with (x :: order_by_date_desc l);
    [apply insert_desc_perm | now apply perm_skip].
Qed.

Lemma insert_desc_sorted (d : date) (l : list date) :
  StronglySorted (fun x y => date_ord y <= date_ord x) l ->
  StronglySorted (fun x y => date_ord y <= date_ord x) (insert_desc d l).
Proof.
  induction l as [| x l IH]; intros H; simpl.
  - constructor; constructor.
  - inversion H as [| ? ? Hl Hx]; subst.
    unfold date_leb. destruct (Z.leb_spec (date_ord x) (date_ord d)) as [E | E].
    + constructor; [exact H |]. constructor; [exact E |].
      eapply Forall_impl; [| exact Hx]. cbn beta. intros y Hy. lia.
    + constructor; [now apply IH |].
      apply Forall_forall. intros y Hy.
      apply (Permutation_in _ (insert_desc_perm d l)) in Hy.
      destruct Hy as [<- | Hy]; [lia |].
      rewrite Forall_forall in Hx. now apply Hx.
Qed.

Lemma order_by_date_desc_sorted (l : list date) :
  StronglySorted (fun x y => date_ord y <= date_ord x) (order_by_date_desc l).
Proof.
  induction l as [| x l IH]; simpl; [constructor |].
  now apply insert_desc_sorted.
Qed.

Lemma telemetry_daily_activity_dates now db :
  map da_date (telemetry_daily_activity now db)
  = order_by_date_desc
      (nodup date_eq_dec
         (map (fun a => DATE (act_created_at a)) (recent_activity now db))).
Proof.
  unfold telemetry_daily_activity. rewrite map_map. cbn [da_date].
  apply map_id.
Qed.

Lemma view_date_In now db (d : date) :
  In d (order_by_date_desc
          (nodup date_eq_dec
             (map (fun a => DATE (act_created_at a)) (recent_activity now db))))
  <-> exists a, In a (recent_activity now db) /\ DATE (act_created_at a) = d.
Proof.
  split.
  - intros H. apply (Permutation_in _ (order_by_date_desc_perm _)) in H.
    apply nodup_In, in_map_iff in H. destruct H as (a & Ha & Hin). eauto.
  - intros (a & Hin & Ha).
    apply (Permutation_in _ (Permutation_sym (order_by_date_desc_perm _))).
    apply nodup_In, in_map_iff. eauto.
Qed.

Lemma combined_tags db (a : activity) :
  In a (combined db) ->
  act_table_name a = "events" \/ act_table_name a = "workflows".
Proof.
  unfold combined. rewrite in_app_iff, !in_map_iff.
  intros [(r & <- & _) | (r & <- & _)]; auto.
Qed.

Lemma count_tags (l : list activity) :
  (forall a, In a l ->
     act_table_name a = "events" \/ act_table_name a = "workflows") ->
  count (fun a => (act_table_name a =? "events")%string) l
  + count (fun a => (act_table_name a =? "workflows")%string) l
  = Z.of_nat (List.length l).
Proof.
  induction l as [| x l IH]; intros H; [reflexivity |].
  rewrite !count_cons. cbn [List.length]. rewrite Nat2Z.inj_succ.
  rewrite <- IH by (intros a Ha; apply H; now right).
  destruct (H x (or_introl eq_refl)) as [E | E]; rewrite E.
  - change ("events" =? "events")%string with true.
    change ("events" =? "workflows")%string with false. lia.
  - change ("workflows" =? "events")%string with false.
    change ("workflows" =? "workflows")%string with true. lia.
Qed.

(** X18.  The rows of the view [telemetry_daily_activity]: one row for each
    day on which a row of either table was created in the last 90 days and
    for no other day, the days in descending order.  Each row counts at
    least one active user and at most as many users as it counts events
    and workflows together. *)
Theorem telemetry_daily_activity_rows (now : timestamptz) (db : database) :
  NoDup (map da_date (telemetry_daily_activity now db))
  /\ StronglySorted (fun x y => date_ord y <= date_ord x)
       (map da_date (telemetry_daily_activity now db))
  /\ (forall d,
        In d (map da_date (telemetry_daily_activity now db))
        <-> exists a, In a (combined db)
                      /\ ts_leb (minus_days now 90) (act_created_at a) = true
                      /\ DATE (act_created_at a) = d)
  /\ Forall (fun r => 0 <= da_events r /\ 0 <= da_workflows r
                      /\ 1 <= da_active_users r <= da_events r + da_workflows r)
       (telemetry_daily_activity now db).
Proof.
  split; [| split; [| split]].
  - rewrite telemetry_daily_activity_dates.
    apply (Permutation_NoDup (Permutation_sym (order_by_date_desc_perm _))).
    apply NoDup_nodup.
  - rewrite telemetry_daily_activity_dates. apply order_by_date_desc_sorted.
  - intros d. rewrite telemetry_daily_activity_dates, view_date_In.
    unfold recent_activity.
    split; intros (a & Ha & Hd); exists a.
    + apply filter_In in Ha. tauto.
    + split; [apply filter_In |]; tauto.
  - apply Forall_forall. intros r Hr.
    unfold telemetry_daily_activity in Hr. apply in_map_iff in Hr.
    destruct Hr as (d & <- & Hd). cbn [da_events da_workflows da_active_users].
    apply view_date_In in Hd. destruct Hd as (a & Hin & Ha).
    set (group := activity_on d (recent_activity now db)).
    assert (Hgroup : In a group).
    { apply filter_In. split; [exact Hin | now apply date_eqb_eq]. }
    assert (Htags : count (fun a => (act_table_name a =? "events")%string) group
                    + count (fun a => (act_table_name a =? "workflows")%string)
                        group
                    = Z.of_nat (List.length group)).
    { apply count_tags. intros x Hx. apply combined_tags with (db := db).
      apply filter_In in Hx. destruct Hx as (Hx & _).
      apply filter_In in Hx. tauto. }
    split; [apply count_nonneg |]. split; [apply count_nonneg |].
    rewrite Htags.
    pose proof (nodup_length_le (map act_user_id group)) as Hle.
    rewrite length_map in Hle.
    split; [| lia].
    destruct (nodup string_dec (map act_user_id group)) as [| u us] eqn:E.
    + apply nodup_nil_inv, map_nil_inv in E. rewrite E in Hgroup.
      contradiction.
    + cbn [List.length]. lia.
Qed.

(** One key among distinct keys: exactly one of them matches. *)
Lemma total_one_key (keys : list date) (k0 : date) (v : Z) :
  NoDup keys -> In k0 keys ->
  fold_right (fun k acc => (if date_eqb k0 k then v else 0) + acc) 0 keys = v.
Proof.
  induction 1 as [| k keys Hk Hnodup IH]; intros Hin; [contradiction |].
  cbn [fold_right]. destruct Hin as [-> | Hin].
  - replace (date_eqb k0 k0) with true by (symmetry; now apply date_eqb_eq).
    enough (H : fold_right
                  (fun k acc => (if date_eqb k0 k then v else 0) + acc) 0 keys
                = 0) by lia.
    clear IH Hnodup. induction keys as [| k keys IH]; [reflexivity |].
    cbn [fold_right].
    destruct (date_eqb k0 k) eqn:E.
    + apply date_eqb_eq in E. subst k. exfalso. apply Hk. now left.
    + rewrite IH; [lia |]. intros H. apply Hk. now right.
  - destruct (date_eqb k0 k) eqn:E.
    + apply date_eqb_eq in E. subst k. contradiction.
    + rewrite IH by exact Hin. lia.
Qed.

Lemma total_shift (keys : list date) (f g : date -> Z) :
  fold_right (fun k acc => (f k + g k) + acc) 0 keys
  = fold_right (fun k acc => f k + acc) 0 keys
    + fold_right (fun k acc => g k + acc) 0 keys.
Proof.
  induction keys as [| k keys IH]; cbn [fold_right]; lia.
Qed.

(** Counting group by group is counting the whole, when every row has its
    group. *)
Lemma total_by_date (q : activity -> bool) (keys : list date) (l : list activity) :
  NoDup keys ->
  (forall a, In a l -> In (DATE (act_created_at a)) keys) ->
  fold_right (fun k acc => count q (activity_on k l) + acc) 0 keys
  = count q l.
Proof.
  intros Hnodup. induction l as [| x l IH]; intros Hkeys.
  - unfold activity_on, count. cbn.
    induction keys as [| k keys IHk]; [reflexivity |].
    cbn [fold_right]. inversion Hnodup; subst. rewrite IHk; auto.
    intros a [].
  - rewrite count_cons, <- IH by (intros a Ha; apply Hkeys; now right).
    rewrite <- (total_one_key keys (DATE (act_created_at x))
                  (if q x then 1 else 0) Hnodup (Hkeys x (or_introl eq_refl)))
      at 1.
    rewrite <- total_shift.
    clear IH Hkeys Hnodup.
    induction keys as [| k keys IHk]; [reflexivity |].
    cbn [fold_right]. rewrite IHk. f_equal.
    unfold activity_on. cbn [filter].
    destruct (date_eqb (DATE (act_created_at x)) k); [| reflexivity].
    now rewrite count_cons.
Qed.

Lemma count_ext {A : Type} (f g : A -> bool) (l : list A) :
  (forall x, f x = g x) -> count f l = count g l.
Proof.
  intros H. unfold count. now rewrite (filter_ext f g H).
Qed.

Lemma count_filter_map {A B : Type} (f : A -> B) (p q : B -> bool) (l : list A) :
  count q (filter p (map f l)) = count (fun r => p (f r) && q (f r)) l.
Proof.
  induction l as [| x l IH]; [reflexivity |].
  cbn [map filter]. rewrite count_cons.
  destruct (p (f x)); cbn [andb]; [now rewrite count_cons, IH | now rewrite IH].
Qed.

Lemma count_recent_tag now db (q : activity -> bool) :
  count q (recent_activity now db)
  = count (fun r => ts_leb (minus_days now 90) (ev_created_at r)
                    && q (mkactivity (ev_created_at r) (ev_user_id r) "events"))
      (telemetry_events db)
    + count (fun r => ts_leb (minus_days now 90) (wf_created_at r)
                      && q (mkactivity (wf_created_at r) (wf_user_id r)
                              "workflows"))
        (telemetry_workflows db).
Proof.
  unfold recent_activity, combined.
  rewrite filter_app, count_app, !count_filter_map. reflexivity.
Qed.

(** X19.  The view loses no row and counts none twice: its column [events],
    summed over the days, is the number of events created in the last 90
    days, and its column [workflows] the number of workflows. *)
Theorem telemetry_daily_activity_totals (now : timestamptz) (db : database) :
  total da_events (telemetry_daily_activity now db)
  = count (fun r => ts_leb (minus_days now 90) (ev_created_at r))
      (telemetry_events db)
  /\ total da_workflows (telemetry_daily_activity now db)
     = count (fun r => ts_leb (minus_days now 90) (wf_created_at r))
         (telemetry_workflows db).
Proof.
  set (dates := order_by_date_desc
                  (nodup date_eq_dec
                     (map (fun a => DATE (act_created_at a))
                        (recent_activity now db)))).
  assert (Hnodup : NoDup dates).
  { apply (Permutation_NoDup (Permutation_sym (order_by_date_desc_perm _))).
    apply NoDup_nodup. }
  assert (Hkeys : forall a, In a (recent_activity now db) ->
                            In (DATE (act_created_at a)) dates).
  { intros a Ha. apply view_date_In. eauto. }
  assert (Hcol : forall (column : daily_activity -> Z) (q : activity -> bool),
             (forall d, column
                          (mkdaily d
                             (count (fun a => (act_table_name a =? "events")%string)
                                (activity_on d (recent_activity now db)))
                             (count (fun a => (act_table_name a =? "workflows")%string)
                                (activity_on d (recent_activity now db)))
                             (Z.of_nat
                                (List.length
                                   (nodup string_dec
                                      (map act_user_id
                                         (activity_on d
                                            (recent_activity now db)))))))
                        = count q (activity_on d (recent_activity now db))) ->
             total column (telemetry_daily_activity now db)
             = count q (recent_activity now db)).
  { intros column q Hq.
    rewrite <- (total_by_date q dates (recent_activity now db) Hnodup Hkeys).
    unfold total, telemetry_daily_activity. fold dates.
    clear Hnodup Hkeys.
    induction dates as [| d ds IH]; [reflexivity |].
    cbn [map fold_right]. now rewrite Hq, IH. }
  split.
  - rewrite (Hcol da_events
               (fun a => (act_table_name a =? "events")%string))
      by reflexivity.
    rewrite count_recent_tag. cbn [act_table_name].
    change ("events" =? "events")%string with true.
    change ("workflows" =? "events")%string with false.
    rewrite (count_none (fun r => _ && false))
      by (intros x; apply andb_false_r).
    rewrite Z.add_0_r. apply count_ext. intros x. apply andb_true_r.
  - rewrite (Hcol da_workflows
               (fun a => (act_table_name a =? "workflows")%string))
      by reflexivity.
    rewrite count_recent_tag. cbn [act_table_name].
    change ("events" =? "workflows")%string with false.
    change ("workflows" =? "workflows")%string with true.
    rewrite (count_none (fun r => _ && false))
      by (intros x; apply andb_false_r).
    rewrite Z.add_0_l. apply count_ext. intros x. apply andb_true_r.
Qed.

(** ** The constraints of the tables as invariants *)

Lemma ForallOrdPairs_cons_iff {A : Type} (Q : A -> A -> Prop) (x : A) (l : list A) :
  ForallOrdPairs Q (x :: l) <-> Forall (Q x) l /\ ForallOrdPairs Q l.
Proof.
  split.
  - intros H. inversion H; subst. auto.
  - intros [H1 H2]. now constructor.
Qed.

Lemma ForallOrdPairs_app_iff {A : Type} (Q : A -> A -> Prop) (l1 l2 : list A) :
  ForallOrdPairs Q (l1 ++ l2)
  <-> ForallOrdPairs Q l1 /\ ForallOrdPairs Q l2
      /\ (forall a b, In a l1 -> In b l2 -> Q a b).
Proof.
  induction l1 as [| x l1 IH]; simpl.
  - split; [intros H | intros (_ & H & _); exact H].
    split; [constructor |]. split; [exact H |]. intros a b [].
  - rewrite !ForallOrdPairs_cons_iff, IH, Forall_app, !Forall_forall.
    split.
    + intros ((Hx1 & Hx2) & H1 & H2 & H12).
      repeat split; try assumption.
      intros a b [<- | Ha] Hb; auto.
    + intros ((Hx1 & H1) & H2 & H12).
      repeat split; try assumption; auto.
Qed.

Lemma ForallOrdPairs_filter {A : Type} (Q : A -> A -> Prop) (f : A -> bool)
    (l : list A) :
  ForallOrdPairs Q l -> ForallOrdPairs Q (filter f l).
Proof.
  induction 1 as [| x l Hx Hl IH]; simpl; [constructor |].
  destruct (f x); [| exact IH].
  constructor; [| exact IH].
  apply Forall_forall. intros y Hy. apply filter_In in Hy.
  rewrite Forall_forall in Hx. apply Hx. tauto.
Qed.

Lemma Forall_filter {A : Type} (Q : A -> Prop) (f : A -> bool) (l : list A) :
  Forall Q l -> Forall Q (filter f l).
Proof.
  rewrite !Forall_forall. intros H x Hx. apply filter_In in Hx. apply H. tauto.
Qed.

Section ConstraintProperties.

Variable P : string -> string -> command -> bool.
Variable b2i : bool -> option Z.
Context {R : Type}.
Variable T : store R.

Let rel : relation R := store_relation T.

(** What the two telemetry tables have in common: a value fitted to the
    column types fits them as it is, and a unique constraint does not
    depend on the order of the two rows. *)
Hypothesis coerce_fits :
  forall r r1, coerce_row rel r = Ok r1 -> coerce_row rel r1 = Ok r1.
Hypothesis unique_sym :
  forall uc a b, In uc (unique_constraints rel) -> snd uc a b = snd uc b a.

Lemma violated_unique_None r rows :
  violated_unique T r rows = None ->
  forall uc x, In uc (unique_constraints rel) -> In x rows -> snd uc r x = false.
Proof.
  unfold violated_unique. intros H uc x Huc Hx.
  destruct (find _ (unique_constraints (store_relation T))) as [c |] eqn:E;
    [discriminate H |].
  pose proof (find_none _ _ E uc Huc) as Hnone. cbn beta in Hnone.
  apply not_true_is_false. intros Hcoll.
  assert (Hex : existsb (snd uc r) rows = true)
    by (apply existsb_exists; eauto).
  now rewrite Hex in Hnone.
Qed.

Lemma insert_row_consistent s arbiter r rows ins rows' :
  insert_row T s arbiter r rows = Ok (ins, rows') ->
  table_consistent rel rows -> table_consistent rel rows'.
Proof.
  unfold insert_row. intros H (Hall & Hpairs). inv_ok.
  match goal with
  | Hr : (if ?c then _ else _) = _ |- _ => destruct c
  end.
  - inv_ok. split; assumption.
  - destruct (violated_unique T _ rows) as [c |] eqn:Hu; [discriminate H |].
    inv_ok. split.
    + apply Forall_app. split; [exact Hall |].
      constructor; [| constructor]. split.
      * eapply coerce_fits; eassumption.
      * match goal with
        | Hc : check_row _ _ = Ok ?u |- _ => now destruct u
        end.
    + apply ForallOrdPairs_app_iff. split; [exact Hpairs |].
      split; [constructor; constructor |].
      intros x y Hx [<- | []] uc Huc.
      rewrite unique_sym by exact Huc.
      eapply violated_unique_None; eassumption.
Qed.

Lemma insert_rows_consistent s arbiter new :
  forall rows ins rows',
    insert_rows T s arbiter new rows = Ok (ins, rows') ->
    table_consistent rel rows -> table_consistent rel rows'.
Proof.
  induction new as [| r rest IH]; intros rows ins rows' H Hc; simpl in H.
  - now inv_ok.
  - inv_ok.
    match goal with
    | H1 : insert_row _ _ _ _ _ = Ok _, H2 : insert_rows _ _ _ _ _ = Ok _ |- _ =>
        apply (IH _ _ _ H2); apply (insert_row_consistent _ _ _ _ _ _ H1 Hc)
    end.
Qed.

Lemma update_rows_consistent s set w todo :
  forall done upd rows',
    update_rows T s set w done todo = Ok (upd, rows') ->
    table_consistent rel (done ++ todo) -> table_consistent rel rows'.
Proof.
  induction todo as [| r rest IH]; intros done upd rows' H Hc; simpl in H.
  - inv_ok. now rewrite app_nil_r in Hc.
  - destruct (rls_reading T s UPDATE && w r).
    + inv_ok.
      destruct (violated_unique T _ (done ++ rest)) as [c |] eqn:Hu;
        [discriminate H |].
      inv_ok.
      match goal with
      | Hrec : update_rows _ _ _ _ _ _ = Ok _ |- _ =>
          apply (IH _ _ _ Hrec)
      end.
      rewrite <- app_assoc. cbn [app].
      destruct Hc as (Hall & Hpairs).
      apply Forall_app in Hall. destruct Hall as (Hdone & Htodo).
      inversion Htodo as [| ? ? _ Hrest]; subst.
      apply ForallOrdPairs_app_iff in Hpairs.
      destruct Hpairs as (Hp1 & Hp2 & Hp12).
      apply ForallOrdPairs_cons_iff in Hp2. destruct Hp2 as (_ & Hp2).
      pose proof (violated_unique_None _ _ Hu) as Hnew.
      split.
      * apply Forall_app. split; [exact Hdone |].
        constructor; [| exact Hrest]. split.
        -- eapply coerce_fits; eassumption.
        -- match goal with
           | Hc : check_row _ _ = Ok ?u |- _ => now destruct u
           end.
      * apply ForallOrdPairs_app_iff. split; [exact Hp1 |]. split.
        -- apply ForallOrdPairs_cons_iff. split; [| exact Hp2].
           apply Forall_forall. intros y Hy uc Huc.
           apply Hnew; [exact Huc |]. apply in_or_app. now right.
        -- intros x y Hx [<- | Hy] uc Huc.
           ++ rewrite unique_sym by exact Huc.
              apply Hnew; [exact Huc |]. apply in_or_app. now left.
           ++ apply Hp12; [exact Hx | now right | exact Huc].
    + apply (IH _ _ _ H). now rewrite <- app_assoc.
Qed.

Hypothesis rows_put :
  forall rows log db,
    store_rows T (with_audit_log log (store_put T rows db)) = rows.

(** Every successful statement leaves the table consistent. *)
Lemma execute_consistent s now m db n db' :
  execute P b2i T s now m db = Ok (n, db') ->
  table_consistent rel (store_rows T db) ->
  table_consistent rel (store_rows T db')
  /\ exists rows' log', db' = with_audit_log log' (store_put T rows' db).
Proof.
  intros H Hc.
  destruct m as [arb new | set w | w]; simpl in H;
    unfold sql_insert, sql_update, sql_delete in H; inv_ok;
    rewrite rows_put; (split; [| eauto]).
  - match goal with
    | Hi : insert_rows _ _ _ _ _ = Ok _ |- _ =>
        apply (insert_rows_consistent _ _ _ _ _ _ Hi Hc)
    end.
  - match goal with
    | Hu : update_rows _ _ _ _ _ _ = Ok _ |- _ =>
        apply (update_rows_consistent _ _ _ _ _ _ _ Hu Hc)
    end.
  - destruct Hc as (Hall & Hpairs). split.
    + now apply Forall_filter.
    + now apply ForallOrdPairs_filter.
Qed.

End ConstraintProperties.

Lemma substring_length_le (n : nat) (s : string) :
  (String.length (substring 0 n s) <= n)%nat.
Proof.
  revert s. induction n as [| n IH]; intros [| c s]; simpl; try lia.
  specialize (IH s). lia.
Qed.

Lemma varchar_assign_bound (n : nat) (s s' : string) :
  varchar_assign n s = Ok s' -> (String.length s' <= n)%nat.
Proof.
  unfold varchar_assign.
  destruct (Nat.leb_spec (String.length s) n) as [Hle | _].
  - intros H. injection H as <-. exact Hle.
  - destruct (all_spaces _); [| discriminate].
    intros H. injection H as <-. apply substring_length_le.
Qed.

Lemma varchar_assign_idem (n : nat) (s s' : string) :
  varchar_assign n s = Ok s' -> varchar_assign n s' = Ok s'.
Proof.
  intros H. apply varchar_assign_fits. now apply varchar_assign_bound in H.
Qed.

Lemma events_coerce_fits r r1 :
  coerce_row events_relation r = Ok r1 -> coerce_row events_relation r1 = Ok r1.
Proof.
  simpl. intros H. inv_ok. simpl.
  repeat match goal with
  | Hv : varchar_assign _ _ = Ok _ |- _ =>
      apply varchar_assign_idem in Hv; rewrite Hv; clear Hv
  end.
  reflexivity.
Qed.

Lemma workflows_coerce_fits r r1 :
  coerce_row workflows_relation r = Ok r1 ->
  coerce_row workflows_relation r1 = Ok r1.
Proof.
  simpl. intros H. inv_ok. simpl.
  repeat match goal with
  | Hv : varchar_assign _ _ = Ok _ |- _ =>
      apply varchar_assign_idem in Hv; rewrite Hv; clear Hv
  end.
  reflexivity.
Qed.

Lemma events_unique_sym uc a b :
  In uc (unique_constraints events_relation) -> snd uc a b = snd uc b a.
Proof.
  intros [<- | []]. apply N.eqb_sym.
Qed.

Lemma workflows_unique_sym uc a b :
  In uc (unique_constraints workflows_relation) -> snd uc a b = snd uc b a.
Proof.
  intros [<- | [<- | []]]; cbn [snd].
  - apply N.eqb_sym.
  - now rewrite (String.eqb_sym (wf_workflow_hash a)),
      (String.eqb_sym (wf_user_id a)).
Qed.

Lemma events_rows_put rows log db :
  store_rows events_store (with_audit_log log (store_put events_store rows db))
  = rows.
Proof. reflexivity. Qed.

Lemma workflows_rows_put rows log db :
  store_rows workflows_store
    (with_audit_log log (store_put workflows_store rows db))
  = rows.
Proof. reflexivity. Qed.

(** The two readings of the constraints agree. *)
Lemma event_satisfies_iff r :
  satisfies events_relation r <-> event_valid r.
Proof.
  unfold satisfies, event_valid. rewrite check_row_events_Ok.
  split.
  - intros (Hc & Hu & He & Hp). simpl in Hc. inv_ok.
    destruct r as [id uid ev props at_]. simpl in *.
    match goal with E : mkevent _ _ _ _ _ = _ |- _ => injection E as -> -> end.
    match goal with
    | Hv : varchar_assign 64 uid = Ok uid |- _ =>
        apply varchar_assign_bound in Hv
    end.
    unfold length in *. repeat split; (assumption || lia).
  - intros (Hu & He & Hp). split; [| repeat split; (assumption || lia)].
    destruct r as [id uid ev props at_]. simpl in *.
    rewrite (varchar_assign_fits 64 uid) by (unfold length in Hu; lia).
    now rewrite (varchar_assign_fits 100 ev) by (unfold length in He; lia).
Qed.

Lemma workflow_satisfies_iff r :
  satisfies workflows_relation r <-> workflow_valid r.
Proof.
  unfold satisfies, workflow_valid. rewrite check_row_workflows_Ok.
  split.
  - intros (Hc & Hu & Hh & Hn & Hcx & Hs). simpl in Hc. inv_ok.
    destruct r as [id uid hash n types ht hw c sw at_]. simpl in *.
    match goal with
    | E : mkworkflow _ _ _ _ _ _ _ _ _ _ = _ |- _ => injection E as -> -> ->
    end.
    match goal with
    | Hv : varchar_assign 64 uid = Ok uid |- _ =>
        apply varchar_assign_bound in Hv
    end.
    unfold length in *. repeat split; (assumption || lia).
  - intros (Hu & Hh & Hn & Hcx & Hs).
    split; [| repeat split; (assumption || lia)].
    destruct r as [id uid hash n types ht hw c sw at_]. simpl in *.
    rewrite (varchar_assign_fits 64 uid) by (unfold length in Hu; lia).
    rewrite (varchar_assign_fits 64 hash) by (unfold length in Hh; lia).
    now rewrite (varchar_assign_fits 20 c) by (now apply complexity_enum_fits).
Qed.

Lemma Forall_iff {A : Type} (Q1 Q2 : A -> Prop) (l : list A) :
  (forall x, Q1 x <-> Q2 x) -> Forall Q1 l <-> Forall Q2 l.
Proof.
  intros H. rewrite !Forall_forall. split; intros Hl x Hx; apply H; auto.
Qed.

Lemma ForallOrdPairs_iff {A : Type} (Q1 Q2 : A -> A -> Prop) (l : list A) :
  (forall a b, Q1 a b <-> Q2 a b) ->
  ForallOrdPairs Q1 l <-> ForallOrdPairs Q2 l.
Proof.
  intros H. induction l as [| x l IH].
  - split; constructor.
  - rewrite !ForallOrdPairs_cons_iff, IH.
    now rewrite (Forall_iff (Q1 x) (Q2 x)) by (intros y; apply H).
Qed.

Lemma ForallOrdPairs_and {A : Type} (Q1 Q2 : A -> A -> Prop) (l : list A) :
  ForallOrdPairs (fun a b => Q1 a b /\ Q2 a b) l
  <-> ForallOrdPairs Q1 l /\ ForallOrdPairs Q2 l.
Proof.
  induction l as [| x l IH].
  - split; [split; constructor | constructor].
  - rewrite !ForallOrdPairs_cons_iff, IH, !Forall_forall.
    split.
    + intros (Hx & H1 & H2). repeat split; try assumption;
        intros y Hy; now apply Hx.
    + intros ((Hx1 & H1) & Hx2 & H2). repeat split; auto.
Qed.

Lemma ForallOrdPairs_NoDup {A K : Type} (k : A -> K) (l : list A) :
  ForallOrdPairs (fun a b => k a <> k b) l <-> NoDup (map k l).
Proof.
  induction l as [| x l IH]; simpl.
  - split; constructor.
  - rewrite ForallOrdPairs_cons_iff, NoDup_cons_iff, IH, Forall_forall,
      in_map_iff.
    split; intros [H1 H2]; (split; [| exact H2]).
    + intros (y & Hy & Hin). now apply (H1 y Hin).
    + intros y Hin Hy. apply H1. eauto.
Qed.

Lemma events_consistent_iff rows :
  table_consistent events_relation rows
  <-> Forall event_valid rows /\ NoDup (map ev_id rows).
Proof.
  unfold table_consistent.
  rewrite (Forall_iff _ _ rows event_satisfies_iff).
  rewrite <- (ForallOrdPairs_NoDup ev_id).
  rewrite (ForallOrdPairs_iff _ (fun a b => ev_id a <> ev_id b)); [tauto |].
  intros a b. split.
  - intros H. apply N.eqb_neq. apply (H _ (or_introl eq_refl)).
  - intros H uc [<- | []]. now apply N.eqb_neq.
Qed.

Lemma workflows_consistent_iff rows :
  table_consistent workflows_relation rows
  <-> Forall workflow_valid rows /\ NoDup (map wf_id rows)
      /\ NoDup (map (fun r => (wf_workflow_hash r, wf_user_id r)) rows).
Proof.
  unfold table_consistent.
  rewrite (Forall_iff _ _ rows workflow_satisfies_iff).
  rewrite <- (ForallOrdPairs_NoDup wf_id).
  rewrite <- (ForallOrdPairs_NoDup
                (fun r => (wf_workflow_hash r, wf_user_id r))).
  rewrite <- ForallOrdPairs_and.
  rewrite (ForallOrdPairs_iff _
             (fun a b => wf_id a <> wf_id b
                         /\ (wf_workflow_hash a, wf_user_id a)
                            <> (wf_workflow_hash b, wf_user_id b)));
    [tauto |].
  intros a b. split.
  - intros H. split.
    + apply N.eqb_neq. apply (H _ (or_introl eq_refl)).
    + pose proof (H _ (or_intror (or_introl eq_refl))) as Hp. cbn [snd] in Hp.
      intros E. injection E as E1 E2.
      now rewrite E1, E2, !String.eqb_refl in Hp.
  - intros [H1 H2] uc [<- | [<- | []]]; cbn [snd].
    + now apply N.eqb_neq.
    + apply not_true_is_false. intros E.
      apply andb_true_iff in E. destruct E as [E1 E2].
      apply String.eqb_eq in E1, E2. apply H2. now rewrite E1, E2.
Qed.

Lemma database_consistent_iff db :
  database_consistent db
  <-> table_consistent events_relation (telemetry_events db)
      /\ table_consistent workflows_relation (telemetry_workflows db).
Proof.
  unfold database_consistent.
  rewrite events_consistent_iff, workflows_consistent_iff. tauto.
Qed.

(** A successful statement on one telemetry table keeps the database
    consistent. *)
Lemma execute_events_consistent P b2i s now m db n db' :
  execute P b2i events_store s now m db = Ok (n, db') ->
  database_consistent db -> database_consistent db'.
Proof.
  intros H Hc. apply database_consistent_iff in Hc. destruct Hc as [He Hw].
  apply database_consistent_iff.
  destruct (execute_consistent P b2i events_store events_coerce_fits
              events_unique_sym events_rows_put _ _ _ _ _ _ H He)
    as (He' & rows' & log' & ->).
  split; [exact He' | exact Hw].
Qed.

Lemma execute_workflows_consistent P b2i s now m db n db' :
  execute P b2i workflows_store s now m db = Ok (n, db') ->
  database_consistent db -> database_consistent db'.
Proof.
  intros H Hc. apply database_consistent_iff in Hc. destruct Hc as [He Hw].
  apply database_consistent_iff.
  destruct (execute_consistent P b2i workflows_store workflows_coerce_fits
              workflows_unique_sym workflows_rows_put _ _ _ _ _ _ H Hw)
    as (Hw' & rows' & log' & ->).
  split; [exact He | exact Hw'].
Qed.

Lemma sql_insert_execute P b2i {R : Type} (T : store R) s now arbiter new db
    ins db' :
  sql_insert P b2i T s now arbiter new db = Ok (ins, db') ->
  execute P b2i T s now (Insert arbiter new) db
  = Ok (Z.of_nat (List.length ins), db').
Proof. intros H. simpl. now rewrite H. Qed.

(** X20.  The declarations of the two telemetry tables hold in every state
    the script's statements can reach.  From a database in which every
    event and every workflow has the lengths and values its columns and
    CHECK constraints ask for, no two rows of a table share an id and no
    two workflows share the pair (workflow_hash, user_id), every statement
    that succeeds leads to such a database again: an INSERT, UPDATE or
    DELETE of any session on either table, a call of either insert
    function, a run of the cleanup, the making of a partition. *)
Theorem constraints_hold_in_every_state
    (P : string -> string -> command -> bool) (b2i : bool -> option Z)
    (s : session) (now : timestamptz) (db : database) :
  database_consistent db ->
  (forall m n db',
     execute P b2i events_store s now m db = Ok (n, db') ->
     database_consistent db')
  /\ (forall m n db',
     execute P b2i workflows_store s now m db = Ok (n, db') ->
     database_consistent db')
  /\ (forall new_id uid ev props r db',
     insert_telemetry_event P b2i s now new_id uid ev props db = Ok (r, db') ->
     database_consistent db')
  /\ (forall new_id uid hash n types ht hw c sw r db',
     insert_telemetry_workflow P b2i s now new_id uid hash n types ht hw c sw db
     = Ok (r, db') ->
     database_consistent db')
  /\ (forall total db',
     cleanup_old_telemetry_data P b2i s now db = Ok (total, db') ->
     database_consistent db')
  /\ (forall table_name d db',
     create_telemetry_partition table_name d db = Ok db' ->
     database_consistent db').
Proof.
  intros Hc.
  split; [| split; [| split; [| split; [| split]]]].
  - intros m n db' H. exact (execute_events_consistent _ _ _ _ _ _ _ _ H Hc).
  - intros m n db' H. exact (execute_workflows_consistent _ _ _ _ _ _ _ _ H Hc).
  - intros new_id uid ev props r db' H.
    unfold insert_telemetry_event in H. inv_ok.
    match goal with
    | Hi : sql_insert _ _ _ _ _ _ _ _ = Ok _ |- _ =>
        apply sql_insert_execute in Hi;
        exact (execute_events_consistent _ _ _ _ _ _ _ _ Hi Hc)
    end.
  - intros new_id uid hash n types ht hw c sw r db' H.
    unfold insert_telemetry_workflow in H. inv_ok.
    match goal with
    | Hi : sql_insert _ _ _ _ _ _ _ _ = Ok _ |- _ =>
        apply sql_insert_execute in Hi;
        exact (execute_workflows_consistent _ _ _ _ _ _ _ _ Hi Hc)
    end.
  - intros total db' H. unfold cleanup_old_telemetry_data in H. inv_ok.
    match goal with
    | H1 : sql_delete _ _ events_store _ _ ?w1 _ = Ok (_, ?d1),
      H2 : sql_delete _ _ workflows_store _ _ ?w2 ?d1 = Ok (_, ?d2) |- _ =>
        pose proof (execute_events_consistent P b2i s now (Delete w1)
                      _ _ _ H1 Hc) as Hc1;
        pose proof (execute_workflows_consistent P b2i s now (Delete w2)
                      _ _ _ H2 Hc1) as Hc2
    end.
    exact Hc2.
  - intros table_name d db' H.
    apply create_telemetry_partition_Ok in H.
    destruct H as [-> | H]; [exact Hc |].
    apply create_partition_Ok in H.
    destruct H as [-> | (_ & _ & _ & ->)]; exact Hc.
Qed.

Lemma constraints_hold_in_every_state_witness :
  database_consistent database_recent
  /\ insert_telemetry_event all_privileges pg_boolean_to_integer anon now_2025
       7%N user_a "tool_usage" (JObject [("tool", JString "slack")])
       database_recent
     = Ok (Some 7%N,
           with_events [event_2025; anon_event] database_recent)
  /\ database_consistent (with_events [event_2025; anon_event] database_recent).
Proof.
  assert (Hc : database_consistent database_recent).
  { unfold database_consistent, event_valid, workflow_valid, length. simpl.
    repeat split;
      repeat constructor; simpl; try lia; try tauto; intuition discriminate. }
  split; [exact Hc |]. split; [reflexivity |].
  apply (proj1 (proj2 (proj2 (constraints_hold_in_every_state all_privileges
                                pg_boolean_to_integer anon now_2025
                                database_recent Hc)))
           7%N user_a "tool_usage" (JObject [("tool", JString "slack")])
           (Some 7%N)).
  reflexivity.
Defined.

(** ** The insert functions, further *)

(** X21.  [insert_telemetry_event] raises the exception of the first check
    that fails, in the order of the function's body: the user id shorter
    than 16 characters, then the event name empty or longer than 100
    characters, then properties that are not a JSON object. *)
Theorem insert_telemetry_event_rejects
    (P : string -> string -> command -> bool) (b2i : bool -> option Z)
    (s : session) (now : timestamptz) (new_id : uuid)
    (uid ev : string) (props : jsonb) (db : database) :
  let call := insert_telemetry_event P b2i s now new_id uid ev props db in
  (length uid < 16 ->
   call = Err (raise_exception "user_id must be at least 16 characters"))
  /\ (16 <= length uid -> length ev < 1 \/ 100 < length ev ->
      call = Err (raise_exception "event must be between 1 and 100 characters"))
  /\ (16 <= length uid -> 1 <= length ev <= 100 ->
      jsonb_typeof props <> "object" ->
      call = Err (raise_exception "properties must be a JSON object")).
Proof.
  intros call. subst call.
  unfold insert_telemetry_event, validate_telemetry_event.
  split; [| split]; intros.
  - now replace (length uid <? 16) with true by (symmetry; apply Z.ltb_lt; lia).
  - replace (length uid <? 16) with false by (symmetry; apply Z.ltb_ge; lia).
    replace ((length ev <? 1) || (length ev >? 100)) with true; [reflexivity |].
    symmetry. apply orb_true_iff. rewrite Z.gtb_ltb, !Z.ltb_lt. tauto.
  - replace (length uid <? 16) with false by (symmetry; apply Z.ltb_ge; lia).
    replace (length ev <? 1) with false by (symmetry; apply Z.ltb_ge; lia).
    replace (length ev >? 100) with false
      by (symmetry; rewrite Z.gtb_ltb; apply Z.ltb_ge; lia).
    simpl.
    destruct (String.eqb_spec (jsonb_typeof props) "object") as [E | _];
      [contradiction | reflexivity].
Qed.

Lemma insert_telemetry_event_rejects_witness :
  insert_telemetry_event all_privileges pg_boolean_to_integer anon now_2025
    7%N "short" "" (JArray []) empty_database
  = Err (raise_exception "user_id must be at least 16 characters")
  /\ insert_telemetry_event all_privileges pg_boolean_to_integer anon now_2025
       7%N user_a "" (JArray []) empty_database
     = Err (raise_exception "event must be between 1 and 100 characters")
  /\ insert_telemetry_event all_privileges pg_boolean_to_integer anon now_2025
       7%N user_a "tool_usage" (JArray []) empty_database
     = Err (raise_exception "properties must be a JSON object").
Proof.
  split; [| split].
  - apply (proj1 (insert_telemetry_event_rejects all_privileges
                    pg_boolean_to_integer anon now_2025 7%N "short" ""
                    (JArray []) empty_database)).
    unfold length. simpl. lia.
  - apply (proj1 (proj2 (insert_telemetry_event_rejects all_privileges
                           pg_boolean_to_integer anon now_2025 7%N user_a ""
                           (JArray []) empty_database))).
    + unfold length. simpl. lia.
    + unfold length. simpl. lia.
  - apply (proj2 (proj2 (insert_telemetry_event_rejects all_privileges
                           pg_boolean_to_integer anon now_2025 7%N user_a
                           "tool_usage" (JArray []) empty_database))).
    + unfold length. simpl. lia.
    + unfold length. simpl. lia.
    + simpl. discriminate.
Defined.

Lemma audit_trail_entries op tbl n before after :
  audit_trail op tbl n before after ->
  exists entries, after = before ++ entries /\ Z.of_nat (List.length entries) = n.
Proof. intros (entries & H1 & H2 & _). eauto. Qed.

Lemma insert_telemetry_event_appends P b2i s now new_id uid ev props db r db' :
  insert_telemetry_event P b2i s now new_id uid ev props db = Ok (r, db') ->
  exists u entries,
    varchar_assign 64 uid = Ok u
    /\ r = Some new_id
    /\ db' = with_audit_log (telemetry_audit_log db ++ entries)
               (with_events
                  (telemetry_events db ++ [mkevent new_id u ev props now]) db)
    /\ (List.length entries <= 1)%nat.
Proof.
  intros H. unfold insert_telemetry_event in H. inv_ok.
  match goal with
  | Hv : validate_telemetry_event _ _ _ = Ok ?u |- _ =>
      destruct u; apply validate_telemetry_event_Ok_iff in Hv;
      destruct Hv as (Hu & He & Hp)
  end.
  unfold sql_insert in *. inv_ok.
  simpl in *. inv_ok.
  unfold insert_row in *. simpl in *. inv_ok.
  rewrite (varchar_assign_fits 100 ev) in * by (unfold length in He; lia).
  inv_ok.
  destruct (violated_unique events_store _ (telemetry_events db));
    [discriminate |].
  inv_ok. cbn [app map ev_id] in *.
  match goal with
  | Ht : fire_row_triggers _ _ _ _ _ _ _ _ = Ok _ |- _ =>
      apply fire_row_triggers_Ok in Ht; [| simpl; lia];
      apply audit_trail_entries in Ht; destruct Ht as (entries & -> & Hn)
  end.
  eexists. exists entries.
  split; [eassumption |]. split; [reflexivity |]. split; [reflexivity |].
  destruct (non_anonymous_operation _ _); simpl in Hn; lia.
Qed.

Lemma insert_telemetry_workflow_appends P b2i s now new_id uid hash n types
    ht hw c sw db r db' :
  insert_telemetry_workflow P b2i s now new_id uid hash n types ht hw c sw db
  = Ok (r, db') ->
  exists u,
    varchar_assign 64 uid = Ok u
    /\ ((r = None /\ db' = db
         /\ existsb (same_submission hash u) (telemetry_workflows db) = true)
        \/ (exists entries,
              r = Some new_id
              /\ existsb (same_submission hash u) (telemetry_workflows db)
                 = false
              /\ db' = with_audit_log (telemetry_audit_log db ++ entries)
                         (with_workflows
                            (telemetry_workflows db
                             ++ [mkworkflow new_id u hash n types ht hw c sw
                                   now]) db)
              /\ (List.length entries <= 1)%nat)).
Proof.
  intros H. unfold insert_telemetry_workflow in H. inv_ok.
  match goal with
  | Hv : validate_telemetry_workflow _ _ _ _ _ _ = Ok ?u |- _ =>
      destruct u; apply validate_telemetry_workflow_Ok_iff in Hv;
      destruct Hv as (Hu & Hh & Hn & Hc & Hs)
  end.
  unfold sql_insert in *. inv_ok.
  simpl in *. inv_ok.
  unfold insert_row in *. simpl in *. inv_ok.
  rewrite (varchar_assign_fits 64 hash) in * by (unfold length in Hh; lia).
  rewrite (varchar_assign_fits 20 c) in * by (now apply complexity_enum_fits).
  inv_ok.
  match goal with
  | Hv : varchar_assign 64 uid = Ok ?u |- _ => exists u; split; [exact Hv |]
  end.
  unfold conflicts_on, violated_unique in *. simpl in *.
  match goal with
  | |- context [existsb (same_submission ?h ?u) _] =>
      fold (same_submission h u) in *;
      destruct (existsb (same_submission h u) (telemetry_workflows db))
  end.
  - left. cbn [orb] in *. inv_ok. cbn in *. inv_ok.
    repeat split. now destruct db.
  - right. cbn [orb] in *.
    destruct (existsb _ (telemetry_workflows db)); [discriminate |].
    cbn in *. inv_ok. cbn [app map wf_id hd_error option_map List.length] in *.
    match goal with
    | Ht : fire_row_triggers _ _ _ _ _ _ _ _ = Ok _ |- _ =>
        apply fire_row_triggers_Ok in Ht; [| simpl; lia];
        apply audit_trail_entries in Ht; destruct Ht as (entries & -> & Hlen)
    end.
    exists entries. repeat split.
    destruct (non_anonymous_operation _ _); simpl in Hlen; lia.
Qed.

(** X22.  What a successful call of an insert function changes, whoever the
    caller: it appends its one row to its table -- the values as given, the
    user id as the column VARCHAR(64) stores it, [created_at] the time of
    the call -- and at most one entry to the audit log; it changes and
    removes no stored row and touches nothing else.  The workflow function
    may also return NULL: then the pair is stored already and the database
    is as it was. *)
Theorem insert_functions_only_append
    (P : string -> string -> command -> bool) (b2i : bool -> option Z)
    (s : session) (now : timestamptz) (new_id : uuid) (db : database) :
  (forall uid ev props r db',
     insert_telemetry_event P b2i s now new_id uid ev props db = Ok (r, db') ->
     exists u entries,
       varchar_assign 64 uid = Ok u
       /\ r = Some new_id
       /\ db' = with_audit_log (telemetry_audit_log db ++ entries)
                  (with_events
                     (telemetry_events db ++ [mkevent new_id u ev props now])
                     db)
       /\ (List.length entries <= 1)%nat)
  /\ (forall uid hash n types ht hw c sw r db',
     insert_telemetry_workflow P b2i s now new_id uid hash n types ht hw c sw db
     = Ok (r, db') ->
     exists u,
       varchar_assign 64 uid = Ok u
       /\ ((r = None /\ db' = db
            /\ existsb (same_submission hash u) (telemetry_workflows db) = true)
           \/ (exists entries,
                 r = Some new_id
                 /\ existsb (same_submission hash u) (telemetry_workflows db)
                    = false
                 /\ db' = with_audit_log (telemetry_audit_log db ++ entries)
                            (with_workflows
                               (telemetry_workflows db
                                ++ [mkworkflow new_id u hash n types ht hw c
                                      sw now]) db)
                 /\ (List.length entries <= 1)%nat))).
Proof.
  split.
  - intros uid ev props r db'. apply insert_telemetry_event_appends.
  - intros uid hash n types ht hw c sw r db'.
    apply insert_telemetry_workflow_appends.
Qed.

Lemma insert_functions_only_append_witness :
  exists u entries,
    varchar_assign 64 user_padded = Ok u
    /\ Some 7%N = Some 7%N
    /\ with_events [mkevent 7%N (substring 0 64 user_padded) "tool_usage"
                      (JObject []) now_2025] empty_database
       = with_audit_log (telemetry_audit_log empty_database ++ entries)
           (with_events
              (telemetry_events empty_database
               ++ [mkevent 7%N u "tool_usage" (JObject []) now_2025])
              empty_database)
    /\ (List.length entries <= 1)%nat.
Proof.
  apply (proj1 (insert_functions_only_append all_privileges
                  pg_boolean_to_integer anon now_2025 7%N empty_database)
           user_padded "tool_usage" (JObject []) (Some 7%N)).
  reflexivity.
Defined.

(** ** Partitions month by month *)

Lemma date_ord_next_month (d : date) :
  day d = 1 -> 1 <= month d <= 12 ->
  date_ord d = (year d * 12 + (month d - 1)) * 31
  /\ date_ord (add_months d 1) = (year d * 12 + month d) * 31.
Proof.
  intros Hd Hm. rewrite add_months_first_day by assumption.
  unfold date_ord. cbn [year month day]. rewrite Hd.
  destruct (Z.eqb_spec (month d) 12); lia.
Qed.

(** The range of a month holds the dates of that month and no other. *)
Lemma month_range_covers (d x : date) :
  day d = 1 -> 1 <= month d <= 12 ->
  1 <= month x <= 12 -> 1 <= day x <= 31 ->
  date_leb d x && date_ltb x (add_months d 1) = true
  <-> year x = year d /\ month x = month d.
Proof.
  intros Hd Hm Hmx Hdx.
  destruct (date_ord_next_month d Hd Hm) as [H1 H2].
  unfold date_leb, date_ltb.
  rewrite andb_true_iff, Z.leb_le, Z.ltb_lt, H1, H2.
  unfold date_ord. lia.
Qed.

Lemma months_disjoint (d1 d2 : date) :
  day d1 = 1 -> 1 <= month d1 <= 12 ->
  day d2 = 1 -> 1 <= month d2 <= 12 ->
  year d1 <> year d2 \/ month d1 <> month d2 ->
  partition_overlaps d1 (add_months d1 1) d2 (add_months d2 1) = false.
Proof.
  intros Hd1 Hm1 Hd2 Hm2 Hne.
  destruct (date_ord_next_month d1 Hd1 Hm1) as [H1 H1'].
  destruct (date_ord_next_month d2 Hd2 Hm2) as [H2 H2'].
  unfold partition_overlaps, date_ltb.
  rewrite H1, H1', H2, H2'.
  apply andb_false_iff. rewrite !Z.ltb_ge. lia.
Qed.

Lemma to_char_YYYY_MM_length (d : date) :
  year d <= 9999 -> month d <= 12 ->
  String.length (to_char_YYYY_MM d) = 7%nat.
Proof.
  intros Hy Hm. rewrite to_char_YYYY_MM_four_digits by assumption.
  rewrite !length_append, !digits_length. reflexivity.
Qed.

Lemma to_char_YYYY_MM_inj (d1 d2 : date) :
  0 <= year d1 <= 9999 -> 0 <= year d2 <= 9999 ->
  1 <= month d1 <= 12 -> 1 <= month d2 <= 12 ->
  to_char_YYYY_MM d1 = to_char_YYYY_MM d2 ->
  year d1 = year d2 /\ month d1 = month d2.
Proof.
  intros Hy1 Hy2 Hm1 Hm2 H.
  rewrite !to_char_YYYY_MM_four_digits in H by lia.
  apply append_inj in H; [| now rewrite !digits_length].
  destruct H as [Hy Hm].
  apply (append_cancel_l "_") in Hm.
  apply digits_inj in Hy. apply digits_inj in Hm.
  change (10 ^ Z.of_nat 4) with 10000 in Hy.
  change (10 ^ Z.of_nat 2) with 100 in Hm.
  rewrite !Z.mod_small in Hy, Hm by lia. auto.
Qed.

(** Names of partitions agree only for one table and one month. *)
Lemma partition_name_inj (t1 t2 : string) (d1 d2 : date) :
  0 <= year d1 <= 9999 -> 0 <= year d2 <= 9999 ->
  1 <= month d1 <= 12 -> 1 <= month d2 <= 12 ->
  (t1 ++ "_" ++ to_char_YYYY_MM d1)%string
  = (t2 ++ "_" ++ to_char_YYYY_MM d2)%string ->
  t1 = t2 /\ year d1 = year d2 /\ month d1 = month d2.
Proof.
  intros Hy1 Hy2 Hm1 Hm2 H.
  assert (Hlen : String.length t1 = String.length t2).
  { apply (f_equal String.length) in H.
    rewrite !length_append, !to_char_YYYY_MM_length in H by lia. lia. }
  apply append_inj in H; [| exact Hlen].
  destruct H as [Ht H]. split; [exact Ht |].
  apply (append_cancel_l "_") in H.
  now apply to_char_YYYY_MM_inj.
Qed.

Lemma first_day_eq (d1 d2 : date) :
  day d1 = 1 -> day d2 = 1 -> year d1 = year d2 -> month d1 = month d2 ->
  d1 = d2.
Proof.
  destruct d1, d2. simpl. intros -> -> -> ->. reflexivity.
Qed.

Lemma partition_name_is_new (table_name : string) (d : date) :
  table_name = "telemetry_events" \/ table_name = "telemetry_workflows" ->
  existsb (String.eqb (table_name ++ "_" ++ to_char_YYYY_MM d)%string)
    ["telemetry_events"; "telemetry_workflows"; "telemetry_audit_log"]
  = false.
Proof.
  intros [-> | ->]; reflexivity.
Qed.

(** X23.  Kept to the first days of months, the partition function does
    what its name says.  On a partitioned telemetry table whose partitions
    were all made for first days of months (years of four digits), a call
    for the first day of a month succeeds, leaves the partitions of that
    kind, and leaves a partition of the table that holds the dates of that
    month and no others. *)
Theorem create_telemetry_partition_monthly
    (table_name : string) (d : date) (db : database) :
  table_name = "telemetry_events" \/ table_name = "telemetry_workflows" ->
  In table_name (partitioned_tables db) ->
  Forall monthly_partition (partitions db) ->
  day d = 1 -> 1 <= month d <= 12 -> 0 <= year d <= 9999 ->
  exists db' p,
    create_telemetry_partition table_name d db = Ok db'
    /\ Forall monthly_partition (partitions db')
    /\ In p (partitions db')
    /\ p = mkpartition (table_name ++ "_" ++ to_char_YYYY_MM d)%string
             table_name d (add_months d 1)
    /\ (forall x, 1 <= month x <= 12 -> 1 <= day x <= 31 ->
          partition_covers p x = true
          <-> year x = year d /\ month x = month d).
Proof.
  intros Htable Hpart Hall Hd Hm Hy.
  set (name := (table_name ++ "_" ++ to_char_YYYY_MM d)%string).
  set (p := mkpartition name table_name d (add_months d 1)).
  assert (Hp : monthly_partition p).
  { exists d. repeat split; (assumption || lia). }
  assert (Hcov : forall x, 1 <= month x <= 12 -> 1 <= day x <= 31 ->
                   partition_covers p x = true
                   <-> year x = year d /\ month x = month d).
  { intros x Hmx Hdx. unfold partition_covers, p. cbn [part_from part_to].
    now apply month_range_covers. }
  rewrite create_telemetry_partition_unfold by exact Htable. fold name.
  destruct (relation_exists name db) eqn:Hex.
  - exists db, p. rewrite create_partition_exists by exact Hex.
    split; [reflexivity |]. split; [exact Hall |].
    split; [| split; [reflexivity | exact Hcov]].
    unfold relation_exists in Hex.
    change (existsb (String.eqb name)
              (["telemetry_events"; "telemetry_workflows";
                "telemetry_audit_log"] ++ map part_name (partitions db))
            = true) in Hex.
    rewrite existsb_app in Hex. unfold name in Hex at 1.
    rewrite partition_name_is_new in Hex by exact Htable.
    cbn [orb] in Hex. apply existsb_exists in Hex.
    destruct Hex as (n & Hin & Hn). apply String.eqb_eq in Hn. subst n.
    apply in_map_iff in Hin. destruct Hin as (q & Hq & Hin).
    rewrite Forall_forall in Hall.
    destruct (Hall q Hin) as (dq & Hdq & Hmq & Hyq & Eq).
    rewrite Eq in Hq. cbn [part_name] in Hq. unfold name in Hq.
    apply partition_name_inj in Hq; try assumption.
    destruct Hq as (Hparent & Hyear & Hmonth).
    assert (dq = d) by (now apply first_day_eq). subst dq.
    replace p with q; [exact Hin |].
    rewrite Eq. unfold p, name. now rewrite Hparent.
  - exists (with_partitions (partitions db ++ [p]) db), p.
    split.
    + apply create_partition_new; [exact Hex | exact Hpart |].
      intros q Hin Hparent.
      rewrite Forall_forall in Hall.
      destruct (Hall q Hin) as (dq & Hdq & Hmq & Hyq & Eq).
      assert (Hq : part_from q = dq /\ part_to q = add_months dq 1)
        by (rewrite Eq; split; reflexivity).
      destruct Hq as [-> ->].
      apply months_disjoint; try assumption.
      destruct (Z.eq_dec (year d) (year dq)) as [Ey | Ey]; [| now left].
      destruct (Z.eq_dec (month d) (month dq)) as [Em | Em]; [| now right].
      exfalso.
      assert (d = dq) by (now apply first_day_eq). subst dq.
      assert (Hname : part_name q = name)
        by (rewrite Eq; cbn [part_name]; unfold name; now rewrite Hparent).
      assert (Hin' : In name
                       ("telemetry_events" :: "telemetry_workflows"
                          :: "telemetry_audit_log"
                          :: map part_name (partitions db))).
      { do 3 right. apply in_map_iff. eauto. }
      unfold relation_exists in Hex.
      now rewrite (existsb_eqb_In _ _ Hin') in Hex.
    + cbn [partitions with_partitions].
      split; [apply Forall_app; split; [exact Hall | now constructor] |].
      split; [apply in_or_app; right; now left |].
      split; [reflexivity | exact Hcov].
Qed.

Lemma create_telemetry_partition_monthly_witness :
  exists db' p,
    create_telemetry_partition "telemetry_events" (mkdate 2025 2 1)
      (with_partitions [partition_january] database_partitioned) = Ok db'
    /\ Forall monthly_partition (partitions db')
    /\ In p (partitions db')
    /\ p = mkpartition
             ("telemetry_events" ++ "_" ++ to_char_YYYY_MM (mkdate 2025 2 1))%string
             "telemetry_events" (mkdate 2025 2 1)
             (add_months (mkdate 2025 2 1) 1)
    /\ (forall x, 1 <= month x <= 12 -> 1 <= day x <= 31 ->
          partition_covers p x = true
          <-> year x = year (mkdate 2025 2 1) /\ month x = month (mkdate 2025 2 1)).
Proof.
  apply (create_telemetry_partition_monthly "telemetry_events" (mkdate 2025 2 1)
           (with_partitions [partition_january] database_partitioned)).
  - now left.
  - simpl. tauto.
  - constructor; [| constructor].
    exists (mkdate 2025 1 1). simpl. repeat split; lia.
  - reflexivity.
  - simpl. lia.
  - simpl. lia.
Defined.

(** ** The anonymous role and the rows *)

(** X24.  What row level security does for the role [anon], whatever the
    table privileges and whatever the statement's conditions: a SELECT on
    either telemetry table returns no row, an UPDATE or a DELETE touches no
    row and leaves the database -- tables and audit log -- as it was.  The
    statement is refused, with "permission denied", exactly when the role
    lacks a table privilege it needs: SELECT for a SELECT, and for an UPDATE
    or a DELETE its own privilege and SELECT for the columns read. *)
Theorem anon_select_update_delete
    (P : string -> string -> command -> bool) (b2i : bool -> option Z)
    (now : timestamptz) (db : database) :
  (forall w,
     sql_select P events_store anon w db =
       if P "anon" "telemetry_events" SELECT then Ok []
       else Err (insufficient_privilege "telemetry_events"))
  /\ (forall set w,
     sql_update P b2i events_store anon now set w db =
       if P "anon" "telemetry_events" UPDATE
          && P "anon" "telemetry_events" SELECT
       then Ok (0, db)
       else Err (insufficient_privilege "telemetry_events"))
  /\ (forall w,
     sql_delete P b2i events_store anon now w db =
       if P "anon" "telemetry_events" DELETE
          && P "anon" "telemetry_events" SELECT
       then Ok (0, db)
       else Err (insufficient_privilege "telemetry_events"))
  /\ (forall w,
     sql_select P workflows_store anon w db =
       if P "anon" "telemetry_workflows" SELECT then Ok []
       else Err (insufficient_privilege "telemetry_workflows"))
  /\ (forall set w,
     sql_update P b2i workflows_store anon now set w db =
       if P "anon" "telemetry_workflows" UPDATE
          && P "anon" "telemetry_workflows" SELECT
       then Ok (0, db)
       else Err (insufficient_privilege "telemetry_workflows"))
  /\ (forall w,
     sql_delete P b2i workflows_store anon now w db =
       if P "anon" "telemetry_workflows" DELETE
          && P "anon" "telemetry_workflows" SELECT
       then Ok (0, db)
       else Err (insufficient_privilege "telemetry_workflows")).
Proof.
  repeat split; intros.
  - apply (sql_select_unseen P events_store). reflexivity.
  - apply (sql_update_unseen P b2i events_store events_put_same). reflexivity.
  - apply (sql_delete_unseen P b2i events_store events_put_same). reflexivity.
  - apply (sql_select_unseen P workflows_store). reflexivity.
  - apply (sql_update_unseen P b2i workflows_store workflows_put_same). reflexivity.
  - apply (sql_delete_unseen P b2i workflows_store workflows_put_same). reflexivity.
Qed.
